(** * TDM slave frame-exchange engine (modules/i2s/src/tdm_slave.c)

    A shallow embedding of the TDM slave driver: the 16-bit bit packer
    (the [OUT16] and [IN16] macros), the double-buffer rotation
    ([commit_buffers]), the frame interrupt handler ([tdm_isr]), the output
    preload ([preload_data]) and the engine's two nested loops
    ([tdm_main_loop], entered from [tdm_slave]).

    The target is a 32-bit xcore: [size_t], [uint32_t] and
    [port_timestamp_t] are unsigned 32-bit words, modelled as [Z] with the
    wrap-around written out. *)

From Stdlib Require Import ZArith List Bool Lia.
Import ListNotations.

Local Open Scope Z_scope.

(** ** Machine words *)

Module Word.

Definition modulus : Z := 2 ^ 32.

(** Conversion of a C integer to [uint32_t]. *)
Definition to_uint32 (x : Z) : Z := x mod modulus.

(** Conversion of a [uint32_t] to [int32_t] (two's complement). *)
Definition to_int32 (x : Z) : Z :=
  let u := to_uint32 x in
  if u <? 2 ^ 31 then u else u - modulus.

(** Conversion of a C integer to [uint8_t]. *)
Definition to_uint8 (x : Z) : Z := x mod 2 ^ 8.

(** Unsigned 32-bit addition. *)
Definition add32 (a b : Z) : Z := (a + b) mod modulus.

(** Unsigned 32-bit multiplication. *)
Definition mul32 (a b : Z) : Z := (a * b) mod modulus.

(** The word whose bit [i] is [f i] for [0 <= i < n], and whose other
    bits are clear. *)
Fixpoint of_bits (n : nat) (f : Z -> bool) : Z :=
  match n with
  | O => 0
  | S k => Z.lor (Z.shiftl (Z.b2z (f (Z.of_nat k))) (Z.of_nat k)) (of_bits k f)
  end.

(** [bitrev d, s]: reverses the order of the 32 bits of a word. *)
Definition bitrev (x : Z) : Z :=
  of_bits 32 (fun i => Z.testbit x (31 - i)).

(** [zip d, e, s]: the 64-bit interleaving of the two words in chunks of
    [2^s] bits, a chunk of [d] above the matching chunk of [e]; [d]
    receives the upper word and [e] the lower word.  For [s = 4] this is
    what the comment above [OUT16] records: X = ABCD, Y = EFGH leaves
    CDGH in Y. *)
Definition zip64 (d e s : Z) : Z :=
  of_bits 64 (fun i =>
    let c := 2 ^ s in
    let k := i / c in
    let src := (k / 2) * c + i mod c in
    if Z.odd k then Z.testbit d src else Z.testbit e src).

Definition zip (d e s : Z) : Z * Z :=
  let x := zip64 d e s in
  (Z.shiftr x 32, Z.land x (Z.ones 32)).

(** [unzip d, e, s]: the inverse move.  The 64-bit value [d:e] is split
    in chunks of [2^s] bits; the odd chunks are gathered in [d] and the
    even ones in [e].  For [s = 4] this is what the comment above
    [IN16] records: X = XXXXXXXX, Y = ABCDEFGH (nibbles) gives
    X = XXXXABCD and Y = XXXXEFGH. *)
Definition unzip (d e s : Z) : Z * Z :=
  let x := Z.lor (Z.shiftl (to_uint32 d) 32) (to_uint32 e) in
  let c := 2 ^ s in
  (of_bits 32 (fun m => Z.testbit x ((2 * (m / c) + 1) * c + m mod c)),
   of_bits 32 (fun m => Z.testbit x ((2 * (m / c)) * c + m mod c))).

End Word.

Import Word.

(** ** Bit packer: the [OUT16] and [IN16] macros

    Each macro takes two registers and rewrites both; the pair returned is
    the new (X, Y). *)

(** [OUT16(X, Y)]: [zip X, Y, 4] then [bitrev Y, Y]. *)
Definition OUT16 (X Y : Z) : Z * Z :=
  let '(X1, Y1) := zip X Y 4 in
  (X1, bitrev Y1).

(** [IN16(X, Y)]: [bitrev Y, Y] then [unzip X, Y, 4]. *)
Definition IN16 (X Y : Z) : Z * Z :=
  let Y1 := bitrev Y in
  unzip X Y1 4.

(** The word that [preload_data] sends for the channel pair (ch0, ch1):
    [out] is loaded from channel 1 and [tmp] from channel 0, and the macro
    is applied as [OUT16(tmp, out)]. *)
Definition pack16 (ch0 ch1 : Z) : Z :=
  snd (OUT16 (to_uint32 ch0) (to_uint32 ch1)).

(** The two samples that [tdm_isr] stores for a received word: [d0] starts
    at zero, [d1] is the port word, and the macro is applied as
    [IN16(d0, d1)]. *)
Definition unpack16 (w : Z) : Z * Z :=
  IN16 0 w.

(** ** Data model (api/tdm.h) *)

Definition TDM_MAX_CHANS : Z := 16.
Definition TDM_MAX_PORTS : Z := 4.

(** Default value of the macro in tdm_slave.c. *)
Definition TDM_PORT_BUFFER_BITS : Z := 32.

Inductive tdm_slave_bclk_polarity_t :=
| TDM_SLAVE_SAMPLE_ON_BCLK_RISING
| TDM_SLAVE_SAMPLE_ON_BCLK_FALLING.

Record tdm_config_t := {
  mclk_bclk_ratio : Z;
  slave_bclk_polarity : tdm_slave_bclk_polarity_t;
  offset : Z
}.

Inductive tdm_restart_t := TDM_NO_RESTART | TDM_RESTART | TDM_SHUTDOWN.

(** [tdm_sample_buffer_t]: [TDM_MAX_PORTS] lines of [TDM_MAX_CHANS] signed
    32-bit samples.  The contents are a map from (line, channel) to the
    sample; the array bounds are checked at every access ([sample_get],
    [sample_set]), an access outside them being undefined behaviour in C. *)
Definition tdm_sample_buffer_t := Z -> Z -> Z.

Definition line_ok (l : Z) : bool := (0 <=? l) && (l <? TDM_MAX_PORTS).
Definition channel_ok (c : Z) : bool := (0 <=? c) && (c <? TDM_MAX_CHANS).

Definition sample_get (b : tdm_sample_buffer_t) (l c : Z) : option Z :=
  if line_ok l && channel_ok c then Some (b l c) else None.

Definition sample_set (b : tdm_sample_buffer_t) (l c v : Z)
  : option tdm_sample_buffer_t :=
  if line_ok l && channel_ok c
  then Some (fun l' c' => if (l' =? l) && (c' =? c) then v else b l' c')
  else None.

(** [memset(&buf, 0, sizeof buf)]. *)
Definition zero_buffer : tdm_sample_buffer_t := fun _ _ => 0.

(** [tdm_sample_double_buffer_t]: [buffer[2]], as a map from the index. *)
Definition tdm_sample_double_buffer_t := Z -> tdm_sample_buffer_t.

Definition buffer_index_ok (i : Z) : bool := (0 <=? i) && (i <? 2).

(** The two double buffers are the locals [in_s] and [out_s] of
    [tdm_main_loop]; a [tdm_sample_buffer_t *] is the address
    [&(base->buffer[index])]. *)
Inductive double_buffer_id := In_s | Out_s.

Record buffer_ptr := {
  ptr_base : double_buffer_id;
  ptr_index : Z
}.

Definition double_buffer_id_eqb (a b : double_buffer_id) : bool :=
  match a, b with
  | In_s, In_s | Out_s, Out_s => true
  | _, _ => false
  end.

Definition buffer_ptr_eqb (p q : buffer_ptr) : bool :=
  double_buffer_id_eqb (ptr_base p) (ptr_base q) && (ptr_index p =? ptr_index q).

(** [tdm_slave_loop_args_t], without the port and clock handles (the ports
    are named by [port_t] below). *)
Record tdm_slave_loop_args_t := {
  num_out : Z;
  num_in : Z;
  num_chans : Z;
  num_data_bits : Z;
  frame_len : Z;
  num_bclk_cycles_offset : Z
}.

(** [tdm_interrupt_data_t]; its [args] pointer refers to the one argument
    record of the machine. *)
Record tdm_interrupt_data_t := {
  working_in_buffer : buffer_ptr;
  working_out_buffer : buffer_ptr;
  fsync_time : Z;
  first_time : bool;
  tx_fragment_no : Z;
  rx_fragment_no : Z
}.

(** ** Ports and the call trace *)

Inductive port_t :=
| p_bclk
| p_fsync
| p_dout (line : Z)
| p_din (line : Z).

(** Where the process callback is called from: the call in the outer loop
    before the first commit, or the call of the running loop. *)
Inductive process_site := Priming | PerFrame.

(** Calls that leave the engine: the port/clock HAL, the application
    callbacks and the assertions, in program order, and a mark for every
    [commit_buffers]. *)
Inductive event :=
| Ev_xassert (holds : bool)
| Ev_clock_enable
| Ev_port_reset (p : port_t)
| Ev_clock_set_source_port (p : port_t)
| Ev_port_set_clock (p : port_t)
| Ev_port_enable (p : port_t)
| Ev_port_start_buffered (p : port_t) (width : Z)
| Ev_port_clear_buffer (p : port_t)
| Ev_port_out (p : port_t) (w : Z)
| Ev_interrupt_mask_all
| Ev_interrupt_unmask_all
| Ev_port_set_invert (p : port_t)
| Ev_port_set_no_invert (p : port_t)
| Ev_clock_start
| Ev_port_in_when_pinseq (p : port_t) (value : Z)
| Ev_port_get_trigger_time (p : port_t) (t : Z)
| Ev_port_clear_trigger_time (p : port_t)
| Ev_port_set_trigger_time (p : port_t) (t : Z)
| Ev_triggerable_setup_interrupt_callback (p : port_t)
| Ev_triggerable_enable_trigger (p : port_t)
| Ev_triggerable_disable_trigger (p : port_t)
| Ev_port_in (p : port_t) (w : Z)
| Ev_port_out_at_time (p : port_t) (t : Z) (w : Z)
| Ev_init
| Ev_restart_check (r : tdm_restart_t)
| Ev_process (site : process_site) (receive_samples send_samples : buffer_ptr)
| Ev_commit_buffers.

(** ** The application callbacks ([tdm_callback_group_t])

    [App] is the application state behind [app_data].  [init] fills the
    configuration it is handed; [process] receives both sample buffers by
    address and may write either. *)
Record tdm_callback_group_t (App : Type) := {
  init : App -> tdm_config_t -> App * tdm_config_t;
  restart_check : App -> App * tdm_restart_t;
  process : App -> Z -> Z -> Z -> Z ->
            tdm_sample_buffer_t -> tdm_sample_buffer_t ->
            App * (tdm_sample_buffer_t * tdm_sample_buffer_t)
}.

Arguments init {App}.
Arguments restart_check {App}.
Arguments process {App}.

(** ** Machine state

    The locals of [tdm_main_loop], the static selector of
    [commit_buffers], the application state, the trigger time held by the
    bit-clock port, and the trace of calls made so far. *)
Record machine (App : Type) := {
  args : tdm_slave_loop_args_t;
  tdm_config : tdm_config_t;
  in_s : tdm_sample_double_buffer_t;
  out_s : tdm_sample_double_buffer_t;
  tdm_interrupt_data : tdm_interrupt_data_t;
  safe_in_buffer : buffer_ptr;
  safe_out_buffer : buffer_ptr;
  restart : tdm_restart_t;
  current_buf_no : Z;
  app_data : App;
  bclk_trigger_time : Z;
  trace : list event
}.

Arguments args {App}.
Arguments tdm_config {App}.
Arguments in_s {App}.
Arguments out_s {App}.
Arguments tdm_interrupt_data {App}.
Arguments safe_in_buffer {App}.
Arguments safe_out_buffer {App}.
Arguments restart {App}.
Arguments current_buf_no {App}.
Arguments app_data {App}.
Arguments bclk_trigger_time {App}.
Arguments trace {App}.

(** ** State and undefined-behaviour monad

    A command takes the machine to a result and a new machine, or to
    [None] when it would index a sample buffer outside its bounds. *)

Definition M (App A : Type) : Type := machine App -> option (A * machine App).

Definition ret {App A : Type} (a : A) : M App A := fun st => Some (a, st).

Definition bind {App A B : Type} (c : M App A) (k : A -> M App B) : M App B :=
  fun st =>
    match c st with
    | Some (a, st') => k a st'
    | None => None
    end.

Declare Scope tdm_scope.
Delimit Scope tdm_scope with tdm.

Notation "x <- c ;; k" := (bind c (fun x => k))
  (at level 61, c at next level, right associativity) : tdm_scope.
Notation "c ;; k" := (bind c (fun _ => k))
  (at level 61, right associativity) : tdm_scope.

Definition gets {App A : Type} (f : machine App -> A) : M App A :=
  fun st => Some (f st, st).

Definition modify {App : Type} (f : machine App -> machine App) : M App unit :=
  fun st => Some (tt, f st).

Definition undefined {App A : Type} : M App A := fun _ => None.

Inductive loop_ctl := Continue | Break.

(** [for (int i = start; i < ...; i++)] run for at most [n] rounds; a round
    that ends in [break] leaves the loop. *)
Fixpoint for_loop {App : Type} (n : nat) (i : Z) (body : Z -> M App loop_ctl)
  : M App unit :=
  match n with
  | O => ret tt
  | S n' =>
      bind (body i) (fun c =>
        match c with
        | Break => ret tt
        | Continue => for_loop n' (i + 1) body
        end)
  end.

(** ** Field updates *)

Section Setters.

Context {App : Type}.

Definition set_args (a : tdm_slave_loop_args_t) (m : machine App) : machine App :=
  {| args := a; tdm_config := tdm_config m; in_s := in_s m; out_s := out_s m;
     tdm_interrupt_data := tdm_interrupt_data m;
     safe_in_buffer := safe_in_buffer m; safe_out_buffer := safe_out_buffer m;
     restart := restart m; current_buf_no := current_buf_no m;
     app_data := app_data m; bclk_trigger_time := bclk_trigger_time m;
     trace := trace m |}.

Definition set_tdm_config (c : tdm_config_t) (m : machine App) : machine App :=
  {| args := args m; tdm_config := c; in_s := in_s m; out_s := out_s m;
     tdm_interrupt_data := tdm_interrupt_data m;
     safe_in_buffer := safe_in_buffer m; safe_out_buffer := safe_out_buffer m;
     restart := restart m; current_buf_no := current_buf_no m;
     app_data := app_data m; bclk_trigger_time := bclk_trigger_time m;
     trace := trace m |}.

Definition set_in_s (b : tdm_sample_double_buffer_t) (m : machine App) : machine App :=
  {| args := args m; tdm_config := tdm_config m; in_s := b; out_s := out_s m;
     tdm_interrupt_data := tdm_interrupt_data m;
     safe_in_buffer := safe_in_buffer m; safe_out_buffer := safe_out_buffer m;
     restart := restart m; current_buf_no := current_buf_no m;
     app_data := app_data m; bclk_trigger_time := bclk_trigger_time m;
     trace := trace m |}.

Definition set_out_s (b : tdm_sample_double_buffer_t) (m : machine App) : machine App :=
  {| args := args m; tdm_config := tdm_config m; in_s := in_s m; out_s := b;
     tdm_interrupt_data := tdm_interrupt_data m;
     safe_in_buffer := safe_in_buffer m; safe_out_buffer := safe_out_buffer m;
     restart := restart m; current_buf_no := current_buf_no m;
     app_data := app_data m; bclk_trigger_time := bclk_trigger_time m;
     trace := trace m |}.

Definition set_tdm_interrupt_data (d : tdm_interrupt_data_t) (m : machine App)
  : machine App :=
  {| args := args m; tdm_config := tdm_config m; in_s := in_s m; out_s := out_s m;
     tdm_interrupt_data := d;
     safe_in_buffer := safe_in_buffer m; safe_out_buffer := safe_out_buffer m;
     restart := restart m; current_buf_no := current_buf_no m;
     app_data := app_data m; bclk_trigger_time := bclk_trigger_time m;
     trace := trace m |}.

Definition set_safe_buffers (pin pout : buffer_ptr) (m : machine App) : machine App :=
  {| args := args m; tdm_config := tdm_config m; in_s := in_s m; out_s := out_s m;
     tdm_interrupt_data := tdm_interrupt_data m;
     safe_in_buffer := pin; safe_out_buffer := pout;
     restart := restart m; current_buf_no := current_buf_no m;
     app_data := app_data m; bclk_trigger_time := bclk_trigger_time m;
     trace := trace m |}.

Definition set_restart (r : tdm_restart_t) (m : machine App) : machine App :=
  {| args := args m; tdm_config := tdm_config m; in_s := in_s m; out_s := out_s m;
     tdm_interrupt_data := tdm_interrupt_data m;
     safe_in_buffer := safe_in_buffer m; safe_out_buffer := safe_out_buffer m;
     restart := r; current_buf_no := current_buf_no m;
     app_data := app_data m; bclk_trigger_time := bclk_trigger_time m;
     trace := trace m |}.

Definition set_current_buf_no (n : Z) (m : machine App) : machine App :=
  {| args := args m; tdm_config := tdm_config m; in_s := in_s m; out_s := out_s m;
     tdm_interrupt_data := tdm_interrupt_data m;
     safe_in_buffer := safe_in_buffer m; safe_out_buffer := safe_out_buffer m;
     restart := restart m; current_buf_no := n;
     app_data := app_data m; bclk_trigger_time := bclk_trigger_time m;
     trace := trace m |}.

Definition set_app_data (a : App) (m : machine App) : machine App :=
  {| args := args m; tdm_config := tdm_config m; in_s := in_s m; out_s := out_s m;
     tdm_interrupt_data := tdm_interrupt_data m;
     safe_in_buffer := safe_in_buffer m; safe_out_buffer := safe_out_buffer m;
     restart := restart m; current_buf_no := current_buf_no m;
     app_data := a; bclk_trigger_time := bclk_trigger_time m;
     trace := trace m |}.

Definition set_bclk_trigger_time (t : Z) (m : machine App) : machine App :=
  {| args := args m; tdm_config := tdm_config m; in_s := in_s m; out_s := out_s m;
     tdm_interrupt_data := tdm_interrupt_data m;
     safe_in_buffer := safe_in_buffer m; safe_out_buffer := safe_out_buffer m;
     restart := restart m; current_buf_no := current_buf_no m;
     app_data := app_data m; bclk_trigger_time := t;
     trace := trace m |}.

Definition set_trace (tr : list event) (m : machine App) : machine App :=
  {| args := args m; tdm_config := tdm_config m; in_s := in_s m; out_s := out_s m;
     tdm_interrupt_data := tdm_interrupt_data m;
     safe_in_buffer := safe_in_buffer m; safe_out_buffer := safe_out_buffer m;
     restart := restart m; current_buf_no := current_buf_no m;
     app_data := app_data m; bclk_trigger_time := bclk_trigger_time m;
     trace := tr |}.

Definition set_num_bclk_cycles_offset (n : Z) (a : tdm_slave_loop_args_t)
  : tdm_slave_loop_args_t :=
  {| num_out := num_out a; num_in := num_in a; num_chans := num_chans a;
     num_data_bits := num_data_bits a; frame_len := frame_len a;
     num_bclk_cycles_offset := n |}.

Definition set_working_buffers (pin pout : buffer_ptr) (d : tdm_interrupt_data_t)
  : tdm_interrupt_data_t :=
  {| working_in_buffer := pin; working_out_buffer := pout;
     fsync_time := fsync_time d; first_time := first_time d;
     tx_fragment_no := tx_fragment_no d; rx_fragment_no := rx_fragment_no d |}.

Definition set_fsync_time (t : Z) (d : tdm_interrupt_data_t) : tdm_interrupt_data_t :=
  {| working_in_buffer := working_in_buffer d;
     working_out_buffer := working_out_buffer d;
     fsync_time := t; first_time := first_time d;
     tx_fragment_no := tx_fragment_no d; rx_fragment_no := rx_fragment_no d |}.

End Setters.

(** ** The engine (src/tdm_slave.c) *)

Section Engine.

Context {App : Type}.
Variable tdm_cbg : tdm_callback_group_t App.

Local Open Scope tdm_scope.

Definition log (e : event) : M App unit :=
  modify (fun st => set_trace (trace st ++ [e]) st).

(** *** Sample-buffer memory *)

Definition double_buffer_of (st : machine App) (b : double_buffer_id)
  : tdm_sample_double_buffer_t :=
  match b with
  | In_s => in_s st
  | Out_s => out_s st
  end.

Definition update_double_buffer (d : tdm_sample_double_buffer_t) (i : Z)
           (b : tdm_sample_buffer_t) : tdm_sample_double_buffer_t :=
  fun j => if j =? i then b else d j.

(** [*p] read as a whole buffer. *)
Definition load_buffer (p : buffer_ptr) : M App tdm_sample_buffer_t :=
  fun st =>
    if buffer_index_ok (ptr_index p)
    then Some (double_buffer_of st (ptr_base p) (ptr_index p), st)
    else None.

(** [*p] written as a whole buffer. *)
Definition store_buffer (p : buffer_ptr) (b : tdm_sample_buffer_t) : M App unit :=
  fun st =>
    if buffer_index_ok (ptr_index p)
    then Some (tt,
               match ptr_base p with
               | In_s => set_in_s (update_double_buffer (in_s st) (ptr_index p) b) st
               | Out_s => set_out_s (update_double_buffer (out_s st) (ptr_index p) b) st
               end)
    else None.

(** [p->line[l].channel[c]] *)
Definition load_sample (p : buffer_ptr) (l c : Z) : M App Z :=
  b <- load_buffer p ;;
  match sample_get b l c with
  | Some v => ret v
  | None => undefined
  end.

(** [p->line[l].channel[c] = v] *)
Definition store_sample (p : buffer_ptr) (l c v : Z) : M App unit :=
  b <- load_buffer p ;;
  match sample_set b l c v with
  | Some b' => store_buffer p b'
  | None => undefined
  end.

(** *** Port/clock HAL

    Modelled from the spec: the port and clock primitives of section 6 are
    an external collaborator of the driver.  Each call is recorded in the
    trace.  A trigger time set on the bit-clock port is held by the port,
    and it is the time that [port_get_trigger_time] reads back when the
    trigger has fired. *)

Definition port_set_trigger_time (p : port_t) (t : Z) : M App unit :=
  log (Ev_port_set_trigger_time p t) ;;
  match p with
  | p_bclk => modify (set_bclk_trigger_time t)
  | _ => ret tt
  end.

Definition port_get_trigger_time_bclk : M App Z :=
  t <- gets bclk_trigger_time ;;
  log (Ev_port_get_trigger_time p_bclk t) ;;
  ret t.

Definition port_in (p : port_t) (w : Z) : M App Z :=
  log (Ev_port_in p w) ;;
  ret w.

Definition port_out_at_time (p : port_t) (t w : Z) : M App unit :=
  log (Ev_port_out_at_time p t w).

(** *** [commit_buffers] *)

Definition commit_buffers (in_buffer out_buffer : double_buffer_id) : M App unit :=
  log Ev_commit_buffers ;;
  cur <- gets current_buf_no ;;
  modify (fun st =>
    set_tdm_interrupt_data
      (set_working_buffers
         {| ptr_base := in_buffer; ptr_index := cur |}
         {| ptr_base := out_buffer; ptr_index := cur |}
         (tdm_interrupt_data st)) st) ;;
  modify (set_current_buf_no (to_uint8 (Z.lxor cur 1))) ;;
  cur' <- gets current_buf_no ;;
  modify (set_safe_buffers
            {| ptr_base := in_buffer; ptr_index := cur' |}
            {| ptr_base := out_buffer; ptr_index := cur' |}).

(** *** [tdm_slave_init_ports] *)

Definition init_output_line (output_line : Z) : M App loop_ctl :=
  log (Ev_port_start_buffered (p_dout output_line) 32) ;;
  log (Ev_port_set_clock (p_dout output_line)) ;;
  log (Ev_port_clear_buffer (p_dout output_line)) ;;
  log (Ev_port_out (p_dout output_line) 0) ;;
  ret Continue.

Definition init_input_line (input_line : Z) : M App loop_ctl :=
  log (Ev_port_start_buffered (p_din input_line) 32) ;;
  log (Ev_port_set_clock (p_din input_line)) ;;
  log (Ev_port_clear_buffer (p_din input_line)) ;;
  ret Continue.

Definition tdm_slave_init_ports (num_out num_in : Z) : M App unit :=
  log Ev_clock_enable ;;
  log (Ev_port_reset p_bclk) ;;
  log (Ev_clock_set_source_port p_bclk) ;;
  log (Ev_port_set_clock p_bclk) ;;
  log (Ev_port_enable p_fsync) ;;
  log (Ev_port_set_clock p_fsync) ;;
  for_loop (Z.to_nat num_out) 0 init_output_line ;;
  for_loop (Z.to_nat num_in) 0 init_input_line.

(** *** [tdm_isr]

    [din l] is the word that [port_in] finds on input line [l]. *)

(** One round of the handler's [for] loop over the input lines; the
    round ends in [break]. *)
Definition tdm_isr_line (din : Z -> Z) (in_line : Z) : M App loop_ctl :=
  let d0 := 0 in
  d1 <- port_in (p_din in_line) (din in_line) ;;
  let '(d0, d1) := IN16 d0 d1 in
  working <- gets (fun st => working_in_buffer (tdm_interrupt_data st)) ;;
  store_sample working in_line 0 (to_int32 d0) ;;
  store_sample working in_line 1 (to_int32 d1) ;;
  ret Break.

Definition tdm_isr (din : Z -> Z) : M App unit :=
  log (Ev_triggerable_disable_trigger p_bclk) ;;
  now <- port_get_trigger_time_bclk ;;
  log (Ev_port_clear_trigger_time p_bclk) ;;
  n_in <- gets (fun st => num_in (args st)) ;;
  for_loop (Z.to_nat n_in) 0 (tdm_isr_line din) ;;
  len <- gets (fun st => frame_len (args st)) ;;
  port_set_trigger_time p_bclk (add32 now len) ;;
  log (Ev_triggerable_enable_trigger p_bclk).

(** *** [preload_data] *)

(** One round of the [for] loop over the output lines. *)
Definition preload_data_line (out_line : Z) : M App loop_ctl :=
  working <- gets (fun st => working_out_buffer (tdm_interrupt_data st)) ;;
  out <- load_sample working out_line 1 ;;
  tmp <- load_sample working out_line 0 ;;
  let '(tmp, out) := OUT16 (to_uint32 tmp) (to_uint32 out) in
  fsync <- gets (fun st => fsync_time (tdm_interrupt_data st)) ;;
  len <- gets (fun st => frame_len (args st)) ;;
  off <- gets (fun st => num_bclk_cycles_offset (args st)) ;;
  port_out_at_time (p_dout out_line) (add32 (add32 fsync len) off) out ;;
  ret Continue.

Definition preload_data : M App unit :=
  n_out <- gets (fun st => num_out (args st)) ;;
  for_loop (Z.to_nat n_out) 0 preload_data_line.

(** *** [hold_for_frame_sync]

    The call blocks until the frame-sync line is high; [t] is the port
    time of that edge. *)

Definition hold_for_frame_sync (t : Z) : M App Z :=
  log (Ev_port_in_when_pinseq p_fsync 1) ;;
  log (Ev_port_get_trigger_time p_fsync t) ;;
  ret t.

(** *** [tdm_main_loop] *)

Definition call_init : M App unit :=
  log Ev_init ;;
  app <- gets app_data ;;
  cfg <- gets tdm_config ;;
  let '(app', cfg') := init tdm_cbg app cfg in
  modify (set_app_data app') ;;
  modify (set_tdm_config cfg').

Definition call_restart_check : M App tdm_restart_t :=
  app <- gets app_data ;;
  let '(app', r) := restart_check tdm_cbg app in
  log (Ev_restart_check r) ;;
  modify (set_app_data app') ;;
  ret r.

Definition call_process (site : process_site) : M App unit :=
  a <- gets args ;;
  rx_ptr <- gets safe_in_buffer ;;
  tx_ptr <- gets safe_out_buffer ;;
  log (Ev_process site rx_ptr tx_ptr) ;;
  rx <- load_buffer rx_ptr ;;
  tx <- load_buffer tx_ptr ;;
  app <- gets app_data ;;
  let '(app', (rx', tx')) :=
    process tdm_cbg app (num_out a) (num_in a) (num_chans a) (num_data_bits a) rx tx in
  modify (set_app_data app') ;;
  store_buffer rx_ptr rx' ;;
  store_buffer tx_ptr tx'.

(** The body of the outer loop up to the blocking wait for frame sync
    (from [interrupt_mask_all] to [clock_start]). *)
Definition init_until_frame_sync : M App unit :=
  log Ev_interrupt_mask_all ;;
  call_init ;;
  polarity <- gets (fun st => slave_bclk_polarity (tdm_config st)) ;;
  match polarity with
  | TDM_SLAVE_SAMPLE_ON_BCLK_FALLING => log (Ev_port_set_invert p_bclk)
  | TDM_SLAVE_SAMPLE_ON_BCLK_RISING => log (Ev_port_set_no_invert p_bclk)
  end ;;
  off <- gets (fun st => offset (tdm_config st)) ;;
  modify (fun st => set_args (set_num_bclk_cycles_offset off (args st)) st) ;;
  n_out <- gets (fun st => num_out (args st)) ;;
  (if 0 <? n_out then call_process Priming else ret tt) ;;
  commit_buffers In_s Out_s ;;
  log (Ev_port_clear_buffer p_fsync) ;;
  log Ev_clock_start.

(** The time programmed on the bit-clock port and on the input ports
    when the handler is first armed. *)
Definition first_trigger_time (st : machine App) : Z :=
  add32 (add32 (add32 (fsync_time (tdm_interrupt_data st)) (frame_len (args st)))
               (num_bclk_cycles_offset (args st)))
        TDM_PORT_BUFFER_BITS.

(** One round of the [for] loop over the input lines after the handler
    is armed. *)
Definition clear_input_line (input_line : Z) : M App loop_ctl :=
  log (Ev_port_clear_buffer (p_din input_line)) ;;
  trig <- gets first_trigger_time ;;
  port_set_trigger_time (p_din input_line) trig ;;
  ret Continue.

(** One round of the [for] loop over the output lines that follows. *)
Definition clear_output_line (out_line : Z) : M App loop_ctl :=
  log (Ev_port_clear_buffer (p_dout out_line)) ;;
  ret Continue.

(** The rest of the outer-loop body, from the frame-sync edge at port
    time [t] to the first [preload_data]. *)
Definition init_from_frame_sync (t : Z) : M App unit :=
  fsync <- hold_for_frame_sync t ;;
  modify (fun st =>
    set_tdm_interrupt_data (set_fsync_time fsync (tdm_interrupt_data st)) st) ;;
  log (Ev_triggerable_setup_interrupt_callback p_bclk) ;;
  trig <- gets first_trigger_time ;;
  port_set_trigger_time p_bclk trig ;;
  log (Ev_triggerable_enable_trigger p_bclk) ;;
  log Ev_interrupt_unmask_all ;;
  n_in <- gets (fun st => num_in (args st)) ;;
  for_loop (Z.to_nat n_in) 0 clear_input_line ;;
  n_out <- gets (fun st => num_out (args st)) ;;
  for_loop (Z.to_nat n_out) 0 clear_output_line ;;
  preload_data.

(** The body of the running loop, entered at the frame-sync edge at port
    time [t]. *)
Definition frame (t : Z) : M App unit :=
  fsync <- hold_for_frame_sync t ;;
  modify (fun st =>
    set_tdm_interrupt_data (set_fsync_time fsync (tdm_interrupt_data st)) st) ;;
  r <- call_restart_check ;;
  modify (set_restart r) ;;
  call_process PerFrame ;;
  commit_buffers In_s Out_s ;;
  preload_data.

(** Where the engine is between two stimuli: blocked in one of the two
    [hold_for_frame_sync] calls, returned, stopped by a failed
    [xassert], or lost to an out-of-bounds access. *)
Inductive control :=
| WaitInitSync
| WaitFrameSync
| Exited
| Trapped
| Faulted.

Definition config : Type := control * machine App.

(** [while (restart != TDM_SHUTDOWN)]: the test, and the body up to its
    blocking wait. *)
Definition outer_test (st : machine App) : config :=
  match restart st with
  | TDM_SHUTDOWN => (Exited, st)
  | _ =>
      match init_until_frame_sync st with
      | Some (_, st') => (WaitInitSync, st')
      | None => (Faulted, st)
      end
  end.

(** [while (restart == TDM_NO_RESTART)]: the test; when it fails control
    is back at the test of the outer loop. *)
Definition inner_test (st : machine App) : config :=
  match restart st with
  | TDM_NO_RESTART => (WaitFrameSync, st)
  | _ => outer_test st
  end.

Definition resume (st : machine App) (r : option (unit * machine App)) : config :=
  match r with
  | Some (_, st') => inner_test st'
  | None => (Faulted, st)
  end.

(** What the environment does to the engine: a frame-sync edge at port
    time [t], or the bit-clock trigger firing with the words [din]
    waiting on the input lines. *)
Inductive stimulus :=
| FrameSync (t : Z)
| BclkTrigger (din : Z -> Z).

(** The handler is armed and unmasked while the engine waits in the
    running loop. *)
Definition react (s : stimulus) (c : config) : config :=
  match s, c with
  | FrameSync t, (WaitInitSync, st) => resume st (init_from_frame_sync t st)
  | FrameSync t, (WaitFrameSync, st) => resume st (frame t st)
  | BclkTrigger din, (WaitFrameSync, st) =>
      match tdm_isr din st with
      | Some (_, st') => (WaitFrameSync, st')
      | None => (Faulted, st)
      end
  | _, _ => c
  end.

Definition run (sched : list stimulus) (c : config) : config :=
  fold_left (fun c s => react s c) sched c.

(** The state [tdm_main_loop] starts from: [memset] of the locals, the
    initial working and safe pointers, [first_time] and [restart]. *)
Definition main_loop_entry (a : tdm_slave_loop_args_t) (st : machine App)
  : machine App :=
  {| args := a;
     tdm_config := {| mclk_bclk_ratio := 0;
                      slave_bclk_polarity := TDM_SLAVE_SAMPLE_ON_BCLK_RISING;
                      offset := 0 |};
     in_s := fun _ => zero_buffer;
     out_s := fun _ => zero_buffer;
     tdm_interrupt_data :=
       {| working_in_buffer := {| ptr_base := In_s; ptr_index := 1 |};
          working_out_buffer := {| ptr_base := Out_s; ptr_index := 1 |};
          fsync_time := 0;
          first_time := true;
          tx_fragment_no := 0;
          rx_fragment_no := 0 |};
     safe_in_buffer := {| ptr_base := In_s; ptr_index := 0 |};
     safe_out_buffer := {| ptr_base := Out_s; ptr_index := 0 |};
     restart := TDM_NO_RESTART;
     current_buf_no := current_buf_no st;
     app_data := app_data st;
     bclk_trigger_time := bclk_trigger_time st;
     trace := trace st |}.

Definition tdm_main_loop (a : tdm_slave_loop_args_t) (st : machine App) : config :=
  outer_test (main_loop_entry a st).

(** *** [tdm_slave] *)

Definition xassert (cond : bool) (k : machine App -> config) (st : machine App)
  : config :=
  let st' := set_trace (trace st ++ [Ev_xassert cond]) st in
  if cond then k st' else (Trapped, st').

(** The machine at program start: nothing called yet, the static
    selector of [commit_buffers] at its initial value. *)
Definition boot (app : App) : machine App :=
  {| args := {| num_out := 0; num_in := 0; num_chans := 0; num_data_bits := 0;
                frame_len := 0; num_bclk_cycles_offset := 0 |};
     tdm_config := {| mclk_bclk_ratio := 0;
                      slave_bclk_polarity := TDM_SLAVE_SAMPLE_ON_BCLK_RISING;
                      offset := 0 |};
     in_s := fun _ => zero_buffer;
     out_s := fun _ => zero_buffer;
     tdm_interrupt_data :=
       {| working_in_buffer := {| ptr_base := In_s; ptr_index := 0 |};
          working_out_buffer := {| ptr_base := Out_s; ptr_index := 0 |};
          fsync_time := 0; first_time := false;
          tx_fragment_no := 0; rx_fragment_no := 0 |};
     safe_in_buffer := {| ptr_base := In_s; ptr_index := 0 |};
     safe_out_buffer := {| ptr_base := Out_s; ptr_index := 0 |};
     restart := TDM_NO_RESTART;
     current_buf_no := 0;
     app_data := app;
     bclk_trigger_time := 0;
     trace := [] |}.

Definition tdm_slave (app : App) (num_out num_in num_chans num_data_bits : Z)
  : config :=
  xassert (num_chans <=? TDM_MAX_CHANS) (
  xassert (num_in <=? TDM_MAX_PORTS) (
  xassert (num_out <=? TDM_MAX_PORTS) (fun st =>
    match tdm_slave_init_ports num_out num_in st with
    | Some (_, st') =>
        let frame_len := mul32 num_chans num_data_bits in
        tdm_main_loop
          {| num_out := num_out; num_in := num_in; num_chans := num_chans;
             num_data_bits := num_data_bits; frame_len := frame_len;
             num_bclk_cycles_offset := 0 |} st'
    | None => (Faulted, st)
    end))) (boot app).

End Engine.

(** ** Vocabulary of the statements *)

(** The same configuration with another offset. *)
Definition set_offset (n : Z) (c : tdm_config_t) : tdm_config_t :=
  {| mclk_bclk_ratio := mclk_bclk_ratio c;
     slave_bclk_polarity := slave_bclk_polarity c;
     offset := n |}.

(** The static selector of [commit_buffers] is one bit. *)
Definition selector_bit (n : Z) : Prop := n = 0 \/ n = 1.

(** The line numbers [i, i+1, ..., i+n-1] visited by a [for] loop. *)
Fixpoint zrange (i : Z) (n : nat) : list Z :=
  match n with
  | O => []
  | S n' => i :: zrange (i + 1) n'
  end.

Section Vocabulary.

Context {App : Type}.

(** The buffer a pointer addresses. *)
Definition buffer_of (st : machine App) (p : buffer_ptr) : tdm_sample_buffer_t :=
  double_buffer_of st (ptr_base p) (ptr_index p).

(** The time [preload_data] schedules its port outputs at. *)
Definition preload_time (st : machine App) : Z :=
  add32 (add32 (fsync_time (tdm_interrupt_data st)) (frame_len (args st)))
        (num_bclk_cycles_offset (args st)).

(** The port output [preload_data] makes for output line [l]. *)
Definition preload_event (st : machine App) (l : Z) : event :=
  let b := buffer_of st (working_out_buffer (tdm_interrupt_data st)) in
  Ev_port_out_at_time (p_dout l) (preload_time st) (pack16 (b l 0) (b l 1)).

Definition preload_events (st : machine App) : list event :=
  map (preload_event st) (zrange 0 (Z.to_nat (num_out (args st)))).

(** The same machine with another configured offset. *)
Definition with_offset (n : Z) (st : machine App) : machine App :=
  set_tdm_config (set_offset n (tdm_config st))
    (set_args (set_num_bclk_cycles_offset n (args st)) st).

(** The offset the loops work with is the one of the configuration. *)
Definition offset_in_force (st : machine App) : Prop :=
  num_bclk_cycles_offset (args st) = offset (tdm_config st).

(** All four buffer pointers address a buffer of their own pair. *)
Definition pointers_ok (st : machine App) : Prop :=
  buffer_index_ok (ptr_index (working_in_buffer (tdm_interrupt_data st))) = true /\
  buffer_index_ok (ptr_index (working_out_buffer (tdm_interrupt_data st))) = true /\
  buffer_index_ok (ptr_index (safe_in_buffer st)) = true /\
  buffer_index_ok (ptr_index (safe_out_buffer st)) = true /\
  ptr_base (working_in_buffer (tdm_interrupt_data st)) = In_s /\
  ptr_base (working_out_buffer (tdm_interrupt_data st)) = Out_s /\
  ptr_base (safe_in_buffer st) = In_s /\
  ptr_base (safe_out_buffer st) = Out_s.

(** What [tdm_isr] leaves in the trace. *)
Definition isr_events (din : Z -> Z) (st : machine App) : list event :=
  [Ev_triggerable_disable_trigger p_bclk;
   Ev_port_get_trigger_time p_bclk (bclk_trigger_time st);
   Ev_port_clear_trigger_time p_bclk] ++
  (if 0 <? num_in (args st) then [Ev_port_in (p_din 0) (din 0)] else []) ++
  [Ev_port_set_trigger_time p_bclk
     (add32 (bclk_trigger_time st) (frame_len (args st)));
   Ev_triggerable_enable_trigger p_bclk].

(** The sample [tdm_isr] leaves at buffer [i], line [l], channel [c] of
    the input double buffer. *)
Definition isr_sample (din : Z -> Z) (st : machine App) (i l c : Z) : Z :=
  if (0 <? num_in (args st)) &&
     (i =? ptr_index (working_in_buffer (tdm_interrupt_data st))) &&
     (l =? 0) && ((c =? 0) || (c =? 1))
  then if c =? 0 then to_int32 (fst (unpack16 (din 0)))
       else to_int32 (snd (unpack16 (din 0)))
  else in_s st i l c.

(** The arguments fixed by [tdm_slave]; only the offset changes. *)
Definition args_fixed (a : tdm_slave_loop_args_t) (st : machine App) : Prop :=
  num_out (args st) = num_out a /\
  num_in (args st) = num_in a /\
  num_chans (args st) = num_chans a /\
  num_data_bits (args st) = num_data_bits a /\
  frame_len (args st) = frame_len a.

Definition engine_inv (a : tdm_slave_loop_args_t) (st : machine App) : Prop :=
  args_fixed a st /\ selector_bit (current_buf_no st) /\ pointers_ok st.

(** The calls of the outer-loop body up to the wait for frame sync. *)
Definition init_events (tdm_cbg : tdm_callback_group_t App) (st : machine App)
  : list event :=
  [Ev_interrupt_mask_all; Ev_init;
   match slave_bclk_polarity (snd (init tdm_cbg (app_data st) (tdm_config st))) with
   | TDM_SLAVE_SAMPLE_ON_BCLK_FALLING => Ev_port_set_invert p_bclk
   | TDM_SLAVE_SAMPLE_ON_BCLK_RISING => Ev_port_set_no_invert p_bclk
   end] ++
  (if 0 <? num_out (args st)
   then [Ev_process Priming (safe_in_buffer st) (safe_out_buffer st)]
   else []) ++
  [Ev_commit_buffers; Ev_port_clear_buffer p_fsync; Ev_clock_start].

(** The calls of the outer-loop body from the frame-sync edge on, read
    off the machine they leave behind. *)
Definition arm_events (st' : machine App) : list event :=
  [Ev_port_in_when_pinseq p_fsync 1;
   Ev_port_get_trigger_time p_fsync (fsync_time (tdm_interrupt_data st'));
   Ev_triggerable_setup_interrupt_callback p_bclk;
   Ev_port_set_trigger_time p_bclk (first_trigger_time st');
   Ev_triggerable_enable_trigger p_bclk;
   Ev_interrupt_unmask_all] ++
  flat_map (fun l => [Ev_port_clear_buffer (p_din l);
                      Ev_port_set_trigger_time (p_din l) (first_trigger_time st')])
           (zrange 0 (Z.to_nat (num_in (args st')))) ++
  flat_map (fun l => [Ev_port_clear_buffer (p_dout l)])
           (zrange 0 (Z.to_nat (num_out (args st')))) ++
  preload_events st'.

(** The calls of one round of the running loop, from the machine [st]
    it starts in and the machine [st'] it leaves behind. *)
Definition frame_events (st st' : machine App) : list event :=
  [Ev_port_in_when_pinseq p_fsync 1;
   Ev_port_get_trigger_time p_fsync (fsync_time (tdm_interrupt_data st'));
   Ev_restart_check (restart st');
   Ev_process PerFrame (safe_in_buffer st) (safe_out_buffer st);
   Ev_commit_buffers] ++
  preload_events st'.

(** The calls of [tdm_slave_init_ports]. *)
Definition init_ports_events (n_out n_in : Z) : list event :=
  [Ev_clock_enable; Ev_port_reset p_bclk; Ev_clock_set_source_port p_bclk;
   Ev_port_set_clock p_bclk; Ev_port_enable p_fsync; Ev_port_set_clock p_fsync] ++
  flat_map (fun l => [Ev_port_start_buffered (p_dout l) 32;
                      Ev_port_set_clock (p_dout l);
                      Ev_port_clear_buffer (p_dout l);
                      Ev_port_out (p_dout l) 0])
           (zrange 0 (Z.to_nat n_out)) ++
  flat_map (fun l => [Ev_port_start_buffered (p_din l) 32;
                      Ev_port_set_clock (p_din l);
                      Ev_port_clear_buffer (p_din l)])
           (zrange 0 (Z.to_nat n_in)).

(** The engine is running: it has neither been stopped by an assertion
    nor indexed a buffer out of bounds. *)
Definition live (c : control) : Prop :=
  c = WaitInitSync \/ c = WaitFrameSync \/ c = Exited.

Definition config_inv (a : tdm_slave_loop_args_t) (c : control * machine App) : Prop :=
  live (fst c) /\ engine_inv a (snd c).

(** The argument record [tdm_slave] builds. *)
Definition slave_args (n_out n_in n_chans n_bits : Z) : tdm_slave_loop_args_t :=
  {| num_out := n_out; num_in := n_in; num_chans := n_chans;
     num_data_bits := n_bits; frame_len := mul32 n_chans n_bits;
     num_bclk_cycles_offset := 0 |}.

(** The three preconditions asserted by [tdm_slave]. *)
Definition preconditions (n_out n_in n_chans : Z) : bool :=
  (n_chans <=? TDM_MAX_CHANS) && (n_in <=? TDM_MAX_PORTS) && (n_out <=? TDM_MAX_PORTS).

End Vocabulary.

(** Trace observers. *)

Definition is_priming (e : event) : bool :=
  match e with
  | Ev_process Priming _ _ => true
  | _ => false
  end.

Definition is_init (e : event) : bool :=
  match e with
  | Ev_init => true
  | _ => false
  end.

Definition is_xassert (e : event) : bool :=
  match e with
  | Ev_xassert _ => true
  | _ => false
  end.

Definition count (f : event -> bool) (tr : list event) : nat :=
  length (filter f tr).

(** Events that are neither an assertion, nor an [init] call, nor a priming
    call of [process]. *)
Definition is_quiet (e : event) : bool :=
  negb (is_xassert e || is_init e || is_priming e).

(** A stretch of trace with no assertion in it, and with one priming call
    per [init] call when there are output lines and none otherwise. *)
Definition balanced (n_out : Z) (d : list event) : Prop :=
  count is_xassert d = O /\
  count is_priming d = if 0 <? n_out then count is_init d else O.

(** The same call, [n] bit-clock cycles later on the port clock: the times
    of port outputs and of triggers move, the time of a frame-sync edge
    does not. *)
Definition shift_time (n : Z) (e : event) : event :=
  match e with
  | Ev_port_out_at_time p t w => Ev_port_out_at_time p (add32 t n) w
  | Ev_port_set_trigger_time p t => Ev_port_set_trigger_time p (add32 t n)
  | Ev_port_get_trigger_time p_bclk t => Ev_port_get_trigger_time p_bclk (add32 t n)
  | _ => e
  end.

Section Shifted.

Context {App : Type}.

(** The machine has been configured with offset 0. *)
Definition offset_zero (s : machine App) : Prop :=
  num_bclk_cycles_offset (args s) = 0.

(** The machine that the run configured with offset [n] is in when the
    run configured with offset 0 is in [s]: the offset is [n] and the
    times in the trace are [n] cycles later.  Once the handler has been
    armed the trigger time held by the bit-clock port is [n] cycles later
    too; before that it is whatever the port held, [b]. *)
Definition later (armed : bool) (b n : Z) (s : machine App) : machine App :=
  set_trace (map (shift_time n) (trace s))
    (set_bclk_trigger_time
       (if armed then add32 (bclk_trigger_time s) n else b)
       (with_offset n s)).

(** Command [c'] does on [later f b n s] what command [c] does on [s],
    with results related by [RA], and leaves [later f' b n s']. *)
Definition shifts {A : Type} (f f' : bool) (b n : Z) (RA : A -> A -> Prop)
           (c c' : M App A) : Prop :=
  forall (s : machine App) (a : A) (s' : machine App),
    offset_zero s ->
    c s = Some (a, s') ->
    exists a', c' (later f b n s) = Some (a', later f' b n s') /\
               RA a a' /\ offset_zero s'.

(** The configuration of the run configured with offset [n] that matches
    the configuration [c0] of the run configured with offset 0. *)
Definition shifted_config (n : Z) (c0 cn : control * machine App) : Prop :=
  fst cn = fst c0 /\
  offset_zero (snd c0) /\
  exists f, snd cn = later f 0 n (snd c0) /\ (fst c0 = WaitFrameSync -> f = true).

End Shifted.

(** Events that carry no port-output time and no trigger time. *)
Definition is_untimed (e : event) : bool :=
  match e with
  | Ev_port_out_at_time _ _ _ => false
  | Ev_port_set_trigger_time _ _ => false
  | Ev_port_get_trigger_time _ _ => false
  | _ => true
  end.

Definition is_port_in (e : event) : bool :=
  match e with
  | Ev_port_in _ _ => true
  | _ => false
  end.

Definition is_port_out_at_time (e : event) : bool :=
  match e with
  | Ev_port_out_at_time _ _ _ => true
  | _ => false
  end.

Definition is_set_trigger_time (e : event) : bool :=
  match e with
  | Ev_port_set_trigger_time _ _ => true
  | _ => false
  end.

(** ** Applications used as concrete inputs *)

Module Scenario.

(** The application of tdm_slave_tx16_test.c, with [TX_OFFSET] as a
    parameter.  Its state is the frame counter [cnt].  The test leaves
    the program at frame [TEST_FRAME_COUNT]; here that frame answers
    [TDM_SHUTDOWN]. *)
Definition TEST_FRAME_COUNT : Z := 5.

Definition test_data (j : Z) : Z :=
  to_int32 (if Z.odd j then 0x89ABCDEF else 0x12345678).

Definition tdm_init (TX_OFFSET : Z) (cnt : Z) (cfg : tdm_config_t)
  : Z * tdm_config_t :=
  (cnt, {| mclk_bclk_ratio := mclk_bclk_ratio cfg;
           slave_bclk_polarity := TDM_SLAVE_SAMPLE_ON_BCLK_RISING;
           offset := TX_OFFSET |}).

Definition tdm_restart_check (cnt : Z) : Z * tdm_restart_t :=
  let cnt := cnt + 1 in
  (cnt, if cnt =? TEST_FRAME_COUNT then TDM_SHUTDOWN else TDM_NO_RESTART).

Definition tdm_process (cnt : Z) (num_out num_in num_chans num_data_bits : Z)
           (receive_samples send_samples : tdm_sample_buffer_t)
  : Z * (tdm_sample_buffer_t * tdm_sample_buffer_t) :=
  (cnt,
   (receive_samples,
    fun l c =>
      if (l =? 0) && (0 <=? c) && (c <? num_chans)
      then test_data c
      else send_samples l c)).

Definition test_cbg (TX_OFFSET : Z) : tdm_callback_group_t Z :=
  {| init := tdm_init TX_OFFSET;
     restart_check := tdm_restart_check;
     process := tdm_process |}.

(** An application that asks for a restart at every frame. *)
Definition restarting_cbg : tdm_callback_group_t Z :=
  {| init := tdm_init 0;
     restart_check := fun cnt => (cnt + 1, TDM_RESTART);
     process := tdm_process |}.

(** The word the bus carries for the first channel pair of the test
    data, waiting on every input line. *)
Definition loopback (l : Z) : Z := pack16 0x12345678 0x89ABCDEF.

End Scenario.

(** ** Vocabulary of the further properties *)

Section MoreVocabulary.

Context {App : Type}.

(** The safe pointers address the buffer the selector of
    [commit_buffers] names, the working pointers the other one. *)
Definition roles_split (st : machine App) : Prop :=
  working_in_buffer (tdm_interrupt_data st) =
    {| ptr_base := In_s; ptr_index := 1 - current_buf_no st |} /\
  working_out_buffer (tdm_interrupt_data st) =
    {| ptr_base := Out_s; ptr_index := 1 - current_buf_no st |} /\
  safe_in_buffer st = {| ptr_base := In_s; ptr_index := current_buf_no st |} /\
  safe_out_buffer st = {| ptr_base := Out_s; ptr_index := current_buf_no st |}.

(** What the [process] callback answers when it is called in machine
    [st] with the application state [app]: it is handed the sizes of the
    argument record and the two safe buffers. *)
Definition process_answer (tdm_cbg : tdm_callback_group_t App) (app : App)
           (st : machine App)
  : App * (tdm_sample_buffer_t * tdm_sample_buffer_t) :=
  process tdm_cbg app
    (num_out (args st)) (num_in (args st)) (num_chans (args st))
    (num_data_bits (args st))
    (buffer_of st (safe_in_buffer st)) (buffer_of st (safe_out_buffer st)).

(** The part of the machine that only the callbacks and
    [commit_buffers] change. *)
Definition same_data (st st' : machine App) : Prop :=
  working_in_buffer (tdm_interrupt_data st') =
    working_in_buffer (tdm_interrupt_data st) /\
  working_out_buffer (tdm_interrupt_data st') =
    working_out_buffer (tdm_interrupt_data st) /\
  safe_in_buffer st' = safe_in_buffer st /\
  safe_out_buffer st' = safe_out_buffer st /\
  current_buf_no st' = current_buf_no st /\
  app_data st' = app_data st /\
  in_s st' = in_s st /\
  out_s st' = out_s st /\
  args st' = args st.

End MoreVocabulary.

Definition is_port_out (e : event) : bool :=
  match e with
  | Ev_port_out _ _ => true
  | _ => false
  end.

Definition is_restart_check (e : event) : bool :=
  match e with
  | Ev_restart_check _ => true
  | _ => false
  end.

Definition is_per_frame (e : event) : bool :=
  match e with
  | Ev_process PerFrame _ _ => true
  | _ => false
  end.

Definition is_commit (e : event) : bool :=
  match e with
  | Ev_commit_buffers => true
  | _ => false
  end.

(** The blocking wait of [hold_for_frame_sync]. *)
Definition is_frame_sync_wait (e : event) : bool :=
  match e with
  | Ev_port_in_when_pinseq p_fsync _ => true
  | _ => false
  end.

Definition is_frame_sync (s : stimulus) : bool :=
  match s with
  | FrameSync _ => true
  | BclkTrigger _ => false
  end.

Definition is_bclk_trigger (s : stimulus) : bool :=
  match s with
  | FrameSync _ => false
  | BclkTrigger _ => true
  end.

Section Coherence.

Context {App : Type}.

(** How the place the engine waits at and the local [restart] go
    together: in the running loop [restart] is [TDM_NO_RESTART], after
    the return it is [TDM_SHUTDOWN], and in the body of the outer loop it
    is not [TDM_SHUTDOWN]. *)
Definition coherent (c : control * machine App) : Prop :=
  match fst c with
  | WaitFrameSync => restart (snd c) = TDM_NO_RESTART
  | Exited => restart (snd c) = TDM_SHUTDOWN
  | WaitInitSync => restart (snd c) <> TDM_SHUTDOWN
  | Trapped => restart (snd c) = TDM_NO_RESTART
  | Faulted => True
  end.

(** The trigger time held by the bit-clock port is a 32-bit port time. *)
Definition trigger_in_range (c : control * machine App) : Prop :=
  fst c = WaitFrameSync -> 0 <= bclk_trigger_time (snd c) < modulus.

End Coherence.

(** A stretch of trace in which every [restart_check] call comes with
    one [process] call of the running loop, every [init] call and every
    [restart_check] call with one commit, and every wait for frame sync
    with one preloaded word per output line. *)
Definition paced (n_out : Z) (d : list event) : Prop :=
  count is_per_frame d = count is_restart_check d /\
  count is_commit d = (count is_init d + count is_restart_check d)%nat /\
  count is_port_out_at_time d =
    (Z.to_nat n_out * count is_frame_sync_wait d)%nat.

(** ** The test application (test/lib_i2s/tdm_slave_tx16_cb_test)

    The three callbacks of tdm_slave_tx16_test.c and the globals they
    share.  A callback returns, or leaves the program through [_Exit],
    or indexes one of the two global arrays outside its bounds. *)

Module TestApp.

Definition TEST_FRAME_COUNT : Z := 5.
Definition TEST_NUM_CH : Z := 16.

(** The ports the callbacks drive themselves. *)
Inductive test_port_t :=
| setup_strobe_port
| setup_data_port
| dout_0.

(** What the callbacks print and do on those ports, in program order. *)
Inductive io :=
| Io_printf_tdm_init
| Io_printf_restart (cnt : Z)
| Io_port_out (p : test_port_t) (data : Z)
| Io_syncr (p : test_port_t)
| Io_port_sync (p : test_port_t).

(** The globals [cnt], [test_data] and [rx_data]; the arrays are maps
    from (frame, channel), their bounds being checked where they are
    indexed. *)
Record globals := {
  cnt : Z;
  test_data : Z -> Z -> Z;
  rx_data : Z -> Z -> Z;
  io_log : list io
}.

Inductive outcome (A : Type) :=
| Returns (a : A) (g : globals)
| Exits (status : Z) (g : globals)
| Undefined.

Arguments Returns {A}.
Arguments Exits {A}.
Arguments Undefined {A}.

Definition set_cnt (n : Z) (g : globals) : globals :=
  {| cnt := n; test_data := test_data g; rx_data := rx_data g;
     io_log := io_log g |}.

Definition set_test_data (d : Z -> Z -> Z) (g : globals) : globals :=
  {| cnt := cnt g; test_data := d; rx_data := rx_data g; io_log := io_log g |}.

Definition set_rx_data (d : Z -> Z -> Z) (g : globals) : globals :=
  {| cnt := cnt g; test_data := test_data g; rx_data := d; io_log := io_log g |}.

Definition io_call (e : io) (g : globals) : globals :=
  {| cnt := cnt g; test_data := test_data g; rx_data := rx_data g;
     io_log := io_log g ++ [e] |}.

(** [send_data_to_tester]; [data] is an [unsigned]. *)
Definition send_data_to_tester (data : Z) (g : globals) : globals :=
  io_call (Io_syncr setup_data_port)
    (io_call (Io_port_out setup_strobe_port 0)
       (io_call (Io_port_out setup_strobe_port 1)
          (io_call (Io_syncr setup_data_port)
             (io_call (Io_port_out setup_data_port (to_uint32 data)) g)))).

(** [broadcast_settings] *)
Definition broadcast_settings (TX_OFFSET : Z) (g : globals) : globals :=
  send_data_to_tester TX_OFFSET (io_call (Io_port_out setup_strobe_port 0) g).

(** [memcpy] of [n] 32-bit words, from word [k] on. *)
Fixpoint copy_words (n : nat) (k : Z) (src dst : Z -> Z) : Z -> Z :=
  match n with
  | O => dst
  | S n' => copy_words n' (k + 1) src (fun j => if j =? k then src k else dst j)
  end.

Definition frame_ok (i : Z) : bool := (0 <=? i) && (i <? TEST_FRAME_COUNT).

(** [tdm_process]: two [memcpy] calls of [num_chans * sizeof(int32_t)]
    bytes, the product being a [size_t]; the first fills line 0 of the
    send buffer from row [cnt] of [test_data], the second fills row
    [cnt] of [rx_data] from line 0 of the receive buffer. *)
Definition tdm_process (g : globals) (num_out num_in num_chans num_data_bits : Z)
           (receive_samples send_samples : tdm_sample_buffer_t)
  : outcome (tdm_sample_buffer_t * tdm_sample_buffer_t) :=
  let words := mul32 num_chans 4 / 4 in
  if frame_ok (cnt g) && (words <=? TEST_NUM_CH) && (words <=? TDM_MAX_CHANS)
  then
    let send' := fun l =>
      if l =? 0
      then copy_words (Z.to_nat words) 0 (test_data g (cnt g)) (send_samples 0)
      else send_samples l in
    let rx' := fun i =>
      if i =? cnt g
      then copy_words (Z.to_nat words) 0 (receive_samples 0) (rx_data g (cnt g))
      else rx_data g i in
    Returns (receive_samples, send') (set_rx_data rx' g)
  else Undefined.

(** The inner loop of [tdm_init]: [for (int j = 0; j < TEST_NUM_CH; j++)]. *)
Fixpoint fill_channels (n : nat) (j : Z) (row : Z -> Z) : Z -> Z :=
  match n with
  | O => row
  | S n' =>
      fill_channels n' (j + 1)
        (fun k => if k =? j
                  then to_int32 (if j mod 2 =? 0 then 0x12345678 else 0x89ABCDEF)
                  else row k)
  end.

(** The outer loop: [for (int i = 1; i <= TEST_FRAME_COUNT; i++)], writing
    row [i - 1]. *)
Fixpoint fill_frames (n : nat) (i : Z) (d : Z -> Z -> Z) : Z -> Z -> Z :=
  match n with
  | O => d
  | S n' =>
      fill_frames n' (i + 1)
        (fun r => if r =? i - 1
                  then fill_channels (Z.to_nat TEST_NUM_CH) 0 (d r)
                  else d r)
  end.

(** [tdm_init]; [TX_OFFSET] is a macro of the build. *)
Definition tdm_init (TX_OFFSET : Z) (g : globals) (tdm_config : tdm_config_t)
  : outcome tdm_config_t :=
  let g := io_call Io_printf_tdm_init g in
  let tdm_config :=
    {| mclk_bclk_ratio := mclk_bclk_ratio tdm_config;
       slave_bclk_polarity := TDM_SLAVE_SAMPLE_ON_BCLK_RISING;
       offset := to_uint32 TX_OFFSET |} in
  if 0 <? cnt g
  then Exits 1 (io_call (Io_printf_restart (cnt g)) g)
  else
    let g := set_test_data
               (fill_frames (Z.to_nat TEST_FRAME_COUNT) 1 (test_data g)) g in
    Returns tdm_config (broadcast_settings TX_OFFSET g).

(** [tdm_restart_check]; [cnt] is an [int32_t], so [cnt++] at its
    largest value is undefined. *)
Definition tdm_restart_check (g : globals) : outcome tdm_restart_t :=
  if cnt g =? 2 ^ 31 - 1 then Undefined
  else
    let g := set_cnt (cnt g + 1) g in
    if cnt g =? TEST_FRAME_COUNT
    then Exits 1 (io_call (Io_port_sync dout_0) g)
    else Returns TDM_NO_RESTART g.

(** The globals at program start. *)
Definition initial_globals : globals :=
  {| cnt := 0; test_data := fun _ _ => 0; rx_data := fun _ _ => 0; io_log := [] |}.

(** The application as the engine sees it.  Behind [app_data] is the
    whole program: running with its globals, gone through [_Exit], or
    lost to an out-of-bounds access.  Once the program is gone the
    callbacks are not run any more. *)
Inductive program :=
| Running (g : globals)
| Gone (status : Z) (g : globals)
| Lost.

Definition i_tdm (TX_OFFSET : Z) : tdm_callback_group_t program :=
  {| init := fun p cfg =>
       match p with
       | Running g =>
           match tdm_init TX_OFFSET g cfg with
           | Returns cfg' g' => (Running g', cfg')
           | Exits s g' => (Gone s g', cfg)
           | Undefined => (Lost, cfg)
           end
       | _ => (p, cfg)
       end;
     restart_check := fun p =>
       match p with
       | Running g =>
           match tdm_restart_check g with
           | Returns r g' => (Running g', r)
           | Exits s g' => (Gone s g', TDM_NO_RESTART)
           | Undefined => (Lost, TDM_NO_RESTART)
           end
       | _ => (p, TDM_NO_RESTART)
       end;
     process := fun p num_out num_in num_chans num_data_bits rx tx =>
       match p with
       | Running g =>
           match tdm_process g num_out num_in num_chans num_data_bits rx tx with
           | Returns b g' => (Running g', b)
           | Exits s g' => (Gone s g', (rx, tx))
           | Undefined => (Lost, (rx, tx))
           end
       | _ => (p, (rx, tx))
       end |}.

(** The [tdm_slave] job of [main]: one output line, one input line, 16
    channels of 16 bits. *)
Definition main_tdm_slave (TX_OFFSET : Z) : control * machine program :=
  tdm_slave (i_tdm TX_OFFSET) (Running initial_globals) 1 1 16 16.

(** The sample [tdm_init] writes for channel [j]. *)
Definition pattern (j : Z) : Z :=
  if j mod 2 =? 0 then 305419896 else -1985229329.

End TestApp.

(** What holds of the test program wherever the engine stands: while it
    runs, [cnt] names a frame of the arrays and [test_data] holds the
    pattern; when it is gone, it left with status 1 at the last frame. *)
Definition in_bounds (p : TestApp.program) : Prop :=
  match p with
  | TestApp.Running g =>
      0 <= TestApp.cnt g < TestApp.TEST_FRAME_COUNT /\
      forall i j,
        0 <= i < TestApp.TEST_FRAME_COUNT -> 0 <= j < TestApp.TEST_NUM_CH ->
        TestApp.test_data g i j = TestApp.pattern j
  | TestApp.Gone status g =>
      status = 1 /\ TestApp.cnt g = TestApp.TEST_FRAME_COUNT
  | TestApp.Lost => False
  end.

(** The engine with the test program behind it: it never leaves the
    two waits, [restart] stays [TDM_NO_RESTART], and the program stays
    in bounds. *)
Definition test_inv (c : control * machine TestApp.program) : Prop :=
  config_inv (slave_args 1 1 16 16) c /\
  restart (snd c) = TDM_NO_RESTART /\
  (fst c = WaitInitSync \/ fst c = WaitFrameSync) /\
  in_bounds (app_data (snd c)) /\
  count is_init (trace (snd c)) = 1%nat.

(** Every word preloaded so far went to output line 0 and is the packed
    pair of the first two channels of the test pattern. *)
Definition sends_pattern (tr : list event) : Prop :=
  forall p t w,
    In (Ev_port_out_at_time p t w) tr ->
    p = p_dout 0 /\ w = pack16 (TestApp.pattern 0) (TestApp.pattern 1).

(** While the test program runs, the words preloaded so far and the
    working output buffer hold the pattern. *)
Definition pattern_inv (c : control * machine TestApp.program) : Prop :=
  roles_split (snd c) /\
  forall g,
    app_data (snd c) = TestApp.Running g ->
    sends_pattern (trace (snd c)) /\
    buffer_of (snd c) (working_out_buffer (tdm_interrupt_data (snd c))) 0 0 =
      TestApp.pattern 0 /\
    buffer_of (snd c) (working_out_buffer (tdm_interrupt_data (snd c))) 0 1 =
      TestApp.pattern 1.

(** ** Bit-level facts *)

Section Bits.

Lemma of_bits_nonneg (n : nat) (f : Z -> bool) : 0 <= of_bits n f.
Proof.
  induction n as [|k IH]; simpl; [lia|].
  apply Z.lor_nonneg; split; [|exact IH].
  apply Z.shiftl_nonneg. destruct (f (Z.of_nat k)); simpl; lia.
Qed.

Lemma of_bits_spec (n : nat) (f : Z -> bool) (i : Z) :
  0 <= i ->
  Z.testbit (of_bits n f) i = (i <? Z.of_nat n) && f i.
Proof.
  intros Hi. induction n as [|k IH].
  - simpl. rewrite Z.bits_0. destruct (i <? 0) eqn:E; [lia|reflexivity].
  - cbn [of_bits]. rewrite Z.lor_spec, IH, Z.shiftl_spec by exact Hi.
    destruct (Z.eq_dec i (Z.of_nat k)) as [->|Hne].
    + rewrite Z.sub_diag.
      replace (Z.of_nat k <? Z.of_nat k) with false by (symmetry; apply Z.ltb_ge; lia).
      replace (Z.of_nat k <? Z.of_nat (S k)) with true by (symmetry; apply Z.ltb_lt; lia).
      destruct (f (Z.of_nat k)); reflexivity.
    + assert (Hb : Z.testbit (Z.b2z (f (Z.of_nat k))) (i - Z.of_nat k) = false).
      { destruct (Z_lt_le_dec i (Z.of_nat k)).
        - apply Z.testbit_neg_r; lia.
        - destruct (f (Z.of_nat k)); simpl.
          + apply Z.bits_above_log2; simpl; lia.
          + apply Z.bits_0. }
      rewrite Hb, orb_false_l.
      destruct (i <? Z.of_nat k) eqn:E1; destruct (i <? Z.of_nat (S k)) eqn:E2;
        try reflexivity; exfalso;
        [apply Z.ltb_lt in E1; apply Z.ltb_ge in E2
        |apply Z.ltb_ge in E1; apply Z.ltb_lt in E2]; lia.
Qed.

Lemma of_bits_lt (n : nat) (f : Z -> bool) : of_bits n f < 2 ^ Z.of_nat n.
Proof.
  pose proof (of_bits_nonneg n f) as H0.
  destruct (Z.eq_dec (of_bits n f) 0) as [->|Hnz].
  - apply Z.pow_pos_nonneg; lia.
  - apply Z.log2_lt_pow2; [lia|].
    destruct (Z_lt_le_dec (Z.log2 (of_bits n f)) (Z.of_nat n)) as [Hlt|Hge]; [exact Hlt|].
    exfalso.
    assert (Hb : Z.testbit (of_bits n f) (Z.log2 (of_bits n f)) = true)
      by (apply Z.bit_log2; lia).
    rewrite of_bits_spec in Hb by (apply Z.log2_nonneg).
    replace (Z.log2 (of_bits n f) <? Z.of_nat n) with false in Hb
      by (symmetry; apply Z.ltb_ge; exact Hge).
    discriminate Hb.
Qed.

Lemma chunk16 (i q : Z) :
  16 * q <= i < 16 * q + 16 -> i / 16 = q /\ i mod 16 = i - 16 * q.
Proof. intros H. Z.div_mod_to_equations. lia. Qed.

Ltac chunk i q :=
  destruct (chunk16 i q) as [-> ->]; [lia|];
  let o := eval vm_compute in (Z.odd q) in
  change (Z.odd q) with o;
  let h := eval vm_compute in (q / 2) in
  change (q / 2) with h;
  cbv iota.

Lemma ltb_true (a b : Z) : a < b -> (a <? b) = true.
Proof. apply Z.ltb_lt. Qed.

Lemma ltb_false (a b : Z) : b <= a -> (a <? b) = false.
Proof. apply Z.ltb_ge. Qed.

Lemma to_uint32_bits (x i : Z) :
  0 <= i -> Z.testbit (to_uint32 x) i = (i <? 32) && Z.testbit x i.
Proof.
  intros Hi. unfold to_uint32, modulus.
  destruct (Z_lt_le_dec i 32).
  - rewrite Z.mod_pow2_bits_low, ltb_true by lia. reflexivity.
  - rewrite Z.mod_pow2_bits_high, ltb_false by lia. reflexivity.
Qed.

Lemma bitrev_bits (x i : Z) :
  0 <= i -> Z.testbit (bitrev x) i = (i <? 32) && Z.testbit x (31 - i).
Proof. intros Hi. unfold bitrev. now rewrite of_bits_spec. Qed.

Lemma bitrev_range (x : Z) : 0 <= bitrev x < modulus.
Proof. split; [apply of_bits_nonneg | apply (of_bits_lt 32)]. Qed.

Lemma to_uint32_small (x : Z) : 0 <= x < modulus -> to_uint32 x = x.
Proof. apply Z.mod_small. Qed.

(** The lower word left by [zip d, e, 4]: the low half of [d] above the
    low half of [e]. *)
Lemma zip16_lo_bits (d e i : Z) :
  0 <= i < 32 ->
  Z.testbit (snd (zip d e 4)) i =
  if i <? 16 then Z.testbit e i else Z.testbit d (i - 16).
Proof.
  intros Hi. unfold zip, zip64. cbn [snd].
  rewrite Z.land_spec, Z.ones_spec_low, andb_true_r by lia.
  rewrite of_bits_spec by lia.
  rewrite ltb_true by (cbn [Z.of_nat Pos.of_succ_nat Pos.succ]; lia). rewrite andb_true_l.
  change (2 ^ 4) with 16.
  destruct (Z_lt_le_dec i 16).
  - chunk i 0.
    rewrite ltb_true by lia. f_equal; lia.
  - chunk i 1.
    rewrite ltb_false by lia. f_equal; lia.
Qed.

(** The upper word left by [zip d, e, 4]: the high half of [d] above the
    high half of [e]. *)
Lemma zip16_hi_bits (d e i : Z) :
  0 <= i < 32 ->
  Z.testbit (fst (zip d e 4)) i =
  if i <? 16 then Z.testbit e (i + 16) else Z.testbit d i.
Proof.
  intros Hi. unfold zip, zip64. cbn [fst].
  rewrite Z.shiftr_spec by lia.
  rewrite of_bits_spec by lia.
  rewrite ltb_true by (cbn [Z.of_nat Pos.of_succ_nat Pos.succ]; lia). rewrite andb_true_l.
  change (2 ^ 4) with 16.
  destruct (Z_lt_le_dec i 16).
  - chunk (i + 32) 2.
    rewrite ltb_true by lia. f_equal; lia.
  - chunk (i + 32) 3.
    rewrite ltb_false by lia. f_equal; lia.
Qed.

Lemma concat64_bits (d e i : Z) :
  0 <= i < 64 ->
  Z.testbit (Z.lor (Z.shiftl (to_uint32 d) 32) (to_uint32 e)) i =
  if i <? 32 then Z.testbit e i else Z.testbit d (i - 32).
Proof.
  intros Hi. rewrite Z.lor_spec, Z.shiftl_spec by lia.
  destruct (Z_lt_le_dec i 32).
  - rewrite Z.testbit_neg_r by lia.
    rewrite to_uint32_bits by lia. rewrite !ltb_true by lia. reflexivity.
  - rewrite !to_uint32_bits by lia.
    rewrite (ltb_true (i - 32)) by lia. rewrite !ltb_false by lia.
    simpl. apply orb_false_r.
Qed.

(** The first register after [unzip d, e, 4]: the high half of [d] above
    the high half of [e]. *)
Lemma unzip16_fst_bits (d e m : Z) :
  0 <= m < 32 ->
  Z.testbit (fst (unzip d e 4)) m =
  if m <? 16 then Z.testbit e (m + 16) else Z.testbit d m.
Proof.
  intros Hm. unfold unzip. cbn [fst].
  rewrite of_bits_spec by lia.
  rewrite ltb_true by (cbn [Z.of_nat Pos.of_succ_nat Pos.succ]; lia). rewrite andb_true_l.
  change (2 ^ 4) with 16.
  destruct (Z_lt_le_dec m 16).
  - chunk m 0.
    rewrite concat64_bits by lia. rewrite !ltb_true by lia. f_equal; lia.
  - chunk m 1.
    rewrite concat64_bits by lia. rewrite !ltb_false by lia. f_equal; lia.
Qed.

(** The second register after [unzip d, e, 4]: the low half of [d] above
    the low half of [e]. *)
Lemma unzip16_snd_bits (d e m : Z) :
  0 <= m < 32 ->
  Z.testbit (snd (unzip d e 4)) m =
  if m <? 16 then Z.testbit e m else Z.testbit d (m - 16).
Proof.
  intros Hm. unfold unzip. cbn [snd].
  rewrite of_bits_spec by lia.
  rewrite ltb_true by (cbn [Z.of_nat Pos.of_succ_nat Pos.succ]; lia). rewrite andb_true_l.
  change (2 ^ 4) with 16.
  destruct (Z_lt_le_dec m 16).
  - chunk m 0.
    rewrite concat64_bits by lia. rewrite !ltb_true by lia. f_equal; lia.
  - chunk m 1.
    rewrite concat64_bits by lia. rewrite ltb_false by lia.
    rewrite ltb_false by lia. f_equal; lia.
Qed.

Lemma unzip_high_bits (d e s m : Z) :
  32 <= m ->
  Z.testbit (fst (unzip d e s)) m = false /\
  Z.testbit (snd (unzip d e s)) m = false.
Proof.
  intros Hm. unfold unzip. cbn [fst snd].
  rewrite !of_bits_spec by lia. rewrite ltb_false by (cbn [Z.of_nat Pos.of_succ_nat Pos.succ]; lia).
  split; reflexivity.
Qed.

End Bits.

(** ** The bit packer round trip *)

Section PackerRoundTrip.

Lemma pack16_bits (x0 x1 i : Z) :
  0 <= i < 32 ->
  Z.testbit (pack16 x0 x1) i =
  if i <? 16 then Z.testbit x0 (15 - i) else Z.testbit x1 (31 - i).
Proof.
  intros Hi. unfold pack16, OUT16.
  destruct (zip (to_uint32 x0) (to_uint32 x1) 4) as [X1 Y1] eqn:E.
  cbn [snd]. rewrite bitrev_bits by lia. rewrite ltb_true by lia.
  rewrite andb_true_l.
  replace Y1 with (snd (zip (to_uint32 x0) (to_uint32 x1) 4)) by (now rewrite E).
  rewrite zip16_lo_bits by lia.
  destruct (Z_lt_le_dec i 16).
  - rewrite ltb_false, ltb_true by lia.
    rewrite to_uint32_bits by lia. rewrite ltb_true by lia.
    rewrite andb_true_l. f_equal; lia.
  - rewrite ltb_true, ltb_false by lia.
    rewrite to_uint32_bits by lia. rewrite ltb_true by lia.
    reflexivity.
Qed.

Lemma IN16_pack16_low_bits (X x0 x1 n : Z) :
  0 <= n < 16 ->
  Z.testbit (fst (IN16 X (pack16 x0 x1))) n = Z.testbit x0 n /\
  Z.testbit (snd (IN16 X (pack16 x0 x1))) n = Z.testbit x1 n.
Proof.
  intros Hn. unfold IN16.
  rewrite unzip16_fst_bits, unzip16_snd_bits by lia.
  rewrite !ltb_true by lia.
  rewrite !bitrev_bits by lia. rewrite !ltb_true by lia.
  rewrite !andb_true_l.
  rewrite !pack16_bits by lia.
  rewrite ltb_true, ltb_false by lia.
  split; f_equal; lia.
Qed.

Lemma unpack16_high_bits (w n : Z) :
  16 <= n ->
  Z.testbit (fst (unpack16 w)) n = false /\
  Z.testbit (snd (unpack16 w)) n = false.
Proof.
  intros Hn. unfold unpack16, IN16.
  destruct (Z_lt_le_dec n 32).
  - rewrite unzip16_fst_bits, unzip16_snd_bits by lia.
    rewrite !ltb_false by lia. rewrite !Z.bits_0. split; reflexivity.
  - apply unzip_high_bits. lia.
Qed.

Lemma low16_eq (a x : Z) :
  (forall n, 0 <= n < 16 -> Z.testbit a n = Z.testbit x n) ->
  a mod 2 ^ 16 = x mod 2 ^ 16.
Proof.
  intros H. apply Z.bits_inj'. intros n Hn.
  destruct (Z_lt_le_dec n 16).
  - rewrite !Z.mod_pow2_bits_low by lia. apply H. lia.
  - rewrite !Z.mod_pow2_bits_high by lia. reflexivity.
Qed.

Lemma unpack16_range (w : Z) :
  fst (unpack16 w) mod 2 ^ 16 = fst (unpack16 w) /\
  snd (unpack16 w) mod 2 ^ 16 = snd (unpack16 w).
Proof.
  split; apply Z.bits_inj'; intros n Hn;
    (destruct (Z_lt_le_dec n 16);
     [ rewrite Z.mod_pow2_bits_low by lia; reflexivity
     | rewrite Z.mod_pow2_bits_high by lia; symmetry;
       apply (unpack16_high_bits w n); lia ]).
Qed.

(** C1.  Unpacking ([IN16]: bit-reverse, then unzip with step 4) the word
    produced by packing ([OUT16]: zip with step 4, then bit-reverse) two
    32-bit samples gives back both samples in their low 16 bits, whatever
    the first register of [IN16] held before; with that register cleared,
    as [tdm_isr] does, the two results are exactly the low 16 bits of the
    samples. *)
Theorem packing_round_trip_16 (x0 x1 : Z) :
  (forall X : Z,
      fst (IN16 X (pack16 x0 x1)) mod 2 ^ 16 = x0 mod 2 ^ 16 /\
      snd (IN16 X (pack16 x0 x1)) mod 2 ^ 16 = x1 mod 2 ^ 16) /\
  unpack16 (pack16 x0 x1) = (x0 mod 2 ^ 16, x1 mod 2 ^ 16).
Proof.
  assert (HX : forall X : Z,
    fst (IN16 X (pack16 x0 x1)) mod 2 ^ 16 = x0 mod 2 ^ 16 /\
    snd (IN16 X (pack16 x0 x1)) mod 2 ^ 16 = x1 mod 2 ^ 16).
  { intros X. split; apply low16_eq; intros n Hn;
      apply (IN16_pack16_low_bits X x0 x1 n Hn). }
  split; [exact HX|].
  destruct (HX 0) as [H0 H1].
  destruct (unpack16_range (pack16 x0 x1)) as [R0 R1].
  fold (unpack16 (pack16 x0 x1)) in H0, H1.
  rewrite R0 in H0. rewrite R1 in H1.
  rewrite (surjective_pairing (unpack16 (pack16 x0 x1))).
  now rewrite H0, H1.
Qed.

End PackerRoundTrip.

(** ** Double-buffer rotation *)

Section Rotation.

Context {App : Type}.

Lemma commit_buffers_runs (a b : double_buffer_id) (st : machine App) :
  exists st', commit_buffers a b st = Some (tt, st').
Proof. eexists. reflexivity. Qed.

Lemma lxor_bit (n : Z) :
  selector_bit n -> to_uint8 (Z.lxor n 1) = 1 - n.
Proof. intros [-> | ->]; reflexivity. Qed.

(** C2.  After a call to [commit_buffers] (the selector being the bit it
    is from program start on): in each direction the working pointer and
    the safe pointer address the two different buffers of that
    direction's pair, both directions use the same index, and the one
    shared selector has been flipped once, and is a bit again.  The
    working index is the selector before the call and the safe index
    the selector after it, so a second call exchanges the two roles. *)
Theorem commit_buffers_rotates (st st1 : machine App) :
  selector_bit (current_buf_no st) ->
  commit_buffers In_s Out_s st = Some (tt, st1) ->
  let d := tdm_interrupt_data st1 in
  (ptr_base (working_in_buffer d) = In_s /\ ptr_base (safe_in_buffer st1) = In_s /\
   ptr_base (working_out_buffer d) = Out_s /\ ptr_base (safe_out_buffer st1) = Out_s) /\
  (selector_bit (ptr_index (working_in_buffer d)) /\
   selector_bit (ptr_index (safe_in_buffer st1)) /\
   selector_bit (ptr_index (working_out_buffer d)) /\
   selector_bit (ptr_index (safe_out_buffer st1))) /\
  (working_in_buffer d <> safe_in_buffer st1 /\
   working_out_buffer d <> safe_out_buffer st1) /\
  (ptr_index (working_in_buffer d) = ptr_index (working_out_buffer d) /\
   ptr_index (safe_in_buffer st1) = ptr_index (safe_out_buffer st1)) /\
  (current_buf_no st1 = Z.lxor (current_buf_no st) 1 /\
   current_buf_no st1 <> current_buf_no st /\
   selector_bit (current_buf_no st1)) /\
  (ptr_index (working_in_buffer d) = current_buf_no st /\
   ptr_index (safe_in_buffer st1) = current_buf_no st1) /\
  (forall st2, commit_buffers In_s Out_s st1 = Some (tt, st2) ->
     working_in_buffer (tdm_interrupt_data st2) = safe_in_buffer st1 /\
     working_out_buffer (tdm_interrupt_data st2) = safe_out_buffer st1 /\
     safe_in_buffer st2 = working_in_buffer d /\
     safe_out_buffer st2 = working_out_buffer d /\
     current_buf_no st2 = current_buf_no st).
Proof.
  intros Hsel Hrun. injection Hrun as <-. cbn -[Z.lxor to_uint8].
  assert (Hflip : to_uint8 (Z.lxor (current_buf_no st) 1) = Z.lxor (current_buf_no st) 1)
    by (destruct Hsel as [-> | ->]; reflexivity).
  assert (Hback : to_uint8 (Z.lxor (Z.lxor (current_buf_no st) 1) 1) = current_buf_no st)
    by (destruct Hsel as [-> | ->]; reflexivity).
  assert (Hnew : selector_bit (Z.lxor (current_buf_no st) 1))
    by (destruct Hsel as [-> | ->]; [right | left]; reflexivity).
  assert (Hne : Z.lxor (current_buf_no st) 1 <> current_buf_no st)
    by (destruct Hsel as [-> | ->]; discriminate).
  rewrite !Hflip.
  split; [repeat split|].
  split; [repeat split; assumption|].
  split; [split; intros H; injection H as H; apply Hne; symmetry; exact H|].
  split; [split; reflexivity|].
  split; [repeat split; assumption|].
  split; [split; reflexivity|].
  intros st2 H2. injection H2 as <-. cbn -[Z.lxor to_uint8].
  rewrite ?Hflip, ?Hback.
  repeat split.
Qed.

End Rotation.

(** ** Output preload *)

Section Preload.

Context {App : Type}.

Lemma set_trace_same (m : machine App) : set_trace (trace m ++ []) m = m.
Proof. destruct m. unfold set_trace. cbn. now rewrite app_nil_r. Qed.

Lemma line_ok_intro (l : Z) : 0 <= l < TDM_MAX_PORTS -> line_ok l = true.
Proof.
  intros H. unfold line_ok.
  apply andb_true_intro; split; [apply Z.leb_le | apply Z.ltb_lt]; lia.
Qed.

Lemma preload_data_line_spec (m : machine App) (l : Z) :
  buffer_index_ok (ptr_index (working_out_buffer (tdm_interrupt_data m))) = true ->
  line_ok l = true ->
  preload_data_line l m =
  Some (Continue, set_trace (trace m ++ [preload_event m l]) m).
Proof.
  intros Hw Hl.
  unfold preload_data_line, load_sample, load_buffer, port_out_at_time, log,
    bind, gets, modify, ret.
  rewrite Hw. unfold sample_get. rewrite Hl.
  change (channel_ok 1) with true. change (channel_ok 0) with true.
  cbn [andb].
  unfold preload_event, preload_time, pack16, buffer_of.
  destruct (OUT16 _ _) as [tmp out] eqn:E.
  reflexivity.
Qed.

Lemma preload_loop (n : nat) :
  forall (m : machine App) (i : Z),
    buffer_index_ok (ptr_index (working_out_buffer (tdm_interrupt_data m))) = true ->
    0 <= i -> i + Z.of_nat n <= TDM_MAX_PORTS ->
    for_loop n i preload_data_line m =
    Some (tt, set_trace (trace m ++ map (preload_event m) (zrange i n)) m).
Proof.
  induction n as [|n IH]; intros m i Hw Hi Hn.
  - cbn [for_loop zrange map]. unfold ret. now rewrite set_trace_same.
  - cbn [for_loop zrange map]. unfold bind at 1.
    rewrite preload_data_line_spec by (try apply line_ok_intro; auto; lia).
    rewrite IH by (auto; lia).
    cbn [trace set_trace]. rewrite <- app_assoc. reflexivity.
Qed.

(** [preload_data] under the asserted bound on the output lines: one
    port output per output line, and nothing else changes. *)
Lemma preload_data_spec (st : machine App) :
  buffer_index_ok (ptr_index (working_out_buffer (tdm_interrupt_data st))) = true ->
  num_out (args st) <= TDM_MAX_PORTS ->
  preload_data st = Some (tt, set_trace (trace st ++ preload_events st) st).
Proof.
  intros Hw Hn. unfold preload_data, bind, gets.
  rewrite preload_loop; [reflexivity | exact Hw | lia |].
  destruct (Z_le_gt_dec 0 (num_out (args st))).
  - rewrite Z2Nat.id by lia. lia.
  - replace (Z.to_nat (num_out (args st))) with O by lia. unfold TDM_MAX_PORTS. cbn. lia.
Qed.

End Preload.

(** ** The frame interrupt handler *)

Section Handler.

Context {App : Type}.

Lemma tdm_isr_effect (din : Z -> Z) (st : machine App) :
  buffer_index_ok (ptr_index (working_in_buffer (tdm_interrupt_data st))) = true ->
  ptr_base (working_in_buffer (tdm_interrupt_data st)) = In_s ->
  exists st',
    tdm_isr din st = Some (tt, st') /\
    args st' = args st /\
    tdm_config st' = tdm_config st /\
    out_s st' = out_s st /\
    tdm_interrupt_data st' = tdm_interrupt_data st /\
    safe_in_buffer st' = safe_in_buffer st /\
    safe_out_buffer st' = safe_out_buffer st /\
    restart st' = restart st /\
    current_buf_no st' = current_buf_no st /\
    app_data st' = app_data st /\
    bclk_trigger_time st' = add32 (bclk_trigger_time st) (frame_len (args st)) /\
    trace st' = trace st ++ isr_events din st /\
    (forall i l c, in_s st' i l c = isr_sample din st i l c).
Proof.
  intros Hw Hb.
  unfold tdm_isr, port_get_trigger_time_bclk, port_set_trigger_time, log,
    bind, gets, modify, ret, isr_events, isr_sample.
  cbn [tdm_interrupt_data set_trace args trace bclk_trigger_time].
  destruct (Z.to_nat (num_in (args st))) as [|n] eqn:En.
  - assert (H0 : (0 <? num_in (args st)) = false) by (apply Z.ltb_ge; lia).
    rewrite H0. cbn [for_loop]. unfold ret.
    eexists. split; [reflexivity|].
    cbn. rewrite <- !app_assoc. repeat split.
  - assert (H0 : (0 <? num_in (args st)) = true) by (apply Z.ltb_lt; lia).
    rewrite H0. cbn [for_loop].
    unfold tdm_isr_line, port_in, store_sample, load_buffer, store_buffer, log,
      bind, gets, modify, ret, unpack16.
    destruct (IN16 0 (din 0)) as [d0 d1] eqn:E.
    cbn [tdm_interrupt_data set_trace args trace].
    rewrite Hw. unfold sample_set. change (line_ok 0) with true.
    change (channel_ok 1) with true. change (channel_ok 0) with true.
    cbn [andb]. rewrite ?Hw, ?Hb.
    cbn [tdm_interrupt_data set_trace set_in_s args trace]. rewrite ?Hw, ?Hb.
    eexists. split; [reflexivity|].
    cbn -[add32 to_int32]. rewrite <- !app_assoc. cbn [app].
    repeat split.
    intros i l c. unfold update_double_buffer.
    destruct (i =? ptr_index (working_in_buffer (tdm_interrupt_data st))) eqn:Ei;
      [|reflexivity].
    apply Z.eqb_eq in Ei. subst i. rewrite Z.eqb_refl.
    destruct (l =? 0) eqn:El; cbn [andb]; rewrite ?El; cbn [andb];
      [|reflexivity].
    destruct (c =? 1) eqn:E1; destruct (c =? 0) eqn:E0; cbn [andb orb];
      rewrite ?El, ?E0; cbn [andb]; try reflexivity.
    apply Z.eqb_eq in E1, E0. lia.
Qed.

End Handler.

(** ** The two loops of the engine *)

Section MainLoop.

Context {App : Type}.
Variable tdm_cbg : tdm_callback_group_t App.

(** A [for] loop whose rounds only make calls: round [j] adds the events
    [ev j], as long as the machine keeps the property [P]. *)
Lemma for_loop_events (P : machine App -> Prop) (body : Z -> M App loop_ctl)
      (ev : Z -> list event) (n : nat) :
  (forall (m : machine App) (tr : list event), P m -> P (set_trace tr m)) ->
  (forall (m : machine App) (j : Z),
      P m -> body j m = Some (Continue, set_trace (trace m ++ ev j) m)) ->
  forall (m : machine App) (i : Z),
    P m ->
    for_loop n i body m =
    Some (tt, set_trace (trace m ++ flat_map ev (zrange i n)) m).
Proof.
  intros HP Hbody. induction n as [|n IH]; intros m i Hm.
  - cbn [for_loop zrange flat_map]. unfold ret. now rewrite set_trace_same.
  - cbn [for_loop zrange flat_map]. unfold bind at 1. rewrite Hbody by exact Hm.
    rewrite IH by (apply HP; exact Hm).
    cbn [trace set_trace]. rewrite <- app_assoc. reflexivity.
Qed.

Lemma selector_index_ok (n : Z) : selector_bit n -> buffer_index_ok n = true.
Proof. intros [-> | ->]; reflexivity. Qed.

Lemma selector_flip (n : Z) : selector_bit n -> selector_bit (to_uint8 (Z.lxor n 1)).
Proof. intros [-> | ->]; [right | left]; reflexivity. Qed.

Lemma call_process_effect (site : process_site) (a : tdm_slave_loop_args_t)
      (st : machine App) :
  engine_inv a st ->
  exists st',
    call_process tdm_cbg site st = Some (tt, st') /\
    engine_inv a st' /\
    args st' = args st /\
    tdm_config st' = tdm_config st /\
    tdm_interrupt_data st' = tdm_interrupt_data st /\
    safe_in_buffer st' = safe_in_buffer st /\
    safe_out_buffer st' = safe_out_buffer st /\
    restart st' = restart st /\
    bclk_trigger_time st' = bclk_trigger_time st /\
    trace st' = trace st ++ [Ev_process site (safe_in_buffer st) (safe_out_buffer st)].
Proof.
  intros (Ha & Hs & Hp).
  destruct Hp as (Hwi & Hwo & Hsi & Hso & Bwi & Bwo & Bsi & Bso).
  unfold call_process, load_buffer, store_buffer, log, bind, gets, modify, ret.
  cbn [safe_in_buffer safe_out_buffer set_trace args trace app_data].
  rewrite Hsi, Hso.
  destruct (process tdm_cbg _ _ _ _ _ _ _) as [app' [rx' tx']].
  cbn [safe_in_buffer safe_out_buffer set_trace set_app_data args trace app_data].
  rewrite ?Hsi, ?Hso, ?Bsi, ?Bso.
  eexists. split; [reflexivity|].
  cbn. repeat split; try assumption; apply Ha.
Qed.

Lemma commit_buffers_effect (a : tdm_slave_loop_args_t) (st : machine App) :
  args_fixed a st ->
  selector_bit (current_buf_no st) ->
  exists st',
    commit_buffers In_s Out_s st = Some (tt, st') /\
    engine_inv a st' /\
    args st' = args st /\
    tdm_config st' = tdm_config st /\
    in_s st' = in_s st /\
    out_s st' = out_s st /\
    fsync_time (tdm_interrupt_data st') = fsync_time (tdm_interrupt_data st) /\
    restart st' = restart st /\
    app_data st' = app_data st /\
    bclk_trigger_time st' = bclk_trigger_time st /\
    trace st' = trace st ++ [Ev_commit_buffers].
Proof.
  intros Ha Hs. eexists. split; [reflexivity|].
  pose proof (selector_index_ok _ Hs) as H1.
  pose proof (selector_index_ok _ (selector_flip _ Hs)) as H2.
  cbn -[to_uint8 Z.lxor].
  split; [|repeat split].
  split; [exact Ha|]. split; [exact (selector_flip _ Hs)|].
  unfold pointers_ok. cbn -[to_uint8 Z.lxor]. repeat split; assumption.
Qed.

Lemma init_until_frame_sync_effect (a : tdm_slave_loop_args_t) (st : machine App) :
  engine_inv a st ->
  exists st',
    init_until_frame_sync tdm_cbg st = Some (tt, st') /\
    engine_inv a st' /\
    restart st' = restart st /\
    bclk_trigger_time st' = bclk_trigger_time st /\
    (num_bclk_cycles_offset (args st') =
       offset (snd (init tdm_cbg (app_data st) (tdm_config st))) /\
     tdm_config st' = snd (init tdm_cbg (app_data st) (tdm_config st))) /\
    trace st' = trace st ++ init_events tdm_cbg st.
Proof.
  intros Hinv. pose proof Hinv as (Ha & Hs & Hp).
  unfold init_until_frame_sync, call_init, log, bind, gets, modify, ret, init_events.
  cbn [set_trace args trace app_data tdm_config].
  destruct (init tdm_cbg (app_data st) (tdm_config st)) as [app' cfg'] eqn:Ei.
  cbn [set_trace set_app_data set_tdm_config set_args args trace app_data
       tdm_config snd num_out set_num_bclk_cycles_offset].
  assert (Hm : forall (e : event), exists st',
    match
      (if 0 <? num_out (args st)
       then call_process tdm_cbg Priming
       else fun st0 : machine App => Some (tt, st0))
        (set_args (set_num_bclk_cycles_offset (offset cfg') (args st))
           (set_tdm_config cfg'
              (set_app_data app'
                 (set_trace
                    (((trace st ++ [Ev_interrupt_mask_all]) ++ [Ev_init]) ++ [e])
                    st))))
    with
    | Some (_, st'1) =>
        match commit_buffers In_s Out_s st'1 with
        | Some (_, st'2) =>
            Some (tt,
                  set_trace
                    ((trace st'2 ++ [Ev_port_clear_buffer p_fsync]) ++ [Ev_clock_start])
                    (set_trace (trace st'2 ++ [Ev_port_clear_buffer p_fsync]) st'2))
        | None => None
        end
    | None => None
    end = Some (tt, st') /\
    engine_inv a st' /\
    restart st' = restart st /\
    bclk_trigger_time st' = bclk_trigger_time st /\
    (num_bclk_cycles_offset (args st') = offset cfg' /\
     tdm_config st' = cfg') /\
    trace st' =
    trace st ++
    [Ev_interrupt_mask_all; Ev_init; e] ++
    (if 0 <? num_out (args st)
     then [Ev_process Priming (safe_in_buffer st) (safe_out_buffer st)]
     else []) ++
    [Ev_commit_buffers; Ev_port_clear_buffer p_fsync; Ev_clock_start]).
  { intros e.
    match goal with
    | |- context [(if _ then _ else _) ?m] => set (m1 := m)
    end.
    assert (Hinv1 : engine_inv a m1) by exact Hinv.
    destruct (0 <? num_out (args st)) eqn:En.
    - destruct (call_process_effect Priming a m1 Hinv1)
        as (m2 & E2 & Hinv2 & A2 & C2 & D2 & SI2 & SO2 & R2 & B2 & T2).
      rewrite E2.
      destruct (commit_buffers_effect a m2 (proj1 Hinv2) (proj1 (proj2 Hinv2)))
        as (m3 & E3 & Hinv3 & A3 & C3 & I3 & O3 & F3 & R3 & P3 & B3 & T3).
      rewrite E3. eexists. split; [reflexivity|].
      split; [exact Hinv3|].
      cbn [restart bclk_trigger_time args trace set_trace tdm_config].
      rewrite R3, R2, B3, B2, A3, A2, T3, T2, C3, C2.
      subst m1. cbn [restart bclk_trigger_time args trace set_trace set_args
                     set_tdm_config set_app_data safe_in_buffer safe_out_buffer
                     num_bclk_cycles_offset set_num_bclk_cycles_offset tdm_config].
      repeat split. rewrite <- !app_assoc. reflexivity.
    - destruct (commit_buffers_effect a m1 (proj1 Hinv1) (proj1 (proj2 Hinv1)))
        as (m3 & E3 & Hinv3 & A3 & C3 & I3 & O3 & F3 & R3 & P3 & B3 & T3).
      rewrite E3. eexists. split; [reflexivity|].
      split; [exact Hinv3|].
      cbn [restart bclk_trigger_time args trace set_trace tdm_config].
      rewrite R3, B3, A3, T3, C3.
      subst m1. cbn [restart bclk_trigger_time args trace set_trace set_args
                     set_tdm_config set_app_data safe_in_buffer safe_out_buffer
                     num_bclk_cycles_offset set_num_bclk_cycles_offset tdm_config].
      repeat split. rewrite <- !app_assoc. reflexivity. }
  destruct (slave_bclk_polarity cfg'); apply Hm.
Qed.

Lemma clear_input_line_spec (m : machine App) (j : Z) :
  clear_input_line j m =
  Some (Continue,
        set_trace (trace m ++ [Ev_port_clear_buffer (p_din j);
                               Ev_port_set_trigger_time (p_din j) (first_trigger_time m)])
                  m).
Proof.
  unfold clear_input_line, port_set_trigger_time, log, bind, gets, modify, ret.
  cbn [trace set_trace]. rewrite <- app_assoc. reflexivity.
Qed.

Lemma clear_output_line_spec (m : machine App) (j : Z) :
  clear_output_line j m =
  Some (Continue, set_trace (trace m ++ [Ev_port_clear_buffer (p_dout j)]) m).
Proof. reflexivity. Qed.

Lemma num_out_range (n : Z) :
  n <= TDM_MAX_PORTS -> 0 + Z.of_nat (Z.to_nat n) <= TDM_MAX_PORTS.
Proof. unfold TDM_MAX_PORTS. lia. Qed.

Lemma init_from_frame_sync_effect (a : tdm_slave_loop_args_t) (st : machine App)
      (t : Z) :
  engine_inv a st ->
  num_out a <= TDM_MAX_PORTS ->
  exists st',
    init_from_frame_sync t st = Some (tt, st') /\
    engine_inv a st' /\
    restart st' = restart st /\
    fsync_time (tdm_interrupt_data st') = t /\
    (num_bclk_cycles_offset (args st') = num_bclk_cycles_offset (args st) /\
     tdm_config st' = tdm_config st) /\
    bclk_trigger_time st' = first_trigger_time st' /\
    trace st' = trace st ++ arm_events st'.
Proof.
  intros Hinv Hn. pose proof Hinv as (Ha & Hs & Hp).
  unfold init_from_frame_sync, hold_for_frame_sync, port_set_trigger_time, log,
    bind, gets, modify, ret.
  cbn [set_trace args trace].
  match goal with
  | |- context [for_loop _ 0 clear_input_line ?m] => set (m1 := m)
  end.
  rewrite (for_loop_events (fun m => first_trigger_time m = first_trigger_time m1)
             clear_input_line
             (fun j => [Ev_port_clear_buffer (p_din j);
                        Ev_port_set_trigger_time (p_din j) (first_trigger_time m1)]));
    [ | intros m tr Hm; exact Hm
      | intros m j Hm; rewrite clear_input_line_spec, Hm; reflexivity
      | reflexivity ].
  cbn [set_trace args trace].
  rewrite (for_loop_events (fun _ => True) clear_output_line
             (fun j => [Ev_port_clear_buffer (p_dout j)]));
    [ | intros; exact I | intros; apply clear_output_line_spec | exact I ].
  rewrite preload_data_spec;
    [ | apply Hp | cbn [set_trace args]; subst m1; cbn [set_trace args set_bclk_trigger_time
                     set_tdm_interrupt_data]; destruct Ha as (-> & _); exact Hn ].
  eexists. split; [reflexivity|].
  split; [exact Hinv|].
  subst m1. unfold arm_events.
  cbn -[first_trigger_time preload_events flat_map zrange Z.to_nat].
  repeat split.
  rewrite <- !app_assoc. reflexivity.
Qed.

Lemma frame_effect (a : tdm_slave_loop_args_t) (st : machine App) (t : Z) :
  engine_inv a st ->
  num_out a <= TDM_MAX_PORTS ->
  exists st',
    frame tdm_cbg t st = Some (tt, st') /\
    engine_inv a st' /\
    restart st' = snd (restart_check tdm_cbg (app_data st)) /\
    fsync_time (tdm_interrupt_data st') = t /\
    (num_bclk_cycles_offset (args st') = num_bclk_cycles_offset (args st) /\
     tdm_config st' = tdm_config st) /\
    bclk_trigger_time st' = bclk_trigger_time st /\
    trace st' = trace st ++ frame_events st st'.
Proof.
  intros Hinv Hn. pose proof Hinv as (Ha & Hs & Hp).
  unfold frame, hold_for_frame_sync, call_restart_check, log,
    bind, gets, modify, ret.
  cbn [set_trace args trace app_data set_tdm_interrupt_data].
  destruct (restart_check tdm_cbg (app_data st)) as [app' r] eqn:Er.
  cbn [set_trace args trace app_data set_tdm_interrupt_data set_app_data snd].
  match goal with
  | |- context [call_process _ _ ?m] => set (m1 := m)
  end.
  assert (Hinv1 : engine_inv a m1) by exact Hinv.
  destruct (call_process_effect PerFrame a m1 Hinv1)
    as (m2 & E2 & Hinv2 & A2 & C2 & D2 & SI2 & SO2 & R2 & B2 & T2).
  rewrite E2.
  destruct (commit_buffers_effect a m2 (proj1 Hinv2) (proj1 (proj2 Hinv2)))
    as (m3 & E3 & Hinv3 & A3 & C3 & I3 & O3 & F3 & R3 & P3 & B3 & T3).
  rewrite E3.
  rewrite preload_data_spec;
    [ | apply Hinv3 | destruct Hinv3 as ((-> & _) & _); exact Hn ].
  eexists. split; [reflexivity|].
  split; [exact Hinv3|].
  unfold frame_events.
  cbn [restart bclk_trigger_time args trace set_trace tdm_interrupt_data tdm_config].
  change (preload_events (set_trace (trace m3 ++ preload_events m3) m3))
    with (preload_events m3).
  rewrite R3, R2, B3, B2, A3, A2, F3, D2, T3, T2, C3, C2.
  subst m1.
  cbn [restart bclk_trigger_time args trace set_trace set_restart
       set_tdm_interrupt_data set_app_data safe_in_buffer safe_out_buffer
       tdm_interrupt_data fsync_time set_fsync_time tdm_config].
  repeat split. rewrite <- !app_assoc. reflexivity.
Qed.

End MainLoop.

(** ** Runs of the engine *)

Section EngineRuns.

Context {App : Type}.
Variable tdm_cbg : tdm_callback_group_t App.

Lemma outer_test_effect (a : tdm_slave_loop_args_t) (st : machine App) :
  engine_inv a st ->
  (restart st = TDM_SHUTDOWN /\ outer_test tdm_cbg st = (Exited, st)) \/
  (restart st <> TDM_SHUTDOWN /\
   exists st', init_until_frame_sync tdm_cbg st = Some (tt, st') /\
               outer_test tdm_cbg st = (WaitInitSync, st') /\
               engine_inv a st' /\
               restart st' = restart st /\
               bclk_trigger_time st' = bclk_trigger_time st /\
               trace st' = trace st ++ init_events tdm_cbg st).
Proof.
  intros Hinv. unfold outer_test.
  destruct (init_until_frame_sync_effect tdm_cbg a st Hinv)
    as (st' & E & Hinv' & R & B & _ & T).
  rewrite E.
  destruct (restart st) eqn:Er.
  - right. split; [discriminate|]. exists st'. auto 10.
  - right. split; [discriminate|]. exists st'. auto 10.
  - left. split; reflexivity.
Qed.

Lemma outer_test_inv (a : tdm_slave_loop_args_t) (st : machine App) :
  engine_inv a st -> config_inv a (outer_test tdm_cbg st).
Proof.
  intros Hinv.
  destruct (outer_test_effect a st Hinv) as [[_ ->] | [_ (st' & _ & -> & H & _)]].
  - split; [right; right; reflexivity | exact Hinv].
  - split; [left; reflexivity | exact H].
Qed.

Lemma inner_test_inv (a : tdm_slave_loop_args_t) (st : machine App) :
  engine_inv a st -> config_inv a (inner_test tdm_cbg st).
Proof.
  intros Hinv. unfold inner_test. destruct (restart st) eqn:Er.
  - split; [right; left; reflexivity | exact Hinv].
  - apply outer_test_inv; exact Hinv.
  - apply outer_test_inv; exact Hinv.
Qed.

Lemma react_inv (a : tdm_slave_loop_args_t) (s : stimulus) (c : config) :
  num_out a <= TDM_MAX_PORTS ->
  config_inv a c -> config_inv a (react tdm_cbg s c).
Proof.
  intros Hn [Hl Hinv]. destruct c as [k st]. cbn [fst snd] in *.
  destruct s as [t | din]; destruct k; cbn [react]; try (split; assumption).
  - destruct (init_from_frame_sync_effect a st t Hinv Hn) as (st' & -> & H & _).
    cbn [resume]. apply inner_test_inv; exact H.
  - destruct (frame_effect tdm_cbg a st t Hinv Hn) as (st' & -> & H & _).
    cbn [resume]. apply inner_test_inv; exact H.
  - destruct Hinv as (Ha & Hs & Hp).
    destruct (tdm_isr_effect din st) as (st' & -> & A & C & O & D & SI & SO & R & N & _);
      [apply Hp | apply Hp |].
    split; [right; left; reflexivity|]. cbn [snd].
    unfold engine_inv, args_fixed, pointers_ok. rewrite A, D, SI, SO, N.
    repeat split; try apply Ha; try exact Hs; apply Hp.
Qed.

Lemma run_inv (a : tdm_slave_loop_args_t) (sched : list stimulus) :
  num_out a <= TDM_MAX_PORTS ->
  forall c : config, config_inv a c -> config_inv a (run tdm_cbg sched c).
Proof.
  intros Hn. induction sched as [|s sched IH]; intros c Hc.
  - exact Hc.
  - cbn [run fold_left]. apply IH. apply react_inv; assumption.
Qed.

Lemma tdm_slave_init_ports_spec (n_out n_in : Z) (m : machine App) :
  tdm_slave_init_ports n_out n_in m =
  Some (tt, set_trace (trace m ++ init_ports_events n_out n_in) m).
Proof.
  unfold tdm_slave_init_ports, init_ports_events, log, bind, modify.
  cbn [trace set_trace].
  rewrite (for_loop_events (fun _ => True) init_output_line
             (fun l => [Ev_port_start_buffered (p_dout l) 32;
                        Ev_port_set_clock (p_dout l);
                        Ev_port_clear_buffer (p_dout l);
                        Ev_port_out (p_dout l) 0]));
    [ | intros; exact I
      | intros m0 j _; unfold init_output_line, log, bind, modify, ret;
        cbn [trace set_trace]; rewrite <- !app_assoc; reflexivity
      | exact I ].
  rewrite (for_loop_events (fun _ => True) init_input_line
             (fun l => [Ev_port_start_buffered (p_din l) 32;
                        Ev_port_set_clock (p_din l);
                        Ev_port_clear_buffer (p_din l)]));
    [ | intros; exact I
      | intros m0 j _; unfold init_input_line, log, bind, modify, ret;
        cbn [trace set_trace]; rewrite <- !app_assoc; reflexivity
      | exact I ].
  cbn [trace set_trace]. rewrite <- !app_assoc. reflexivity.
Qed.

Lemma tdm_slave_started (app : App) (n_out n_in n_chans n_bits : Z) :
  preconditions n_out n_in n_chans = true ->
  exists st0,
    tdm_slave tdm_cbg app n_out n_in n_chans n_bits = outer_test tdm_cbg st0 /\
    engine_inv (slave_args n_out n_in n_chans n_bits) st0 /\
    (restart st0 = TDM_NO_RESTART /\ offset_in_force st0) /\
    trace st0 =
      [Ev_xassert true; Ev_xassert true; Ev_xassert true] ++
      init_ports_events n_out n_in.
Proof.
  unfold preconditions. intros H.
  apply andb_prop in H as [H Ho]. apply andb_prop in H as [Hc Hi].
  unfold tdm_slave, xassert. rewrite Hc, Hi, Ho.
  rewrite tdm_slave_init_ports_spec. unfold tdm_main_loop.
  eexists. split; [reflexivity|].
  split; [|split; [split; reflexivity | reflexivity]].
  split; [repeat split|]. split; [left; reflexivity|].
  repeat split.
Qed.

Lemma tdm_slave_trapped (app : App) (n_out n_in n_chans n_bits : Z) :
  preconditions n_out n_in n_chans = false ->
  fst (tdm_slave tdm_cbg app n_out n_in n_chans n_bits) = Trapped /\
  forallb is_xassert
    (trace (snd (tdm_slave tdm_cbg app n_out n_in n_chans n_bits))) = true /\
  In (Ev_xassert false)
    (trace (snd (tdm_slave tdm_cbg app n_out n_in n_chans n_bits))).
Proof.
  unfold preconditions, tdm_slave, xassert. intros H.
  destruct (n_chans <=? TDM_MAX_CHANS); [|cbn; auto].
  destruct (n_in <=? TDM_MAX_PORTS); [|cbn; auto].
  destruct (n_out <=? TDM_MAX_PORTS); [discriminate H|cbn; auto 6].
Qed.

Lemma run_stopped (sched : list stimulus) (c : config) :
  fst c = Trapped \/ fst c = Exited \/ fst c = Faulted ->
  run tdm_cbg sched c = c.
Proof.
  intros H. induction sched as [|s sched IH]; [reflexivity|].
  cbn [run fold_left].
  replace (react tdm_cbg s c) with c; [exact IH|].
  destruct c as [k st]. cbn [fst] in H.
  destruct H as [-> | [-> | ->]]; destruct s; reflexivity.
Qed.

(** Every configuration a run of [tdm_slave] reaches under the asserted
    preconditions is live and satisfies the engine invariant. *)
Lemma tdm_slave_run_inv (app : App) (n_out n_in n_chans n_bits : Z)
      (sched : list stimulus) :
  preconditions n_out n_in n_chans = true ->
  config_inv (slave_args n_out n_in n_chans n_bits)
             (run tdm_cbg sched (tdm_slave tdm_cbg app n_out n_in n_chans n_bits)).
Proof.
  intros H.
  destruct (tdm_slave_started app n_out n_in n_chans n_bits H)
    as (st0 & -> & Hinv & _).
  assert (Ho : n_out <= TDM_MAX_PORTS).
  { unfold preconditions in H. apply andb_prop in H as [_ Ho].
    apply Z.leb_le. exact Ho. }
  apply run_inv; [exact Ho|]. apply outer_test_inv. exact Hinv.
Qed.

End EngineRuns.

(** ** Traces of runs *)

Section Traces.

Context {App : Type}.
Variable tdm_cbg : tdm_callback_group_t App.

Lemma count_app (f : event -> bool) (l1 l2 : list event) :
  count f (l1 ++ l2) = (count f l1 + count f l2)%nat.
Proof. unfold count. now rewrite filter_app, length_app. Qed.

Lemma forallb_flat_map {A : Type} (f : event -> bool) (g : A -> list event)
      (l : list A) :
  (forall x, forallb f (g x) = true) -> forallb f (flat_map g l) = true.
Proof.
  intros H. induction l as [|x l IH]; [reflexivity|].
  cbn [flat_map]. rewrite forallb_app, H, IH. reflexivity.
Qed.

Lemma forallb_map {A : Type} (f : event -> bool) (g : A -> event) (l : list A) :
  (forall x, f (g x) = true) -> forallb f (map g l) = true.
Proof.
  intros H. induction l as [|x l IH]; [reflexivity|].
  cbn [map forallb]. rewrite H, IH. reflexivity.
Qed.

Lemma quiet_count (d : list event) :
  forallb is_quiet d = true ->
  count is_xassert d = O /\ count is_init d = O /\ count is_priming d = O.
Proof.
  unfold count. induction d as [|e d IH]; [intros _; repeat split|].
  cbn [forallb filter]. intros H. apply andb_prop in H as [He Hd].
  destruct (IH Hd) as (H1 & H2 & H3).
  unfold is_quiet in He. apply negb_true_iff in He.
  apply orb_false_elim in He as [He He3]. apply orb_false_elim in He as [He1 He2].
  rewrite He1, He2, He3. auto.
Qed.

Lemma quiet_balanced (n_out : Z) (d : list event) :
  forallb is_quiet d = true -> balanced n_out d.
Proof.
  intros H. destruct (quiet_count d H) as (H1 & H2 & H3).
  split; [exact H1|]. rewrite H2, H3. now destruct (0 <? n_out).
Qed.

Lemma balanced_app (n_out : Z) (d1 d2 : list event) :
  balanced n_out d1 -> balanced n_out d2 -> balanced n_out (d1 ++ d2).
Proof.
  intros [X1 P1] [X2 P2]. unfold balanced. rewrite !count_app, X1, X2, P1, P2.
  split; [reflexivity|]. now destruct (0 <? n_out).
Qed.

Lemma balanced_nil (n_out : Z) : balanced n_out [].
Proof. split; [reflexivity|]. now destruct (0 <? n_out). Qed.

Lemma preload_events_quiet (st : machine App) :
  forallb is_quiet (preload_events st) = true.
Proof. unfold preload_events. apply forallb_map. reflexivity. Qed.

Lemma arm_events_quiet (st : machine App) :
  forallb is_quiet (arm_events st) = true.
Proof.
  unfold arm_events. rewrite !forallb_app.
  rewrite !forallb_flat_map by reflexivity.
  rewrite preload_events_quiet. reflexivity.
Qed.

Lemma frame_events_quiet (st st' : machine App) :
  forallb is_quiet (frame_events st st') = true.
Proof.
  unfold frame_events. rewrite forallb_app, preload_events_quiet. reflexivity.
Qed.

Lemma isr_events_quiet (din : Z -> Z) (st : machine App) :
  forallb is_quiet (isr_events din st) = true.
Proof. unfold isr_events. now destruct (0 <? num_in (args st)). Qed.

Lemma init_ports_events_quiet (n_out n_in : Z) :
  forallb is_quiet (init_ports_events n_out n_in) = true.
Proof.
  unfold init_ports_events. rewrite !forallb_app.
  rewrite !forallb_flat_map by reflexivity. reflexivity.
Qed.

Lemma init_events_balanced (st : machine App) :
  balanced (num_out (args st)) (init_events tdm_cbg st).
Proof.
  unfold init_events, balanced, count.
  destruct (slave_bclk_polarity _); destruct (0 <? num_out (args st));
    split; reflexivity.
Qed.

Lemma outer_test_trace (a : tdm_slave_loop_args_t) (st : machine App) :
  engine_inv a st ->
  exists d, trace (snd (outer_test tdm_cbg st)) = trace st ++ d /\
            balanced (num_out a) d.
Proof.
  intros Hinv.
  destruct (outer_test_effect tdm_cbg a st Hinv)
    as [[_ ->] | [_ (st' & _ & -> & _ & _ & _ & T)]]; cbn [snd].
  - exists []. split; [now rewrite app_nil_r | apply balanced_nil].
  - exists (init_events tdm_cbg st). split; [exact T|].
    destruct Hinv as ((<- & _) & _). apply init_events_balanced.
Qed.

Lemma inner_test_trace (a : tdm_slave_loop_args_t) (st : machine App) :
  engine_inv a st ->
  exists d, trace (snd (inner_test tdm_cbg st)) = trace st ++ d /\
            balanced (num_out a) d.
Proof.
  intros Hinv. unfold inner_test. destruct (restart st).
  - exists []. split; [cbn [snd]; now rewrite app_nil_r | apply balanced_nil].
  - apply outer_test_trace; exact Hinv.
  - apply outer_test_trace; exact Hinv.
Qed.

Lemma react_trace (a : tdm_slave_loop_args_t) (s : stimulus) (c : config) :
  num_out a <= TDM_MAX_PORTS ->
  config_inv a c ->
  exists d, trace (snd (react tdm_cbg s c)) = trace (snd c) ++ d /\
            balanced (num_out a) d.
Proof.
  intros Hn [Hl Hinv]. destruct c as [k st]. cbn [fst snd] in *.
  assert (Hnil : exists d, trace st = trace st ++ d /\ balanced (num_out a) d)
    by (exists []; split; [now rewrite app_nil_r | apply balanced_nil]).
  destruct s as [t | din]; destruct k; cbn [react snd]; try exact Hnil.
  - destruct (init_from_frame_sync_effect a st t Hinv Hn)
      as (st' & -> & H & _ & _ & _ & _ & T).
    cbn [resume]. destruct (inner_test_trace a st' H) as (d & -> & Hd).
    exists (arm_events st' ++ d). rewrite T, <- app_assoc. split; [reflexivity|].
    apply balanced_app; [apply quiet_balanced, arm_events_quiet | exact Hd].
  - destruct (frame_effect tdm_cbg a st t Hinv Hn)
      as (st' & -> & H & _ & _ & _ & _ & T).
    cbn [resume]. destruct (inner_test_trace a st' H) as (d & -> & Hd).
    exists (frame_events st st' ++ d). rewrite T, <- app_assoc. split; [reflexivity|].
    apply balanced_app; [apply quiet_balanced, frame_events_quiet | exact Hd].
  - destruct Hinv as (Ha & Hs & Hp).
    destruct (tdm_isr_effect din st)
      as (st' & -> & _ & _ & _ & _ & _ & _ & _ & _ & _ & _ & T & _);
      [apply Hp | apply Hp |].
    cbn [snd]. exists (isr_events din st). split; [exact T|].
    apply quiet_balanced, isr_events_quiet.
Qed.

Lemma run_trace (a : tdm_slave_loop_args_t) (sched : list stimulus) :
  num_out a <= TDM_MAX_PORTS ->
  forall c : config,
    config_inv a c ->
    exists d, trace (snd (run tdm_cbg sched c)) = trace (snd c) ++ d /\
              balanced (num_out a) d.
Proof.
  intros Hn. induction sched as [|s sched IH]; intros c Hc.
  - exists []. split; [cbn; now rewrite app_nil_r | apply balanced_nil].
  - cbn [run fold_left].
    destruct (react_trace a s c Hn Hc) as (d1 & T1 & B1).
    destruct (IH (react tdm_cbg s c) (react_inv tdm_cbg a s c Hn Hc))
      as (d2 & T2 & B2).
    exists (d1 ++ d2). unfold run in T2. rewrite T2, T1, <- app_assoc.
    split; [reflexivity | apply balanced_app; assumption].
Qed.

(** The trace of a run of [tdm_slave] under the asserted preconditions:
    the three assertions, then a stretch with no assertion and one
    priming call per [init] call when there are output lines. *)
Lemma tdm_slave_run_trace (app : App) (n_out n_in n_chans n_bits : Z)
      (sched : list stimulus) :
  preconditions n_out n_in n_chans = true ->
  exists d,
    trace (snd (run tdm_cbg sched (tdm_slave tdm_cbg app n_out n_in n_chans n_bits))) =
    [Ev_xassert true; Ev_xassert true; Ev_xassert true] ++ d /\
    balanced n_out d.
Proof.
  intros H.
  assert (Ho : n_out <= TDM_MAX_PORTS).
  { unfold preconditions in H. apply andb_prop in H as [_ Ho].
    apply Z.leb_le. exact Ho. }
  destruct (tdm_slave_started tdm_cbg app n_out n_in n_chans n_bits H)
    as (st0 & -> & Hinv & _ & T0).
  set (a := slave_args n_out n_in n_chans n_bits) in *.
  destruct (outer_test_trace a st0 Hinv) as (d1 & T1 & B1).
  destruct (run_trace a sched Ho (outer_test tdm_cbg st0)
              (outer_test_inv tdm_cbg a st0 Hinv)) as (d2 & T2 & B2).
  exists (init_ports_events n_out n_in ++ d1 ++ d2).
  rewrite T2, T1, T0, <- !app_assoc. split; [reflexivity|].
  apply balanced_app;
    [ apply quiet_balanced, init_ports_events_quiet
    | apply balanced_app; assumption ].
Qed.

End Traces.

(** ** The claims about the handler, the preload and the loops *)

Section Claims.

Context {App : Type}.
Variable tdm_cbg : tdm_callback_group_t App.

Lemma stopped_not_waiting (app : App) (n_out n_in n_chans n_bits : Z)
      (sched : list stimulus) :
  preconditions n_out n_in n_chans = false ->
  run tdm_cbg sched (tdm_slave tdm_cbg app n_out n_in n_chans n_bits) =
  tdm_slave tdm_cbg app n_out n_in n_chans n_bits /\
  fst (tdm_slave tdm_cbg app n_out n_in n_chans n_bits) = Trapped.
Proof.
  intros H.
  destruct (tdm_slave_trapped tdm_cbg app n_out n_in n_chans n_bits H) as (Ht & _).
  split; [|exact Ht]. apply run_stopped. left. exact Ht.
Qed.

(** Any configuration in which a run of [tdm_slave] waits for frame sync
    satisfies the engine invariant. *)
Lemma waiting_inv (app : App) (n_out n_in n_chans n_bits : Z)
      (sched : list stimulus) :
  let c := run tdm_cbg sched (tdm_slave tdm_cbg app n_out n_in n_chans n_bits) in
  fst c = WaitFrameSync \/ fst c = WaitInitSync ->
  engine_inv (slave_args n_out n_in n_chans n_bits) (snd c) /\
  n_out <= TDM_MAX_PORTS.
Proof.
  intros c Hc. destruct (preconditions n_out n_in n_chans) eqn:Hp.
  - split; [apply (tdm_slave_run_inv tdm_cbg app n_out n_in n_chans n_bits sched Hp)|].
    unfold preconditions in Hp. apply andb_prop in Hp as [_ Ho].
    apply Z.leb_le. exact Ho.
  - exfalso.
    destruct (stopped_not_waiting app n_out n_in n_chans n_bits sched Hp) as [E Ht].
    subst c. rewrite E, Ht in Hc. destruct Hc; discriminate.
Qed.

(** C4, as amended.  When the handler fires in a run of [tdm_slave], the
    trigger time it programs on the bit-clock port is the previous
    trigger time plus one frame length in unsigned 32-bit arithmetic,
    the frame length being [num_chans * num_data_bits] reduced to 32
    bits; as long as that sum does not wrap around, it is exactly the
    previous time plus [num_chans * num_data_bits] and not below the
    previous time. *)
Theorem isr_next_trigger_time (app : App) (n_out n_in n_chans n_bits : Z)
        (sched : list stimulus) (din : Z -> Z) :
  let c := run tdm_cbg sched (tdm_slave tdm_cbg app n_out n_in n_chans n_bits) in
  let c' := react tdm_cbg (BclkTrigger din) c in
  fst c = WaitFrameSync ->
  fst c' = WaitFrameSync /\
  frame_len (args (snd c)) = mul32 n_chans n_bits /\
  bclk_trigger_time (snd c') =
    add32 (bclk_trigger_time (snd c)) (mul32 n_chans n_bits) /\
  In (Ev_port_set_trigger_time p_bclk
        (add32 (bclk_trigger_time (snd c)) (mul32 n_chans n_bits)))
     (isr_events din (snd c)) /\
  trace (snd c') = trace (snd c) ++ isr_events din (snd c) /\
  (0 <= bclk_trigger_time (snd c) ->
   0 <= n_chans * n_bits ->
   bclk_trigger_time (snd c) + n_chans * n_bits < modulus ->
   bclk_trigger_time (snd c') = bclk_trigger_time (snd c) + n_chans * n_bits /\
   bclk_trigger_time (snd c) <= bclk_trigger_time (snd c')).
Proof.
  intros c c' Hc.
  destruct (waiting_inv app n_out n_in n_chans n_bits sched (or_introl Hc))
    as [(Ha & Hs & Hp) _].
  fold c in Ha, Hs, Hp. subst c'. destruct c as [k st]. cbn [fst snd] in *.
  subst k. cbn [react].
  destruct (tdm_isr_effect din st)
    as (st' & -> & A & _ & _ & _ & _ & _ & _ & _ & _ & B & T & _);
    [apply Hp | apply Hp |].
  cbn [fst snd].
  assert (Hlen : frame_len (args st) = mul32 n_chans n_bits) by apply Ha.
  rewrite B, Hlen.
  split; [reflexivity|]. split; [reflexivity|]. split; [reflexivity|].
  split.
  { unfold isr_events. rewrite Hlen, !in_app_iff. right. right.
    left. reflexivity. }
  split; [exact T|].
  intros H0 H1 H2. unfold add32, mul32, modulus in *.
  rewrite (Z.mod_small (n_chans * n_bits)) by lia.
  rewrite Z.mod_small by lia. lia.
Qed.

(** C5.  If, in a run of [tdm_slave], the engine waits in the running
    loop and [restart_check] answers [TDM_SHUTDOWN] at the next frame,
    then the round for that frame runs to its end (one frame-sync wait,
    the [restart_check] call, one [process] call, one commit, one
    preload), both loops are left, and whatever the environment does
    afterwards the engine stays returned with the same state and trace:
    no further wait, callback, commit or preload. *)
Theorem shutdown_stops_engine (app : App) (n_out n_in n_chans n_bits : Z)
        (sched later : list stimulus) (t : Z) :
  let c := run tdm_cbg sched (tdm_slave tdm_cbg app n_out n_in n_chans n_bits) in
  fst c = WaitFrameSync ->
  snd (restart_check tdm_cbg (app_data (snd c))) = TDM_SHUTDOWN ->
  exists st',
    frame tdm_cbg t (snd c) = Some (tt, st') /\
    restart st' = TDM_SHUTDOWN /\
    inner_test tdm_cbg st' = (Exited, st') /\
    react tdm_cbg (FrameSync t) c = (Exited, st') /\
    trace st' =
      trace (snd c) ++
      [Ev_port_in_when_pinseq p_fsync 1;
       Ev_port_get_trigger_time p_fsync t;
       Ev_restart_check TDM_SHUTDOWN;
       Ev_process PerFrame (safe_in_buffer (snd c)) (safe_out_buffer (snd c));
       Ev_commit_buffers] ++
      preload_events st' /\
    run tdm_cbg (FrameSync t :: later) c = (Exited, st').
Proof.
  intros c Hc Hr.
  destruct (waiting_inv app n_out n_in n_chans n_bits sched (or_introl Hc))
    as [Hinv Ho].
  fold c in Hinv. destruct c as [k st]. cbn [fst snd] in *. subst k.
  destruct (frame_effect tdm_cbg _ st t Hinv Ho)
    as (st' & E & _ & R & F & _ & _ & T).
  rewrite Hr in R.
  assert (Hin : inner_test tdm_cbg st' = (Exited, st')).
  { unfold inner_test, outer_test. rewrite R. reflexivity. }
  assert (Hre : react tdm_cbg (FrameSync t) (WaitFrameSync, st) = (Exited, st')).
  { cbn [react]. rewrite E. cbn [resume]. exact Hin. }
  exists st'. split; [exact E|]. split; [exact R|]. split; [exact Hin|].
  split; [exact Hre|]. split.
  - rewrite T. unfold frame_events. rewrite R, F. reflexivity.
  - cbn [run fold_left]. rewrite Hre. apply (run_stopped tdm_cbg later).
    right. left. reflexivity.
Qed.

Lemma xassert_only_counts (tr : list event) :
  forallb is_xassert tr = true ->
  count is_init tr = O /\ count is_priming tr = O.
Proof.
  unfold count. induction tr as [|e tr IH]; [intros _; split; reflexivity|].
  cbn [forallb filter]. intros H. apply andb_prop in H as [He Ht].
  destruct (IH Ht) as [H1 H2]. destruct e; try discriminate He.
  cbn [is_init is_priming]. split; assumption.
Qed.

(** C6, as amended.  In every run of [tdm_slave], the priming call of
    [process] is made once on every entry to the outer-loop body (once
    per [init] call, the first entry and each entry after a restart
    alike) when the number of output lines is greater than zero, and
    never when it is zero. *)
Theorem priming_on_every_init (app : App) (n_out n_in n_chans n_bits : Z)
        (sched : list stimulus) :
  let tr := trace (snd (run tdm_cbg sched
                          (tdm_slave tdm_cbg app n_out n_in n_chans n_bits))) in
  count is_priming tr = if 0 <? n_out then count is_init tr else O.
Proof.
  intros tr. subst tr. destruct (preconditions n_out n_in n_chans) eqn:Hp.
  - destruct (tdm_slave_run_trace tdm_cbg app n_out n_in n_chans n_bits sched Hp)
      as (d & -> & [_ B]).
    rewrite !count_app. cbn [count filter is_priming is_init length Nat.add].
    exact B.
  - destruct (stopped_not_waiting app n_out n_in n_chans n_bits sched Hp) as [-> _].
    destruct (tdm_slave_trapped tdm_cbg app n_out n_in n_chans n_bits Hp)
      as (_ & Hx & _).
    destruct (xassert_only_counts _ Hx) as [-> ->].
    now destruct (0 <? n_out).
Qed.

Lemma outer_test_offset (a : tdm_slave_loop_args_t) (st : machine App) :
  engine_inv a st -> offset_in_force st ->
  offset_in_force (snd (outer_test tdm_cbg st)).
Proof.
  intros Hinv H. unfold outer_test.
  destruct (init_until_frame_sync_effect tdm_cbg a st Hinv)
    as (st' & -> & _ & _ & _ & (O & C) & _).
  destruct (restart st); cbn [snd]; try exact H;
    unfold offset_in_force; rewrite O, C; reflexivity.
Qed.

Lemma inner_test_offset (a : tdm_slave_loop_args_t) (st : machine App) :
  engine_inv a st -> offset_in_force st ->
  offset_in_force (snd (inner_test tdm_cbg st)).
Proof.
  intros Hinv H. unfold inner_test.
  destruct (restart st); [exact H | |]; apply (outer_test_offset a); assumption.
Qed.

Lemma react_offset (a : tdm_slave_loop_args_t) (s : stimulus) (c : config) :
  num_out a <= TDM_MAX_PORTS ->
  config_inv a c -> offset_in_force (snd c) ->
  offset_in_force (snd (react tdm_cbg s c)).
Proof.
  intros Hn [Hl Hinv] H. destruct c as [k st]. cbn [fst snd] in *.
  destruct s as [t | din]; destruct k; cbn [react snd]; try exact H.
  - destruct (init_from_frame_sync_effect a st t Hinv Hn)
      as (st' & -> & H' & _ & _ & (O & C) & _).
    cbn [resume]. apply (inner_test_offset a); [exact H'|].
    unfold offset_in_force. rewrite O, C. exact H.
  - destruct (frame_effect tdm_cbg a st t Hinv Hn)
      as (st' & -> & H' & _ & _ & (O & C) & _).
    cbn [resume]. apply (inner_test_offset a); [exact H'|].
    unfold offset_in_force. rewrite O, C. exact H.
  - destruct Hinv as (Ha & Hs & Hp).
    destruct (tdm_isr_effect din st) as (st' & -> & A & C & _);
      [apply Hp | apply Hp |].
    cbn [snd]. unfold offset_in_force. rewrite A, C. exact H.
Qed.

Lemma run_offset (a : tdm_slave_loop_args_t) (sched : list stimulus) :
  num_out a <= TDM_MAX_PORTS ->
  forall c : config,
    config_inv a c -> offset_in_force (snd c) ->
    offset_in_force (snd (run tdm_cbg sched c)).
Proof.
  intros Hn. induction sched as [|s sched IH]; intros c Hc H; [exact H|].
  cbn [run fold_left]. apply IH.
  - apply react_inv; assumption.
  - apply (react_offset a); assumption.
Qed.

(** In every state of a run of [tdm_slave] that waits for frame sync,
    the offset used by the loops is the configured one. *)
Lemma waiting_offset (app : App) (n_out n_in n_chans n_bits : Z)
      (sched : list stimulus) :
  let c := run tdm_cbg sched (tdm_slave tdm_cbg app n_out n_in n_chans n_bits) in
  fst c = WaitFrameSync \/ fst c = WaitInitSync ->
  offset_in_force (snd c).
Proof.
  intros c Hc. destruct (preconditions n_out n_in n_chans) eqn:Hp.
  - subst c.
    destruct (tdm_slave_started tdm_cbg app n_out n_in n_chans n_bits Hp)
      as (st0 & -> & Hinv & (_ & Hoff) & _).
    assert (Ho : n_out <= TDM_MAX_PORTS).
    { unfold preconditions in Hp. apply andb_prop in Hp as [_ Ho].
      apply Z.leb_le. exact Ho. }
    set (a := slave_args n_out n_in n_chans n_bits) in *.
    apply (run_offset a sched Ho).
    + apply outer_test_inv. exact Hinv.
    + apply (outer_test_offset a); assumption.
  - exfalso.
    destruct (stopped_not_waiting app n_out n_in n_chans n_bits sched Hp) as [E Ht].
    subst c. rewrite E, Ht in Hc. destruct Hc; discriminate.
Qed.

(** C7, as amended.  When the handler is first armed after the blocking
    wait for a frame-sync edge at port time [t], the trigger time
    programmed on the bit-clock port is [t] plus the frame length plus
    the configured offset plus [TDM_PORT_BUFFER_BITS] (32), in unsigned
    32-bit arithmetic; when that sum does not wrap around it is exactly
    [t + frame_len + offset + 32]. *)
Theorem first_trigger_time_armed (app : App) (n_out n_in n_chans n_bits : Z)
        (sched : list stimulus) (t : Z) :
  let c := run tdm_cbg sched (tdm_slave tdm_cbg app n_out n_in n_chans n_bits) in
  let armed :=
    add32 (add32 (add32 t (frame_len (args (snd c))))
                 (num_bclk_cycles_offset (args (snd c))))
          TDM_PORT_BUFFER_BITS in
  fst c = WaitInitSync ->
  exists st',
    init_from_frame_sync t (snd c) = Some (tt, st') /\
    frame_len (args (snd c)) = mul32 n_chans n_bits /\
    num_bclk_cycles_offset (args (snd c)) = offset (tdm_config (snd c)) /\
    bclk_trigger_time st' = armed /\
    trace st' = trace (snd c) ++ arm_events st' /\
    In (Ev_port_set_trigger_time p_bclk armed) (arm_events st') /\
    (0 <= t -> 0 <= frame_len (args (snd c)) ->
     0 <= num_bclk_cycles_offset (args (snd c)) ->
     t + frame_len (args (snd c)) + num_bclk_cycles_offset (args (snd c))
       + TDM_PORT_BUFFER_BITS < modulus ->
     armed = t + frame_len (args (snd c)) + num_bclk_cycles_offset (args (snd c))
               + TDM_PORT_BUFFER_BITS).
Proof.
  intros c armed Hc.
  destruct (waiting_inv app n_out n_in n_chans n_bits sched (or_intror Hc))
    as [Hinv Ho].
  pose proof (waiting_offset app n_out n_in n_chans n_bits sched (or_intror Hc))
    as Hoff.
  fold c in Hinv, Hoff. subst armed. destruct c as [k st]. cbn [fst snd] in *. subst k.
  pose proof Hinv as (Ha & _).
  destruct (init_from_frame_sync_effect _ st t Hinv Ho)
    as (st' & E & (Ha' & _) & _ & F & (O & _) & B & T).
  assert (Hlen : frame_len (args st') = frame_len (args st)).
  { destruct Ha as (_ & _ & _ & _ & ->). apply Ha'. }
  assert (Hft : first_trigger_time st' =
                add32 (add32 (add32 t (frame_len (args st)))
                             (num_bclk_cycles_offset (args st)))
                      TDM_PORT_BUFFER_BITS).
  { unfold first_trigger_time. rewrite F, O, Hlen. reflexivity. }
  exists st'. split; [exact E|]. split; [apply Ha|]. split; [exact Hoff|].
  split; [rewrite B; exact Hft|].
  split; [exact T|]. split.
  - rewrite <- Hft. unfold arm_events. rewrite in_app_iff. left.
    do 3 right. left. reflexivity.
  - intros H0 H1 H2 H3. unfold add32, TDM_PORT_BUFFER_BITS, modulus in *.
    rewrite (Z.mod_small (t + frame_len (args st))) by lia.
    rewrite (Z.mod_small (t + frame_len (args st) + _)) by lia.
    rewrite Z.mod_small by lia. reflexivity.
Qed.

Lemma preload_time_shift (st : machine App) (n : Z) :
  preload_time (with_offset n st) = add32 (preload_time (with_offset 0 st)) n.
Proof.
  unfold preload_time, with_offset.
  cbn [args set_args set_tdm_config tdm_interrupt_data num_bclk_cycles_offset
       frame_len set_num_bclk_cycles_offset].
  unfold add32. rewrite Z.add_0_r, Z.mod_mod by (unfold modulus; lia).
  reflexivity.
Qed.

Lemma preload_events_shift (st : machine App) (n : Z) :
  preload_events (with_offset n st) =
  map (shift_time n) (preload_events (with_offset 0 st)).
Proof.
  unfold preload_events. rewrite map_map. apply map_ext. intros l.
  unfold preload_event. cbn [shift_time]. rewrite <- preload_time_shift.
  reflexivity.
Qed.

(** [preload_data] on two machines that differ only in the configured
    offset, [n] in one and 0 in the other: the same port outputs, one per
    output line, on the same ports and with the same words, [n] cycles
    later on the wrapping port clock. *)
Lemma preload_offset_shift (st : machine App) (n : Z) :
  buffer_index_ok (ptr_index (working_out_buffer (tdm_interrupt_data st))) = true ->
  num_out (args st) <= TDM_MAX_PORTS ->
  let st0 := with_offset 0 st in
  let stn := with_offset n st in
  preload_data st0 = Some (tt, set_trace (trace st ++ preload_events st0) st0) /\
  preload_data stn =
    Some (tt, set_trace (trace st ++ map (shift_time n) (preload_events st0)) stn) /\
  preload_time stn = add32 (preload_time st0) n /\
  preload_time st0 =
    add32 (fsync_time (tdm_interrupt_data st)) (frame_len (args st)) /\
  (0 <= n -> preload_time st0 + n < modulus ->
   preload_time stn = preload_time st0 + n).
Proof.
  intros Hw Hn st0 stn. subst st0 stn.
  split; [apply (preload_data_spec (with_offset 0 st)); assumption|].
  split.
  { rewrite <- preload_events_shift.
    apply (preload_data_spec (with_offset n st)); assumption. }
  split; [apply preload_time_shift|].
  assert (H0 : preload_time (with_offset 0 st) =
               add32 (fsync_time (tdm_interrupt_data st)) (frame_len (args st))).
  { unfold preload_time, with_offset.
    cbn [args set_args set_tdm_config tdm_interrupt_data num_bclk_cycles_offset
         frame_len set_num_bclk_cycles_offset].
    unfold add32. rewrite Z.add_0_r, Z.mod_mod by (unfold modulus; lia).
    reflexivity. }
  split; [exact H0|].
  intros Hn0 Hlt. rewrite preload_time_shift.
  unfold add32 at 1. apply Z.mod_small.
  assert (0 <= preload_time (with_offset 0 st)).
  { rewrite H0. unfold add32. apply Z.mod_pos_bound. unfold modulus. lia. }
  lia.
Qed.

(** C9.  [tdm_slave] evaluates its three assertions first, each once.
    If one fails the engine is stopped there: no port is initialised, no
    callback is made, and no stimulus changes that.  If they hold, the
    trace of any run starts with the three assertions and holds no other,
    and the run never indexes a sample buffer out of its LINES x CHANNELS
    bounds: the engine is never lost to an out-of-bounds access, whether
    the access is made by the loops or by the handler. *)
Theorem preconditions_checked_once (app : App) (n_out n_in n_chans n_bits : Z)
        (sched : list stimulus) :
  let start := tdm_slave tdm_cbg app n_out n_in n_chans n_bits in
  let c := run tdm_cbg sched start in
  if preconditions n_out n_in n_chans
  then
    live (fst c) /\
    engine_inv (slave_args n_out n_in n_chans n_bits) (snd c) /\
    firstn 3 (trace (snd c)) = [Ev_xassert true; Ev_xassert true; Ev_xassert true] /\
    count is_xassert (trace (snd c)) = 3%nat
  else
    c = start /\
    fst c = Trapped /\
    forallb is_xassert (trace (snd c)) = true /\
    In (Ev_xassert false) (trace (snd c)).
Proof.
  intros start c. destruct (preconditions n_out n_in n_chans) eqn:Hp.
  - destruct (tdm_slave_run_inv tdm_cbg app n_out n_in n_chans n_bits sched Hp)
      as [Hl Hinv].
    destruct (tdm_slave_run_trace tdm_cbg app n_out n_in n_chans n_bits sched Hp)
      as (d & T & [X _]).
    fold start in T. fold c in T. rewrite T.
    split; [exact Hl|]. split; [exact Hinv|]. split; [reflexivity|].
    rewrite count_app, X. reflexivity.
  - destruct (stopped_not_waiting app n_out n_in n_chans n_bits sched Hp) as [E Ht].
    fold start in E, Ht. fold c in E. rewrite E.
    split; [reflexivity|]. split; [exact Ht|].
    apply (tdm_slave_trapped tdm_cbg app n_out n_in n_chans n_bits Hp).
Qed.

Lemma zrange_length (i : Z) (n : nat) : length (zrange i n) = n.
Proof. revert i. induction n as [|n IH]; intros i; cbn; [|rewrite IH]; reflexivity. Qed.

(** C10.  In a machine whose pointers are in range and whose output line
    count is within the asserted bound (as in every state of a run):
    [preload_data] makes exactly one port output per output line, its
    word packed from channels 0 and 1 of that line of the working output
    buffer, and changes no sample; [tdm_isr] reads a port on input line 0
    only, leaves the output buffers alone, and changes no sample of the
    input buffers other than channels 0 and 1 of line 0 of the working
    input buffer; [commit_buffers] changes no sample.  None of this
    depends on [num_chans]. *)
Theorem transport_moves_two_channels (st : machine App) (din : Z -> Z) :
  pointers_ok st ->
  num_out (args st) <= TDM_MAX_PORTS ->
  let out := buffer_of st (working_out_buffer (tdm_interrupt_data st)) in
  let words :=
    map (fun l => Ev_port_out_at_time (p_dout l) (preload_time st)
                    (pack16 (out l 0) (out l 1)))
        (zrange 0 (Z.to_nat (num_out (args st)))) in
  (preload_data st = Some (tt, set_trace (trace st ++ words) st) /\
   length words = Z.to_nat (num_out (args st))) /\
  (exists st',
      tdm_isr din st = Some (tt, st') /\
      out_s st' = out_s st /\
      (forall i l c,
          i <> ptr_index (working_in_buffer (tdm_interrupt_data st)) \/
          l <> 0 \/ (c <> 0 /\ c <> 1) ->
          in_s st' i l c = in_s st i l c) /\
      trace st' = trace st ++ isr_events din st /\
      (forall p w, In (Ev_port_in p w) (isr_events din st) -> p = p_din 0)) /\
  (exists st',
      commit_buffers In_s Out_s st = Some (tt, st') /\
      in_s st' = in_s st /\ out_s st' = out_s st).
Proof.
  intros Hp Hn out words. split; [|split].
  - split.
    + apply preload_data_spec; [apply Hp | exact Hn].
    + unfold words. rewrite length_map. apply zrange_length.
  - destruct (tdm_isr_effect din st)
      as (st' & E & _ & _ & O & _ & _ & _ & _ & _ & _ & _ & T & S);
      [apply Hp | apply Hp |].
    exists st'. split; [exact E|]. split; [exact O|]. split; [|split; [exact T|]].
    + intros i l c H. rewrite S. unfold isr_sample.
      destruct (0 <? num_in (args st)); [|reflexivity]. cbn [andb].
      destruct H as [H | [H | [H0 H1]]].
      * apply Z.eqb_neq in H. rewrite H. reflexivity.
      * apply Z.eqb_neq in H. rewrite H, andb_false_r. reflexivity.
      * apply Z.eqb_neq in H0, H1. rewrite H0, H1, andb_false_r. reflexivity.
    + intros p w H. unfold isr_events in H.
      destruct (0 <? num_in (args st)); cbn in H;
        repeat (destruct H as [H | H]; try discriminate H; try contradiction);
        now injection H as <- _.
  - eexists. split; [reflexivity|]. split; reflexivity.
Qed.

End Claims.

(** ** Two runs that differ in the configured offset *)

Section OffsetShift.

Context {App : Type}.

(** The callbacks of the run configured with offset 0 and of the run
    configured with offset [n]: the same [restart_check] and [process],
    and [init] callbacks that give the same configuration but for the
    offset, whatever offset they find in the record they are handed. *)
Variables cbg0 cbgn : tdm_callback_group_t App.
Variable n : Z.

Hypothesis same_restart_check : restart_check cbgn = restart_check cbg0.
Hypothesis same_process : process cbgn = process cbg0.
Hypothesis init_offset_0 :
  forall app cfg, offset (snd (init cbg0 app cfg)) = 0.
Hypothesis init_offset_n :
  forall app cfg m,
    init cbgn app (set_offset m cfg) =
    (fst (init cbg0 app cfg), set_offset n (snd (init cbg0 app cfg))).

Lemma add32_assoc3 (x y z : Z) : add32 (add32 x y) z = (x + y + z) mod modulus.
Proof. unfold add32. now rewrite Zplus_mod_idemp_l. Qed.

Lemma add32_swap (x y z : Z) : add32 (add32 x y) z = add32 (add32 x z) y.
Proof. rewrite !add32_assoc3. f_equal. lia. Qed.

Lemma add32_zero_then (x z : Z) : add32 (add32 x 0) z = add32 x z.
Proof. rewrite add32_assoc3. unfold add32. f_equal. lia. Qed.

Lemma shifts_ret {A : Type} (f : bool) (RA : A -> A -> Prop) (a a' : A) :
  RA a a' -> shifts f f 0 n RA (ret a) (ret (App := App) a').
Proof.
  intros H s x s' Hz E. injection E as <- <-. exists a'. auto.
Qed.

Lemma shifts_bind {A B : Type} (f f1 f2 : bool)
      (RA : A -> A -> Prop) (RB : B -> B -> Prop)
      (c c' : M App A) (k k' : A -> M App B) :
  shifts f f1 0 n RA c c' ->
  (forall a a', RA a a' -> shifts f1 f2 0 n RB (k a) (k' a')) ->
  shifts f f2 0 n RB (bind c k) (bind c' k').
Proof.
  intros Hc Hk s x s' Hz E. unfold bind in *.
  destruct (c s) as [[a s1]|] eqn:E1; [|discriminate E].
  destruct (Hc s a s1 Hz E1) as (a' & -> & Ha & Hz1).
  exact (Hk a a' Ha s1 x s' Hz1 E).
Qed.

Lemma shifts_log (f : bool) (e : event) :
  shifts f f 0 n eq (log e) (log (App := App) (shift_time n e)).
Proof.
  intros s a s' Hz E. injection E as <- <-. exists tt.
  split; [|split; [reflexivity | exact Hz]].
  unfold log, modify, later. cbn [trace set_trace set_bclk_trigger_time with_offset
    set_tdm_config set_args]. rewrite map_app. reflexivity.
Qed.

Lemma shifts_log_same (f : bool) (e : event) :
  shift_time n e = e -> shifts f f 0 n eq (log e) (log (App := App) e).
Proof. intros H. rewrite <- H at 2. apply shifts_log. Qed.

Lemma shifts_gets {A : Type} (f : bool) (RA : A -> A -> Prop)
      (g : machine App -> A) :
  (forall s, offset_zero s -> RA (g s) (g (later f 0 n s))) ->
  shifts f f 0 n RA (gets g) (gets g).
Proof.
  intros H s a s' Hz E. injection E as <- <-. exists (g (later f 0 n s)).
  split; [reflexivity|]. split; [apply H; exact Hz | exact Hz].
Qed.

Lemma shifts_modify (f : bool) (g : machine App -> machine App) :
  (forall s, g (later f 0 n s) = later f 0 n (g s)) ->
  (forall s, offset_zero s -> offset_zero (g s)) ->
  shifts f f 0 n eq (modify g) (modify g).
Proof.
  intros H1 H2 s a s' Hz E. injection E as <- <-. exists tt.
  unfold modify. rewrite H1. auto.
Qed.

Lemma shifts_load_buffer (f : bool) (p : buffer_ptr) :
  shifts f f 0 n eq (load_buffer (App := App) p) (load_buffer p).
Proof.
  intros s a s' Hz E. unfold load_buffer in *.
  destruct (buffer_index_ok (ptr_index p)); [|discriminate E].
  injection E as <- <-. eexists. split; [reflexivity|].
  split; [|exact Hz]. destruct (ptr_base p); reflexivity.
Qed.

Lemma shifts_store_buffer (f : bool) (p : buffer_ptr) (buf : tdm_sample_buffer_t) :
  shifts f f 0 n eq (store_buffer (App := App) p buf) (store_buffer p buf).
Proof.
  intros s a s' Hz E. unfold store_buffer in *.
  destruct (buffer_index_ok (ptr_index p)); [|discriminate E].
  injection E as <- <-. exists tt.
  split; [|split; [reflexivity|]]; destruct (ptr_base p); try reflexivity; exact Hz.
Qed.

Lemma shifts_undefined {A : Type} (f : bool) (RA : A -> A -> Prop) :
  shifts f f 0 n RA (undefined (App := App)) undefined.
Proof. intros s a s' _ E. discriminate E. Qed.

Lemma shifts_load_sample (f : bool) (p : buffer_ptr) (l c : Z) :
  shifts f f 0 n eq (load_sample (App := App) p l c) (load_sample p l c).
Proof.
  unfold load_sample. apply (shifts_bind f f f eq); [apply shifts_load_buffer|].
  intros buf buf' <-. destruct (sample_get buf l c);
    [apply shifts_ret; reflexivity | apply shifts_undefined].
Qed.

Lemma shifts_store_sample (f : bool) (p : buffer_ptr) (l c v : Z) :
  shifts f f 0 n eq (store_sample (App := App) p l c v) (store_sample p l c v).
Proof.
  unfold store_sample. apply (shifts_bind f f f eq); [apply shifts_load_buffer|].
  intros buf buf' <-. destruct (sample_set buf l c v);
    [apply shifts_store_buffer | apply shifts_undefined].
Qed.

Lemma shifts_for_loop (f : bool) (body body' : Z -> M App loop_ctl) (k : nat) :
  (forall i, shifts f f 0 n eq (body i) (body' i)) ->
  forall i, shifts f f 0 n eq (for_loop k i body) (for_loop k i body').
Proof.
  intros H. induction k as [|k IH]; intros i; cbn [for_loop].
  - apply shifts_ret. reflexivity.
  - apply (shifts_bind f f f eq); [apply H|].
    intros c c' <-. destruct c; [apply IH | apply shifts_ret; reflexivity].
Qed.

Ltac shift_prim :=
  first
    [ apply shifts_log_same; reflexivity
    | apply shifts_load_buffer
    | apply shifts_store_buffer
    | apply shifts_load_sample
    | apply shifts_store_sample
    | apply (shifts_gets _ eq); intros; reflexivity
    | apply shifts_modify; [intros; reflexivity | intros ? H; exact H]
    | apply shifts_ret; reflexivity ].

Ltac shift_next f :=
  apply (shifts_bind f f f eq); [shift_prim | intros ? ? <-].

Ltac shift_seq f := repeat (shift_next f); try shift_prim.

Lemma shifts_hold_for_frame_sync (f : bool) (t : Z) :
  shifts f f 0 n eq (hold_for_frame_sync (App := App) t) (hold_for_frame_sync t).
Proof. unfold hold_for_frame_sync. shift_seq f. Qed.

Lemma shifts_call_restart_check (f : bool) :
  shifts f f 0 n eq (call_restart_check cbg0) (call_restart_check cbgn).
Proof.
  unfold call_restart_check. rewrite same_restart_check.
  apply (shifts_bind f f f eq); [shift_prim | intros app ? <-].
  destruct (restart_check cbg0 app) as [app' r]. shift_seq f.
Qed.

Lemma shifts_call_process (f : bool) (site : process_site) :
  shifts f f 0 n eq (call_process cbg0 site) (call_process cbgn site).
Proof.
  unfold call_process. rewrite same_process.
  apply (shifts_bind f f f (fun a a' =>
           num_out a' = num_out a /\ num_in a' = num_in a /\
           num_chans a' = num_chans a /\ num_data_bits a' = num_data_bits a)).
  { apply shifts_gets. intros; repeat split. }
  intros a a' (-> & -> & -> & ->).
  do 6 (shift_next f).
  destruct (process cbg0 _ _ _ _ _ _ _) as [app' [rx' tx']]. shift_seq f.
Qed.

Lemma shifts_commit_buffers (f : bool) (i o : double_buffer_id) :
  shifts f f 0 n eq (commit_buffers (App := App) i o) (commit_buffers i o).
Proof. unfold commit_buffers. shift_seq f. Qed.

(** Setting a trigger time [n] cycles later; on the bit-clock port this
    arms the handler. *)
Lemma shifts_port_set_trigger_time (f : bool) (p : port_t) (t : Z) :
  shifts f (match p with p_bclk => true | _ => f end) 0 n eq
         (port_set_trigger_time (App := App) p t)
         (port_set_trigger_time p (add32 t n)).
Proof.
  unfold port_set_trigger_time.
  apply (shifts_bind f f _ eq); [apply shifts_log|]. intros _ _ _.
  destruct p; try (apply shifts_ret; reflexivity).
  intros s a s' Hz E. injection E as <- <-. exists tt.
  split; [reflexivity|]. split; [reflexivity | exact Hz].
Qed.

Lemma first_trigger_time_later (f : bool) (s : machine App) :
  offset_zero s ->
  first_trigger_time (later f 0 n s) = add32 (first_trigger_time s) n.
Proof.
  unfold offset_zero, first_trigger_time, later, with_offset. intros Hz.
  cbn [args set_trace set_bclk_trigger_time set_tdm_config set_args
       tdm_interrupt_data num_bclk_cycles_offset frame_len
       set_num_bclk_cycles_offset].
  rewrite Hz. rewrite add32_zero_then. apply add32_swap.
Qed.

Lemma preload_time_later (f : bool) (s : machine App) :
  offset_zero s ->
  preload_time (later f 0 n s) = add32 (preload_time s) n.
Proof.
  unfold offset_zero, preload_time, later, with_offset. intros Hz.
  cbn [args set_trace set_bclk_trigger_time set_tdm_config set_args
       tdm_interrupt_data num_bclk_cycles_offset frame_len
       set_num_bclk_cycles_offset].
  rewrite Hz. now rewrite add32_zero_then.
Qed.

Lemma shifts_clear_input_line (f : bool) (l : Z) :
  shifts f f 0 n eq (clear_input_line (App := App) l) (clear_input_line l).
Proof.
  unfold clear_input_line.
  apply (shifts_bind f f f eq); [shift_prim | intros _ _ _].
  apply (shifts_bind f f f (fun t t' => t' = add32 t n)).
  { apply shifts_gets. intros s Hz. apply first_trigger_time_later. exact Hz. }
  intros t t' ->.
  apply (shifts_bind f f f eq);
    [apply (shifts_port_set_trigger_time f (p_din l)) | intros _ _ _].
  shift_prim.
Qed.

Lemma shifts_clear_output_line (f : bool) (l : Z) :
  shifts f f 0 n eq (clear_output_line (App := App) l) (clear_output_line l).
Proof. unfold clear_output_line. shift_seq f. Qed.

Lemma shifts_preload_data_line (f : bool) (l : Z) :
  shifts f f 0 n eq (preload_data_line (App := App) l) (preload_data_line l).
Proof.
  unfold preload_data_line.
  do 3 (shift_next f).
  destruct (OUT16 _ _) as [tmp out].
  apply (shifts_bind f f f eq); [shift_prim | intros fsync ? <-].
  apply (shifts_bind f f f eq); [shift_prim | intros len ? <-].
  apply (shifts_bind f f f (fun o o' => o = 0 /\ o' = n)).
  { apply shifts_gets. intros s Hz. split; [exact Hz | reflexivity]. }
  intros o o' [-> ->].
  apply (shifts_bind f f f eq); [|intros _ _ _; shift_prim].
  unfold port_out_at_time.
  replace (Ev_port_out_at_time (p_dout l) (add32 (add32 fsync len) n) out)
    with (shift_time n (Ev_port_out_at_time (p_dout l) (add32 (add32 fsync len) 0) out))
    by (cbn [shift_time]; now rewrite add32_zero_then).
  apply shifts_log.
Qed.

Lemma shifts_preload_data (f : bool) :
  shifts f f 0 n eq (preload_data (App := App)) preload_data.
Proof.
  unfold preload_data. shift_next f.
  apply shifts_for_loop. apply shifts_preload_data_line.
Qed.

(** Arming: whatever the bit-clock port held before, after the first part
    of the outer-loop body the two runs differ by the shift alone. *)
Lemma shifts_init_from_frame_sync (f : bool) (t : Z) :
  shifts f true 0 n eq (init_from_frame_sync (App := App) t) (init_from_frame_sync t).
Proof.
  unfold init_from_frame_sync.
  apply (shifts_bind f f true eq);
    [apply shifts_hold_for_frame_sync | intros fsync ? <-].
  do 2 (apply (shifts_bind f f true eq); [shift_prim | intros ? ? <-]).
  apply (shifts_bind f f true (fun t t' => t' = add32 t n)).
  { apply shifts_gets. intros s Hz. apply first_trigger_time_later. exact Hz. }
  intros trig trig' ->.
  apply (shifts_bind f true true eq);
    [apply (shifts_port_set_trigger_time f p_bclk) | intros _ _ _].
  do 3 (shift_next true).
  apply (shifts_bind true true true eq);
    [apply shifts_for_loop; apply shifts_clear_input_line | intros _ _ _].
  shift_next true.
  apply (shifts_bind true true true eq);
    [apply shifts_for_loop; apply shifts_clear_output_line | intros _ _ _].
  apply shifts_preload_data.
Qed.

Lemma shifts_frame (f : bool) (t : Z) :
  shifts f f 0 n eq (frame cbg0 t) (frame cbgn t).
Proof.
  unfold frame.
  apply (shifts_bind f f f eq);
    [apply shifts_hold_for_frame_sync | intros fsync ? <-].
  shift_next f.
  apply (shifts_bind f f f eq); [apply shifts_call_restart_check | intros r ? <-].
  shift_next f.
  apply (shifts_bind f f f eq); [apply shifts_call_process | intros ? ? <-].
  apply (shifts_bind f f f eq); [apply shifts_commit_buffers | intros ? ? <-].
  apply shifts_preload_data.
Qed.

Lemma shifts_port_get_trigger_time_bclk :
  shifts true true 0 n (fun t t' => t' = add32 t n)
         (port_get_trigger_time_bclk (App := App)) port_get_trigger_time_bclk.
Proof.
  unfold port_get_trigger_time_bclk.
  apply (shifts_bind true true true (fun t t' => t' = add32 t n)).
  { apply shifts_gets. intros s _. reflexivity. }
  intros t t' ->.
  apply (shifts_bind true true true eq); [apply shifts_log | intros _ _ _].
  apply shifts_ret. reflexivity.
Qed.

Lemma shifts_tdm_isr_line (f : bool) (din : Z -> Z) (l : Z) :
  shifts f f 0 n eq (tdm_isr_line (App := App) din l) (tdm_isr_line din l).
Proof.
  unfold tdm_isr_line, port_in.
  apply (shifts_bind f f f eq).
  { shift_next f. shift_prim. }
  intros d1 ? <-. destruct (IN16 0 d1) as [d0 d1']. shift_seq f.
Qed.

Lemma shifts_tdm_isr (din : Z -> Z) :
  shifts true true 0 n eq (tdm_isr (App := App) din) (tdm_isr din).
Proof.
  unfold tdm_isr.
  shift_next true.
  apply (shifts_bind true true true (fun t t' => t' = add32 t n));
    [apply shifts_port_get_trigger_time_bclk | intros now now' ->].
  do 2 (shift_next true).
  apply (shifts_bind true true true eq);
    [apply shifts_for_loop; apply shifts_tdm_isr_line | intros _ _ _].
  apply (shifts_bind true true true eq); [shift_prim | intros len ? <-].
  rewrite (add32_swap now n len).
  apply (shifts_bind true true true eq);
    [apply (shifts_port_set_trigger_time true p_bclk) | intros _ _ _].
  shift_prim.
Qed.

Lemma shifts_init_tail (f : bool) (x xn : machine App) (s' : machine App) :
  offset_zero x ->
  xn = later f 0 n x ->
  match
    (if 0 <? num_out (args x)
     then call_process cbg0 Priming
     else fun st : machine App => Some (tt, st)) x
  with
  | Some (_, st'0) =>
      match commit_buffers In_s Out_s st'0 with
      | Some (_, st'1) =>
          Some (tt,
                set_trace
                  ((trace st'1 ++ [Ev_port_clear_buffer p_fsync]) ++ [Ev_clock_start])
                  (set_trace (trace st'1 ++ [Ev_port_clear_buffer p_fsync]) st'1))
      | None => None
      end
  | None => None
  end = Some (tt, s') ->
  match
    (if 0 <? num_out (args xn)
     then call_process cbgn Priming
     else fun st : machine App => Some (tt, st)) xn
  with
  | Some (_, st'0) =>
      match commit_buffers In_s Out_s st'0 with
      | Some (_, st'1) =>
          Some (tt,
                set_trace
                  ((trace st'1 ++ [Ev_port_clear_buffer p_fsync]) ++ [Ev_clock_start])
                  (set_trace (trace st'1 ++ [Ev_port_clear_buffer p_fsync]) st'1))
      | None => None
      end
  | None => None
  end = Some (tt, later f 0 n s') /\
  offset_zero s'.
Proof.
  intros Hz -> E.
  change (num_out (args (later f 0 n x))) with (num_out (args x)).
  assert (H1 : exists x1,
             (if 0 <? num_out (args x)
              then call_process cbg0 Priming
              else fun st : machine App => Some (tt, st)) x = Some (tt, x1) /\
             (if 0 <? num_out (args x)
              then call_process cbgn Priming
              else fun st : machine App => Some (tt, st)) (later f 0 n x)
             = Some (tt, later f 0 n x1) /\
             offset_zero x1).
  { destruct (0 <? num_out (args x)).
    - destruct (call_process cbg0 Priming x) as [[[] x1]|] eqn:E1; [|discriminate E].
      destruct (shifts_call_process f Priming x tt x1 Hz E1) as ([] & E1n & _ & Hz1).
      exists x1. auto.
    - exists x. auto. }
  destruct H1 as (x1 & E1 & E1n & Hz1). rewrite E1 in E. rewrite E1n.
  destruct (commit_buffers In_s Out_s x1) as [[[] x2]|] eqn:E2; [|discriminate E].
  destruct (shifts_commit_buffers f In_s Out_s x1 tt x2 Hz1 E2) as ([] & -> & _ & Hz2).
  injection E as <-. split; [|exact Hz2].
  unfold later. cbn [trace set_trace set_bclk_trigger_time with_offset
    set_tdm_config set_args]. rewrite !map_app. reflexivity.
Qed.

Lemma shifts_init_until_frame_sync (f : bool) (m : Z) (s s' : machine App) :
  init_until_frame_sync cbg0 s = Some (tt, s') ->
  init_until_frame_sync cbgn (with_offset m (later f 0 n s)) =
    Some (tt, later f 0 n s') /\
  offset_zero s'.
Proof.
  intros E.
  unfold init_until_frame_sync, call_init, log, bind, gets, modify, ret in *.
  cbn [set_trace args trace app_data tdm_config with_offset later set_tdm_config
       set_args set_bclk_trigger_time] in *.
  pose proof (init_offset_n (app_data s) (tdm_config s) m) as Hi.
  pose proof (init_offset_0 (app_data s) (tdm_config s)) as H0.
  destruct (init cbg0 (app_data s) (tdm_config s)) as [app' cfg'] eqn:E0.
  cbn [fst snd] in Hi, H0.
  change (set_offset m (set_offset n (tdm_config s)))
    with (set_offset m (tdm_config s)).
  rewrite Hi.
  cbn [set_trace args trace app_data tdm_config set_tdm_config set_app_data
       set_args set_offset slave_bclk_polarity offset] in *.
  destruct (slave_bclk_polarity cfg');
    cbn [set_trace args trace app_data tdm_config set_tdm_config set_app_data
         set_args set_offset slave_bclk_polarity offset] in *;
    (match type of E with
     | context [(if _ then _ else _) ?x0] =>
         match goal with
         | |- context [(if _ then _ else _) ?xn0] =>
             apply (shifts_init_tail f x0 xn0 s'); [ | | exact E ]
         end
     end;
     [ exact H0
     | unfold later, with_offset;
       cbn [set_trace args trace app_data tdm_config set_tdm_config set_app_data
            set_args set_offset slave_bclk_polarity offset bclk_trigger_time
            set_bclk_trigger_time mclk_bclk_ratio set_num_bclk_cycles_offset
            num_out num_in num_chans num_data_bits frame_len
            num_bclk_cycles_offset];
       rewrite !map_app; reflexivity ]).
Qed.

Lemma untimed_map (tr : list event) :
  forallb is_untimed tr = true -> map (shift_time n) tr = tr.
Proof.
  induction tr as [|e tr IH]; [reflexivity|].
  cbn [forallb map]. intros H. apply andb_prop in H as [He Ht].
  rewrite (IH Ht). f_equal. destruct e; try reflexivity; discriminate He.
Qed.

Lemma init_ports_events_untimed (n_out n_in : Z) :
  forallb is_untimed (init_ports_events n_out n_in) = true.
Proof.
  unfold init_ports_events. rewrite !forallb_app.
  rewrite !forallb_flat_map by reflexivity. reflexivity.
Qed.

Lemma xassert_untimed (tr : list event) :
  forallb is_xassert tr = true -> forallb is_untimed tr = true.
Proof.
  induction tr as [|e tr IH]; [reflexivity|].
  cbn [forallb]. intros H. apply andb_prop in H as [He Ht].
  rewrite (IH Ht). destruct e; try discriminate He. reflexivity.
Qed.

Lemma outer_test_shifted (a : tdm_slave_loop_args_t) (s : machine App)
      (f : bool) (m : Z) :
  engine_inv a s ->
  (m = n /\ offset_zero s) \/ restart s <> TDM_SHUTDOWN ->
  shifted_config n (outer_test cbg0 s)
                 (outer_test cbgn (with_offset m (later f 0 n s))).
Proof.
  intros Hinv Hm. unfold outer_test.
  change (restart (with_offset m (later f 0 n s))) with (restart s).
  destruct (init_until_frame_sync_effect cbg0 a s Hinv) as (s' & E & _).
  destruct (shifts_init_until_frame_sync f m s s' E) as [En Hz].
  rewrite E, En.
  assert (Hw : shifted_config n (WaitInitSync, s') (WaitInitSync, later f 0 n s')).
  { split; [reflexivity|]. split; [exact Hz|]. exists f.
    split; [reflexivity | discriminate]. }
  destruct (restart s) eqn:Er; try exact Hw.
  destruct Hm as [[-> Hz0] | Hne]; [|congruence].
  split; [reflexivity|]. split; [exact Hz0|]. exists f.
  split; [reflexivity | discriminate].
Qed.

Lemma inner_test_shifted (a : tdm_slave_loop_args_t) (s : machine App) :
  engine_inv a s ->
  offset_zero s ->
  shifted_config n (inner_test cbg0 s) (inner_test cbgn (later true 0 n s)).
Proof.
  intros Hinv Hz. unfold inner_test.
  change (restart (later true 0 n s)) with (restart s).
  destruct (restart s) eqn:Er.
  - split; [reflexivity|]. split; [exact Hz|]. exists true. auto.
  - apply (outer_test_shifted a s true n Hinv). auto.
  - apply (outer_test_shifted a s true n Hinv). auto.
Qed.

Lemma react_shifted (a : tdm_slave_loop_args_t) (st : stimulus) (c0 cn : config) :
  num_out a <= TDM_MAX_PORTS ->
  config_inv a c0 ->
  shifted_config n c0 cn ->
  shifted_config n (react cbg0 st c0) (react cbgn st cn).
Proof.
  intros Hn [Hl Hinv] R. pose proof R as (Hk & Hz & f & Hs & Hf).
  destruct c0 as [k s]. destruct cn as [kn sn]. cbn [fst snd] in *. subst kn sn.
  destruct st as [t | din]; destruct k; cbn [react]; try exact R.
  - destruct (init_from_frame_sync_effect a s t Hinv Hn) as (s' & E & Hinv' & _).
    destruct (shifts_init_from_frame_sync f t s tt s' Hz E) as ([] & -> & _ & Hz').
    rewrite E. cbn [resume]. apply (inner_test_shifted a); assumption.
  - rewrite (Hf eq_refl).
    destruct (frame_effect cbg0 a s t Hinv Hn) as (s' & E & Hinv' & _).
    destruct (shifts_frame f t s tt s' Hz E) as ([] & En & _ & Hz').
    rewrite (Hf eq_refl) in En. rewrite E, En. cbn [resume].
    apply (inner_test_shifted a); assumption.
  - rewrite (Hf eq_refl).
    destruct Hinv as (Ha & Hsel & Hp).
    destruct (tdm_isr_effect din s) as (s' & E & _); [apply Hp | apply Hp |].
    destruct (shifts_tdm_isr din s tt s' Hz E) as ([] & -> & _ & Hz').
    rewrite E. split; [reflexivity|]. split; [exact Hz'|]. exists true. auto.
Qed.

Lemma run_shifted (a : tdm_slave_loop_args_t) (sched : list stimulus) :
  num_out a <= TDM_MAX_PORTS ->
  forall c0 cn : config,
    config_inv a c0 ->
    shifted_config n c0 cn ->
    shifted_config n (run cbg0 sched c0) (run cbgn sched cn).
Proof.
  intros Hn. induction sched as [|st sched IH]; intros c0 cn Hc R; [exact R|].
  cbn [run fold_left]. apply IH.
  - apply react_inv; assumption.
  - apply (react_shifted a); assumption.
Qed.

Lemma tdm_slave_entry (app : App) (n_out n_in n_chans n_bits : Z) :
  preconditions n_out n_in n_chans = true ->
  exists st0,
    (forall cbg, tdm_slave cbg app n_out n_in n_chans n_bits = outer_test cbg st0) /\
    engine_inv (slave_args n_out n_in n_chans n_bits) st0 /\
    restart st0 = TDM_NO_RESTART /\
    with_offset 0 (later false 0 n st0) = st0.
Proof.
  unfold preconditions. intros H.
  apply andb_prop in H as [H Ho]. apply andb_prop in H as [Hc Hi].
  eexists. split; [|split; [|split]].
  - intros cbg. unfold tdm_slave, xassert. rewrite Hc, Hi, Ho.
    rewrite tdm_slave_init_ports_spec. unfold tdm_main_loop. reflexivity.
  - split; [repeat split|]. split; [left; reflexivity|]. repeat split.
  - reflexivity.
  - unfold later, with_offset, main_loop_entry.
    cbn -[add32 init_ports_events shift_time].
    rewrite (untimed_map (init_ports_events n_out n_in))
      by apply init_ports_events_untimed.
    reflexivity.
Qed.

Lemma tdm_slave_trapped_same (app : App) (n_out n_in n_chans n_bits : Z) :
  preconditions n_out n_in n_chans = false ->
  tdm_slave cbgn app n_out n_in n_chans n_bits =
  tdm_slave cbg0 app n_out n_in n_chans n_bits.
Proof.
  unfold preconditions, tdm_slave, xassert. intros H.
  destruct (n_chans <=? TDM_MAX_CHANS); [|reflexivity].
  destruct (n_in <=? TDM_MAX_PORTS); [|reflexivity].
  destruct (n_out <=? TDM_MAX_PORTS); [discriminate H | reflexivity].
Qed.

(** C8, as amended.  Take two runs of [tdm_slave] that are identical
    except that the configured offset is [n] bit-clock cycles in one and 0
    in the other: same arguments, same stimuli, same application but for
    the offset its [init] callback gives.  The two runs are in the same
    control state with the same samples and application state, and the
    trace of the first is the trace of the second with the time of every
    port output ([preload_data]) exactly [n] cycles later on the wrapping
    32-bit port clock, and the trigger times of the handler and of the
    input ports, which include the offset as well, [n] cycles later too;
    no other call differs. *)
Theorem offset_shifts_schedule (app : App) (n_out n_in n_chans n_bits : Z)
        (sched : list stimulus) :
  let c0 := run cbg0 sched (tdm_slave cbg0 app n_out n_in n_chans n_bits) in
  let cn := run cbgn sched (tdm_slave cbgn app n_out n_in n_chans n_bits) in
  fst cn = fst c0 /\
  trace (snd cn) = map (shift_time n) (trace (snd c0)) /\
  in_s (snd cn) = in_s (snd c0) /\
  out_s (snd cn) = out_s (snd c0) /\
  tdm_interrupt_data (snd cn) = tdm_interrupt_data (snd c0) /\
  app_data (snd cn) = app_data (snd c0) /\
  (live (fst c0) ->
   num_bclk_cycles_offset (args (snd c0)) = 0 /\
   num_bclk_cycles_offset (args (snd cn)) = n /\
   preload_time (snd cn) = add32 (preload_time (snd c0)) n).
Proof.
  intros c0 cn. subst c0 cn.
  destruct (preconditions n_out n_in n_chans) eqn:Hp.
  - destruct (tdm_slave_entry app n_out n_in n_chans n_bits Hp)
      as (st0 & E & Hinv & Hr & Hst).
    rewrite !E.
    assert (Ho : n_out <= TDM_MAX_PORTS).
    { unfold preconditions in Hp. apply andb_prop in Hp as [_ Ho].
      apply Z.leb_le. exact Ho. }
    set (a := slave_args n_out n_in n_chans n_bits) in *.
    assert (R0 : shifted_config n (outer_test cbg0 st0) (outer_test cbgn st0)).
    { rewrite <- Hst at 2. apply (outer_test_shifted a); [exact Hinv|].
      right. rewrite Hr. discriminate. }
    destruct (run_shifted a sched Ho _ _ (outer_test_inv cbg0 a st0 Hinv) R0)
      as (Hk & Hz & f & Hs & _).
    rewrite Hs. split; [exact Hk|]. repeat split.
    + exact Hz.
    + apply preload_time_later. exact Hz.
  - rewrite (tdm_slave_trapped_same app n_out n_in n_chans n_bits Hp).
    destruct (tdm_slave_trapped cbg0 app n_out n_in n_chans n_bits Hp)
      as (Ht & Hx & _).
    rewrite !run_stopped by (left; exact Ht).
    rewrite (untimed_map _ (xassert_untimed _ Hx)).
    do 6 (split; [reflexivity|]).
    intros Hl. rewrite Ht in Hl. destruct Hl as [H | [H | H]]; discriminate H.
Qed.

End OffsetShift.

(** ** Further properties of the packer, the transport and the loops *)

(* ---- helper lemmas ---- *)

Section WireFormat.

(** Bits of a word made of two 16-bit halves. *)
Lemma halves_bits (hi lo i : Z) :
  0 <= lo < 2 ^ 16 -> 0 <= i ->
  Z.testbit (hi * 2 ^ 16 + lo) i =
  if i <? 16 then Z.testbit lo i else Z.testbit hi (i - 16).
Proof.
  intros Hlo Hi. destruct (Z_lt_le_dec i 16).
  - rewrite ltb_true by lia.
    rewrite <- (Z.mod_pow2_bits_low (hi * 2 ^ 16 + lo) 16 i) by lia.
    rewrite Z.add_comm, Z.mod_add by lia. rewrite Z.mod_small by lia. reflexivity.
  - rewrite ltb_false by lia.
    replace i with ((i - 16) + 16) at 1 by lia.
    rewrite <- Z.div_pow2_bits by lia.
    rewrite Z.add_comm, Z.div_add by lia. rewrite Z.div_small by lia. reflexivity.
Qed.

Lemma low16_bits (x i : Z) :
  0 <= i -> Z.testbit (x mod 2 ^ 16) i = (i <? 16) && Z.testbit x i.
Proof.
  intros Hi. destruct (Z_lt_le_dec i 16).
  - rewrite Z.mod_pow2_bits_low, ltb_true by lia. reflexivity.
  - rewrite Z.mod_pow2_bits_high, ltb_false by lia. reflexivity.
Qed.

Lemma high16_bits (x i : Z) :
  0 <= i -> Z.testbit (x / 2 ^ 16) i = Z.testbit x (i + 16).
Proof. intros Hi. apply Z.div_pow2_bits; lia. Qed.

Lemma low16_range (x : Z) : 0 <= x mod 2 ^ 16 < 2 ^ 16.
Proof. apply Z.mod_pos_bound. lia. Qed.

Lemma word_eq_bits (a b : Z) :
  0 <= a < modulus -> 0 <= b < modulus ->
  (forall i, 0 <= i < 32 -> Z.testbit a i = Z.testbit b i) -> a = b.
Proof.
  intros Ha Hb H. apply Z.bits_inj'. intros i Hi.
  destruct (Z_lt_le_dec i 32); [apply H; lia|].
  rewrite <- (Z.mod_small a (2 ^ 32)), <- (Z.mod_small b (2 ^ 32)) by exact Ha || exact Hb.
  rewrite !Z.mod_pow2_bits_high by lia. reflexivity.
Qed.

Lemma to_uint32_low16 (x : Z) : to_uint32 x mod 2 ^ 16 = x mod 2 ^ 16.
Proof.
  apply low16_eq. intros n Hn. rewrite to_uint32_bits by lia.
  rewrite ltb_true by lia. reflexivity.
Qed.

Lemma halves_range (hi lo : Z) :
  0 <= hi < 2 ^ 16 -> 0 <= lo < 2 ^ 16 -> 0 <= hi * 2 ^ 16 + lo < modulus.
Proof. unfold modulus. lia. Qed.

Lemma zip_fst_range (d e s : Z) : 0 <= fst (zip d e s) < modulus.
Proof.
  unfold zip, zip64. cbn [fst]. split.
  - apply Z.shiftr_nonneg. apply of_bits_nonneg.
  - rewrite Z.shiftr_div_pow2 by lia.
    apply Z.div_lt_upper_bound; [lia|].
    pose proof (of_bits_lt 64 (fun i : Z =>
      if Z.odd (i / 2 ^ s)
      then Z.testbit d (i / 2 ^ s / 2 * 2 ^ s + i mod 2 ^ s)
      else Z.testbit e (i / 2 ^ s / 2 * 2 ^ s + i mod 2 ^ s))) as H.
    unfold modulus. change (Z.of_nat 64) with 64 in H.
    change (2 ^ 32 * 2 ^ 32) with (2 ^ 64). exact H.
Qed.

Lemma unzip_range (d e s : Z) :
  0 <= fst (unzip d e s) < modulus /\ 0 <= snd (unzip d e s) < modulus.
Proof.
  unfold unzip. cbn [fst snd].
  split; (split; [apply of_bits_nonneg | apply (of_bits_lt 32)]).
Qed.

(** X1.  [OUT16(X, Y)] leaves in [Y] the bit-reversed word whose high
    half is the low half of [X] and whose low half is the low half of
    [Y] (the comment of the macro: X = ABCD, Y = EFGH gives
    Y = bitrev(CDGH)), and in [X] the two high halves.  So the word
    [preload_data] sends for a channel pair is the bit reversal of
    channel 0 above channel 1, each cut to 16 bits: the high halves of
    the samples never reach the wire. *)
Theorem OUT16_wire_word (X Y : Z) :
  snd (OUT16 X Y) = bitrev ((X mod 2 ^ 16) * 2 ^ 16 + Y mod 2 ^ 16) /\
  fst (OUT16 X Y) = ((X / 2 ^ 16) mod 2 ^ 16) * 2 ^ 16 + (Y / 2 ^ 16) mod 2 ^ 16 /\
  (forall ch0 ch1 : Z,
      pack16 ch0 ch1 = bitrev ((ch0 mod 2 ^ 16) * 2 ^ 16 + ch1 mod 2 ^ 16) /\
      pack16 ch0 ch1 = pack16 (ch0 mod 2 ^ 16) (ch1 mod 2 ^ 16)).
Proof.
  assert (HY : forall X Y,
    snd (OUT16 X Y) = bitrev ((X mod 2 ^ 16) * 2 ^ 16 + Y mod 2 ^ 16)).
  { clear X Y. intros X Y. unfold OUT16.
    destruct (zip X Y 4) as [X1 Y1] eqn:E. cbn [snd].
    replace Y1 with (snd (zip X Y 4)) by (now rewrite E).
    apply word_eq_bits; try apply bitrev_range.
    intros i Hi. rewrite !bitrev_bits by lia. rewrite ltb_true by lia.
    cbn [andb]. rewrite zip16_lo_bits by lia.
    rewrite halves_bits by (try apply low16_range; lia).
    destruct (Z_lt_le_dec (31 - i) 16).
    - rewrite !ltb_true by lia. rewrite low16_bits by lia.
      rewrite ltb_true by lia. reflexivity.
    - rewrite !ltb_false by lia. rewrite low16_bits by lia.
      rewrite ltb_true by lia. reflexivity. }
  assert (HP : forall ch0 ch1,
    pack16 ch0 ch1 = bitrev ((ch0 mod 2 ^ 16) * 2 ^ 16 + ch1 mod 2 ^ 16)).
  { intros ch0 ch1. unfold pack16. rewrite HY.
    rewrite !to_uint32_low16. reflexivity. }
  split; [apply HY|]. split.
  - unfold OUT16. destruct (zip X Y 4) as [X1 Y1] eqn:E. cbn [fst].
    replace X1 with (fst (zip X Y 4)) by (now rewrite E).
    apply word_eq_bits;
      [apply zip_fst_range | apply halves_range; apply low16_range |].
    intros i Hi. rewrite zip16_hi_bits by lia.
    rewrite halves_bits by (try apply low16_range; lia).
    destruct (Z_lt_le_dec i 16).
    + rewrite !ltb_true by lia. rewrite low16_bits, high16_bits by lia.
      rewrite ltb_true by lia. reflexivity.
    + rewrite !ltb_false by lia. rewrite low16_bits, high16_bits by lia.
      rewrite ltb_true by lia. cbn [andb]. f_equal. lia.
  - intros ch0 ch1. split; [apply HP|].
    rewrite (HP (ch0 mod 2 ^ 16)), HP. rewrite !Z.mod_mod by lia. reflexivity.
Qed.

Lemma bitrev_high_half_range (Y : Z) : 0 <= bitrev Y / 2 ^ 16 < 2 ^ 16.
Proof.
  pose proof (bitrev_range Y) as H. unfold modulus in H.
  split; [apply Z.div_pos; lia | apply Z.div_lt_upper_bound; lia].
Qed.

Lemma IN16_halves (X Y : Z) :
  IN16 X Y =
    (((X / 2 ^ 16) mod 2 ^ 16) * 2 ^ 16 + bitrev Y / 2 ^ 16,
     (X mod 2 ^ 16) * 2 ^ 16 + bitrev Y mod 2 ^ 16).
Proof.
  pose proof (bitrev_high_half_range Y) as Hhi.
  unfold IN16.
  rewrite (surjective_pairing (unzip X (bitrev Y) 4)).
  destruct (unzip_range X (bitrev Y) 4) as [R1 R2].
  f_equal.
  - apply word_eq_bits;
      [exact R1 | apply halves_range; [apply low16_range | exact Hhi] |].
    intros i Hi. rewrite unzip16_fst_bits by lia.
    rewrite halves_bits by (try exact Hhi; lia).
    destruct (Z_lt_le_dec i 16).
    + rewrite !ltb_true by lia. rewrite high16_bits by lia. reflexivity.
    + rewrite !ltb_false by lia. rewrite low16_bits, high16_bits by lia.
      rewrite ltb_true by lia. cbn [andb]. f_equal. lia.
  - apply word_eq_bits;
      [exact R2 | apply halves_range; apply low16_range |].
    intros i Hi. rewrite unzip16_snd_bits by lia.
    rewrite halves_bits by (try apply low16_range; lia).
    destruct (Z_lt_le_dec i 16).
    + rewrite !ltb_true by lia. rewrite low16_bits by lia.
      rewrite ltb_true by lia. reflexivity.
    + rewrite !ltb_false by lia. rewrite low16_bits by lia.
      rewrite ltb_true by lia. reflexivity.
Qed.

(** With its first register cleared, [IN16] gives the two halves of the
    bit-reversed word. *)
Lemma unpack16_halves (w : Z) :
  unpack16 w = (bitrev w / 2 ^ 16, bitrev w mod 2 ^ 16).
Proof. unfold unpack16. rewrite IN16_halves. reflexivity. Qed.

(** A value in the range of an unsigned 16-bit number is its own
    conversion to [int32_t]. *)
Lemma to_int32_uint16 (x : Z) : 0 <= x < 2 ^ 16 -> to_int32 x = x.
Proof.
  intros H. unfold to_int32, to_uint32, modulus.
  rewrite Z.mod_small by lia. rewrite ltb_true by lia. reflexivity.
Qed.

(** X2.  [IN16(X, Y)] bit-reverses [Y] and leaves in the low half of [X]
    the high half of the reversed word and in the low half of [Y] its
    low half; the high halves of the two results are the two halves of
    the old [X] (the comment of the macro).  With [X] cleared, as
    [tdm_isr] calls it, the two results are exactly the two halves of
    the reversed word, both in the range of an unsigned 16-bit number. *)
Theorem IN16_wire_word (X Y : Z) :
  IN16 X Y =
    (((X / 2 ^ 16) mod 2 ^ 16) * 2 ^ 16 + bitrev Y / 2 ^ 16,
     (X mod 2 ^ 16) * 2 ^ 16 + bitrev Y mod 2 ^ 16) /\
  unpack16 Y = (bitrev Y / 2 ^ 16, bitrev Y mod 2 ^ 16) /\
  0 <= fst (unpack16 Y) < 2 ^ 16 /\
  0 <= snd (unpack16 Y) < 2 ^ 16.
Proof.
  split; [apply IN16_halves|]. split; [apply unpack16_halves|].
  rewrite unpack16_halves. cbn [fst snd].
  split; [apply bitrev_high_half_range | apply low16_range].
Qed.

(** X3.  Packing the two samples unpacked from a 32-bit word gives the
    word back: with the round trip in the other direction, the packer is
    a one-to-one correspondence between 32-bit port words and pairs of
    16-bit samples. *)
Theorem pack16_unpack16 (w : Z) :
  pack16 (fst (unpack16 w)) (snd (unpack16 w)) = to_uint32 w.
Proof.
  apply word_eq_bits.
  - unfold pack16, OUT16.
    destruct (zip _ _ 4) as [X1 Y1]. cbn [snd]. apply bitrev_range.
  - apply Z.mod_pos_bound. unfold modulus. lia.
  - intros i Hi. rewrite pack16_bits by lia.
    rewrite to_uint32_bits by lia. rewrite (ltb_true i 32) by lia. cbn [andb].
    unfold unpack16, IN16.
    destruct (Z_lt_le_dec i 16).
    + rewrite ltb_true by lia. rewrite unzip16_fst_bits by lia.
      rewrite ltb_true by lia. rewrite bitrev_bits by lia.
      rewrite ltb_true by lia. cbn [andb]. f_equal. lia.
    + rewrite ltb_false by lia. rewrite unzip16_snd_bits by lia.
      rewrite ltb_true by lia. rewrite bitrev_bits by lia.
      rewrite ltb_true by lia. cbn [andb]. f_equal. lia.
Qed.

End WireFormat.

Section DataPath.

Context {App : Type}.
Variable tdm_cbg : tdm_callback_group_t App.

Lemma call_process_data (site : process_site) (a : tdm_slave_loop_args_t)
      (st : machine App) (st' : machine App) :
  engine_inv a st ->
  call_process tdm_cbg site st = Some (tt, st') ->
  current_buf_no st' = current_buf_no st /\
  app_data st' = fst (process_answer tdm_cbg (app_data st) st) /\
  in_s st' = update_double_buffer (in_s st) (ptr_index (safe_in_buffer st))
               (fst (snd (process_answer tdm_cbg (app_data st) st))) /\
  out_s st' = update_double_buffer (out_s st) (ptr_index (safe_out_buffer st))
                (snd (snd (process_answer tdm_cbg (app_data st) st))).
Proof.
  intros (Ha & Hs & Hp).
  destruct Hp as (Hwi & Hwo & Hsi & Hso & Bwi & Bwo & Bsi & Bso).
  unfold call_process, load_buffer, store_buffer, log, bind, gets, modify, ret,
    process_answer, buffer_of.
  cbn [safe_in_buffer safe_out_buffer set_trace args trace app_data].
  rewrite Hsi, Hso, Bsi, Bso. cbn [double_buffer_of in_s out_s set_trace].
  destruct (process tdm_cbg _ _ _ _ _ _ _) as [app' [rx' tx']].
  cbn [safe_in_buffer safe_out_buffer set_trace set_app_data args trace app_data].
  rewrite ?Hsi, ?Hso, ?Bsi, ?Bso.
  intros E. injection E as <-. cbn. repeat split.
Qed.


Lemma roles_after_commit (st st' : machine App) :
  selector_bit (current_buf_no st) ->
  commit_buffers In_s Out_s st = Some (tt, st') ->
  roles_split st' /\
  current_buf_no st' = 1 - current_buf_no st /\
  working_in_buffer (tdm_interrupt_data st') =
    {| ptr_base := In_s; ptr_index := current_buf_no st |} /\
  working_out_buffer (tdm_interrupt_data st') =
    {| ptr_base := Out_s; ptr_index := current_buf_no st |}.
Proof.
  intros Hs E. injection E as <-. unfold roles_split.
  cbn -[to_uint8 Z.lxor Z.sub]. rewrite (lxor_bit _ Hs).
  replace (1 - (1 - current_buf_no st)) with (current_buf_no st) by lia.
  repeat split.
Qed.

Lemma frame_data (a : tdm_slave_loop_args_t) (st st' : machine App) (t : Z) :
  engine_inv a st ->
  num_out a <= TDM_MAX_PORTS ->
  frame tdm_cbg t st = Some (tt, st') ->
  roles_split st' /\
  current_buf_no st' = 1 - current_buf_no st /\
  working_in_buffer (tdm_interrupt_data st') =
    {| ptr_base := In_s; ptr_index := current_buf_no st |} /\
  working_out_buffer (tdm_interrupt_data st') =
    {| ptr_base := Out_s; ptr_index := current_buf_no st |} /\
  app_data st' =
    fst (process_answer tdm_cbg (fst (restart_check tdm_cbg (app_data st))) st) /\
  in_s st' =
    update_double_buffer (in_s st) (ptr_index (safe_in_buffer st))
      (fst (snd (process_answer tdm_cbg
                   (fst (restart_check tdm_cbg (app_data st))) st))) /\
  out_s st' =
    update_double_buffer (out_s st) (ptr_index (safe_out_buffer st))
      (snd (snd (process_answer tdm_cbg
                   (fst (restart_check tdm_cbg (app_data st))) st))).
Proof.
  intros Hinv Hn. pose proof Hinv as (Ha & Hs & Hp).
  unfold frame, hold_for_frame_sync, call_restart_check, log,
    bind, gets, modify, ret.
  cbn [set_trace args trace app_data set_tdm_interrupt_data].
  destruct (restart_check tdm_cbg (app_data st)) as [app' r] eqn:Er.
  cbn [set_trace args trace app_data set_tdm_interrupt_data set_app_data fst snd].
  match goal with
  | |- context [call_process _ _ ?m] => set (m1 := m)
  end.
  assert (Hinv1 : engine_inv a m1) by exact Hinv.
  destruct (call_process_effect tdm_cbg PerFrame a m1 Hinv1)
    as (m2 & E2 & Hinv2 & _).
  rewrite E2.
  destruct (call_process_data PerFrame a m1 m2 Hinv1 E2) as (N2 & P2 & I2 & O2).
  destruct (commit_buffers_runs In_s Out_s m2) as (m3 & E3).
  rewrite E3.
  assert (Hs2 : selector_bit (current_buf_no m2)) by apply Hinv2.
  destruct (roles_after_commit m2 m3 Hs2 E3) as (R3 & N3 & WI3 & WO3).
  destruct (commit_buffers_effect a m2 (proj1 Hinv2) Hs2)
    as (m3' & E3' & Hinv3 & A3 & C3 & I3 & O3 & F3 & _ & P3 & _).
  rewrite E3 in E3'. injection E3' as <-.
  rewrite preload_data_spec;
    [ | apply Hinv3 | destruct Hinv3 as ((-> & _) & _); exact Hn ].
  intros E. injection E as <-.
  split; [exact R3|].
  cbn [tdm_interrupt_data safe_in_buffer safe_out_buffer current_buf_no
       set_trace app_data in_s out_s].
  rewrite N3, WI3, WO3, P3, I3, O3, P2, I2, O2, N2.
  repeat split.
Qed.


Lemma init_until_frame_sync_data (a : tdm_slave_loop_args_t)
      (st st' : machine App) :
  engine_inv a st ->
  init_until_frame_sync tdm_cbg st = Some (tt, st') ->
  roles_split st' /\
  current_buf_no st' = 1 - current_buf_no st /\
  working_in_buffer (tdm_interrupt_data st') =
    {| ptr_base := In_s; ptr_index := current_buf_no st |} /\
  working_out_buffer (tdm_interrupt_data st') =
    {| ptr_base := Out_s; ptr_index := current_buf_no st |} /\
  fsync_time (tdm_interrupt_data st') = fsync_time (tdm_interrupt_data st) /\
  if 0 <? num_out (args st)
  then
    app_data st' =
      fst (process_answer tdm_cbg
             (fst (init tdm_cbg (app_data st) (tdm_config st))) st) /\
    in_s st' =
      update_double_buffer (in_s st) (ptr_index (safe_in_buffer st))
        (fst (snd (process_answer tdm_cbg
                     (fst (init tdm_cbg (app_data st) (tdm_config st))) st))) /\
    out_s st' =
      update_double_buffer (out_s st) (ptr_index (safe_out_buffer st))
        (snd (snd (process_answer tdm_cbg
                     (fst (init tdm_cbg (app_data st) (tdm_config st))) st)))
  else
    app_data st' = fst (init tdm_cbg (app_data st) (tdm_config st)) /\
    in_s st' = in_s st /\
    out_s st' = out_s st.
Proof.
  intros Hinv. pose proof Hinv as (Ha & Hs & Hp).
  unfold init_until_frame_sync, call_init, log, bind, gets, modify, ret.
  cbn [set_trace args trace app_data tdm_config].
  destruct (init tdm_cbg (app_data st) (tdm_config st)) as [app' cfg'] eqn:Ei.
  cbn [set_trace set_app_data set_tdm_config set_args args trace app_data
       tdm_config fst snd num_out set_num_bclk_cycles_offset].
  assert (Hm : forall (e : event),
    match
      (if 0 <? num_out (args st)
       then call_process tdm_cbg Priming
       else fun st0 : machine App => Some (tt, st0))
        (set_args (set_num_bclk_cycles_offset (offset cfg') (args st))
           (set_tdm_config cfg'
              (set_app_data app'
                 (set_trace
                    (((trace st ++ [Ev_interrupt_mask_all]) ++ [Ev_init]) ++ [e])
                    st))))
    with
    | Some (_, st'1) =>
        match commit_buffers In_s Out_s st'1 with
        | Some (_, st'2) =>
            Some (tt,
                  set_trace
                    ((trace st'2 ++ [Ev_port_clear_buffer p_fsync]) ++ [Ev_clock_start])
                    (set_trace (trace st'2 ++ [Ev_port_clear_buffer p_fsync]) st'2))
        | None => None
        end
    | None => None
    end = Some (tt, st') ->
    roles_split st' /\
    current_buf_no st' = 1 - current_buf_no st /\
    working_in_buffer (tdm_interrupt_data st') =
      {| ptr_base := In_s; ptr_index := current_buf_no st |} /\
    working_out_buffer (tdm_interrupt_data st') =
      {| ptr_base := Out_s; ptr_index := current_buf_no st |} /\
    fsync_time (tdm_interrupt_data st') = fsync_time (tdm_interrupt_data st) /\
    if 0 <? num_out (args st)
    then
      app_data st' = fst (process_answer tdm_cbg app' st) /\
      in_s st' =
        update_double_buffer (in_s st) (ptr_index (safe_in_buffer st))
          (fst (snd (process_answer tdm_cbg app' st))) /\
      out_s st' =
        update_double_buffer (out_s st) (ptr_index (safe_out_buffer st))
          (snd (snd (process_answer tdm_cbg app' st)))
    else
      app_data st' = app' /\ in_s st' = in_s st /\ out_s st' = out_s st).
  { intros e.
    match goal with
    | |- context [(if _ then _ else _) ?m] => set (m1 := m)
    end.
    assert (Hinv1 : engine_inv a m1) by exact Hinv.
    destruct (0 <? num_out (args st)) eqn:En.
    - destruct (call_process_effect tdm_cbg Priming a m1 Hinv1)
        as (m2 & E2 & Hinv2 & _ & _ & D2 & _).
      rewrite E2.
      destruct (call_process_data Priming a m1 m2 Hinv1 E2) as (N2 & P2 & I2 & O2).
      assert (Hs2 : selector_bit (current_buf_no m2)) by apply Hinv2.
      destruct (commit_buffers_effect a m2 (proj1 Hinv2) Hs2)
        as (m3 & E3 & Hinv3 & A3 & C3 & I3 & O3 & F3 & _ & P3 & _).
      rewrite E3.
      destruct (roles_after_commit m2 m3 Hs2 E3) as (R3 & N3 & WI3 & WO3).
      intros E. injection E as <-.
      split; [exact R3|].
      cbn [tdm_interrupt_data safe_in_buffer safe_out_buffer current_buf_no
           set_trace app_data in_s out_s].
      rewrite N3, WI3, WO3, P3, I3, O3, F3, D2, P2, I2, O2, N2.
      repeat split.
    - destruct (commit_buffers_effect a m1 (proj1 Hinv1) (proj1 (proj2 Hinv1)))
        as (m3 & E3 & Hinv3 & A3 & C3 & I3 & O3 & F3 & _ & P3 & _).
      rewrite E3.
      destruct (roles_after_commit m1 m3 (proj1 (proj2 Hinv1)) E3)
        as (R3 & N3 & WI3 & WO3).
      intros E. injection E as <-.
      split; [exact R3|].
      cbn [tdm_interrupt_data safe_in_buffer safe_out_buffer current_buf_no
           set_trace app_data in_s out_s].
      rewrite N3, WI3, WO3, P3, I3, O3, F3.
      repeat split. }
  destruct (slave_bclk_polarity cfg'); apply Hm.
Qed.

Lemma same_data_refl (st : machine App) : same_data st st.
Proof. repeat split. Qed.

Lemma same_data_trans (st1 st2 st3 : machine App) :
  same_data st1 st2 -> same_data st2 st3 -> same_data st1 st3.
Proof.
  intros (A1 & A2 & A3 & A4 & A5 & A6 & A7 & A8 & A9)
         (B1 & B2 & B3 & B4 & B5 & B6 & B7 & B8 & B9).
  unfold same_data.
  rewrite B1, B2, B3, B4, B5, B6, B7, B8, B9. repeat split; assumption.
Qed.

Lemma bind_inv {A B : Type} (c : M App A) (k : A -> M App B)
      (st st' : machine App) (b : B) :
  bind c k st = Some (b, st') ->
  exists a st1, c st = Some (a, st1) /\ k a st1 = Some (b, st').
Proof.
  unfold bind. destruct (c st) as [[a st1]|]; [|discriminate].
  intros H. exists a, st1. auto.
Qed.

Lemma log_same_data (e : event) (st st' : machine App) (u : unit) :
  log e st = Some (u, st') -> same_data st st'.
Proof.
  destruct u. unfold log, modify. intros E. injection E as <-. repeat split.
Qed.

Lemma gets_same_data {A : Type} (f : machine App -> A) (st st' : machine App)
      (x : A) :
  gets f st = Some (x, st') -> same_data st st'.
Proof. intros E. injection E as _ <-. apply same_data_refl. Qed.

Lemma ret_same_data {A : Type} (x y : A) (st st' : machine App) :
  ret x st = Some (y, st') -> same_data st st'.
Proof. intros E. injection E as _ <-. apply same_data_refl. Qed.

Lemma port_set_trigger_time_same_data (p : port_t) (t : Z)
      (st st' : machine App) (u : unit) :
  port_set_trigger_time p t st = Some (u, st') -> same_data st st'.
Proof.
  destruct u. unfold port_set_trigger_time, log, bind, modify, ret.
  destruct p; intros E; injection E as <-; repeat split.
Qed.

Lemma for_loop_same_data (body : Z -> M App loop_ctl) (n : nat) :
  (forall j st st' c, body j st = Some (c, st') -> same_data st st') ->
  forall (i : Z) (st st' : machine App) (u : unit),
    for_loop n i body st = Some (u, st') -> same_data st st'.
Proof.
  intros Hbody. induction n as [|n IH]; intros i st st' u E.
  - injection E as _ <-. apply same_data_refl.
  - cbn [for_loop] in E. apply bind_inv in E as (c & st1 & E1 & E2).
    apply (same_data_trans st st1 st'); [apply (Hbody i st st1 c E1)|].
    destruct c.
    + apply (IH (i + 1) st1 st' u E2).
    + injection E2 as _ <-. apply same_data_refl.
Qed.

Lemma clear_input_line_same_data (j : Z) (st st' : machine App) (c : loop_ctl) :
  clear_input_line j st = Some (c, st') -> same_data st st'.
Proof.
  rewrite clear_input_line_spec. intros E. injection E as _ <-. repeat split.
Qed.

Lemma clear_output_line_same_data (j : Z) (st st' : machine App) (c : loop_ctl) :
  clear_output_line j st = Some (c, st') -> same_data st st'.
Proof.
  rewrite clear_output_line_spec. intros E. injection E as _ <-. repeat split.
Qed.

Lemma preload_data_line_same_data (j : Z) (st st' : machine App) (c : loop_ctl) :
  preload_data_line j st = Some (c, st') -> same_data st st'.
Proof.
  unfold preload_data_line, load_sample, load_buffer, port_out_at_time, log,
    bind, gets, modify, ret, undefined.
  destruct (buffer_index_ok _); [|discriminate].
  destruct (sample_get _ j 1); [|discriminate].
  destruct (sample_get _ j 0); [|discriminate].
  destruct (OUT16 _ _) as [tmp out].
  intros E. injection E as _ <-. repeat split.
Qed.

Lemma preload_data_same_data (st st' : machine App) (u : unit) :
  preload_data st = Some (u, st') -> same_data st st'.
Proof.
  unfold preload_data. intros E. apply bind_inv in E as (n & st1 & E1 & E2).
  injection E1 as _ <-.
  apply (for_loop_same_data preload_data_line _ preload_data_line_same_data
           _ _ _ _ E2).
Qed.

(** From the frame-sync edge to the first preload the outer-loop body
    leaves buffers, pointers, selector and application data alone. *)
Lemma init_from_frame_sync_data (st st' : machine App) (t : Z) :
  init_from_frame_sync t st = Some (tt, st') -> same_data st st'.
Proof.
  unfold init_from_frame_sync, hold_for_frame_sync. intros E.
  apply bind_inv in E as (x1 & s1 & E1 & E).
  apply bind_inv in E1 as (y1 & r1 & F1 & E1).
  apply bind_inv in E1 as (y2 & r2 & F2 & E1).
  apply bind_inv in E as (x2 & s2 & E2 & E).
  apply bind_inv in E as (x3 & s3 & E3 & E).
  apply bind_inv in E as (x4 & s4 & E4 & E).
  apply bind_inv in E as (x5 & s5 & E5 & E).
  apply bind_inv in E as (x6 & s6 & E6 & E).
  apply bind_inv in E as (x7 & s7 & E7 & E).
  apply bind_inv in E as (x8 & s8 & E8 & E).
  apply bind_inv in E as (x9 & s9 & E9 & E).
  apply bind_inv in E as (x10 & s10 & E10 & E).
  apply bind_inv in E as (x11 & s11 & E11 & E).
  apply log_same_data in F1, F2, E3, E6, E7.
  apply ret_same_data in E1.
  apply gets_same_data in E4, E8, E10.
  apply port_set_trigger_time_same_data in E5.
  apply (for_loop_same_data clear_input_line _ clear_input_line_same_data) in E9.
  apply (for_loop_same_data clear_output_line _ clear_output_line_same_data) in E11.
  apply preload_data_same_data in E.
  assert (H2 : same_data s1 s2) by (injection E2 as _ <-; repeat split).
  repeat (eapply same_data_trans; [eassumption|]).
  apply same_data_refl.
Qed.

Lemma outer_test_roles (a : tdm_slave_loop_args_t) (st : machine App) :
  engine_inv a st ->
  (restart st = TDM_SHUTDOWN -> roles_split st) ->
  roles_split (snd (outer_test tdm_cbg st)).
Proof.
  intros Hinv H.
  destruct (outer_test_effect tdm_cbg a st Hinv)
    as [[R ->] | [_ (st' & E & -> & _)]]; cbn [snd].
  - exact (H R).
  - apply (init_until_frame_sync_data a st st' Hinv E).
Qed.

Lemma inner_test_roles (a : tdm_slave_loop_args_t) (st : machine App) :
  engine_inv a st -> roles_split st ->
  roles_split (snd (inner_test tdm_cbg st)).
Proof.
  intros Hinv H. unfold inner_test.
  destruct (restart st); [exact H | |]; apply (outer_test_roles a); auto.
Qed.

Lemma roles_same_pointers (st st' : machine App) :
  working_in_buffer (tdm_interrupt_data st') =
    working_in_buffer (tdm_interrupt_data st) ->
  working_out_buffer (tdm_interrupt_data st') =
    working_out_buffer (tdm_interrupt_data st) ->
  safe_in_buffer st' = safe_in_buffer st ->
  safe_out_buffer st' = safe_out_buffer st ->
  current_buf_no st' = current_buf_no st ->
  roles_split st -> roles_split st'.
Proof.
  intros WI WO SI SO N. unfold roles_split. rewrite WI, WO, SI, SO, N. auto.
Qed.

Lemma react_roles (a : tdm_slave_loop_args_t) (s : stimulus) (c : config) :
  num_out a <= TDM_MAX_PORTS ->
  config_inv a c -> roles_split (snd c) ->
  roles_split (snd (react tdm_cbg s c)).
Proof.
  intros Hn [Hl Hinv] H. destruct c as [k st]. cbn [fst snd] in *.
  destruct s as [t | din]; destruct k; cbn [react snd]; try exact H.
  - destruct (init_from_frame_sync_effect a st t Hinv Hn) as (st' & E & H' & _).
    rewrite E. cbn [resume]. apply (inner_test_roles a); [exact H'|].
    destruct (init_from_frame_sync_data st st' t E)
      as (WI & WO & SI & SO & N & _).
    apply (roles_same_pointers st st'); assumption.
  - destruct (frame_effect tdm_cbg a st t Hinv Hn) as (st' & E & H' & _).
    rewrite E. cbn [resume]. apply (inner_test_roles a); [exact H'|].
    apply (frame_data a st st' t Hinv Hn E).
  - destruct Hinv as (Ha & Hs & Hp).
    destruct (tdm_isr_effect din st) as (st' & -> & _ & _ & _ & D & SI & SO & _ & N & _);
      [apply Hp | apply Hp |].
    cbn [snd]. apply (roles_same_pointers st st'); try assumption; now rewrite D.
Qed.

Lemma run_roles (a : tdm_slave_loop_args_t) (sched : list stimulus) :
  num_out a <= TDM_MAX_PORTS ->
  forall c : config,
    config_inv a c -> roles_split (snd c) ->
    roles_split (snd (run tdm_cbg sched c)).
Proof.
  intros Hn. induction sched as [|s sched IH]; intros c Hc H; [exact H|].
  cbn [run fold_left]. apply IH.
  - apply react_inv; assumption.
  - apply (react_roles a); assumption.
Qed.

Lemma preconditions_num_out (n_out n_in n_chans : Z) :
  preconditions n_out n_in n_chans = true -> n_out <= TDM_MAX_PORTS.
Proof.
  unfold preconditions. intros H. apply andb_prop in H as [_ Ho].
  apply Z.leb_le. exact Ho.
Qed.

(** In every state of a run of [tdm_slave] under the asserted
    preconditions the roles of the buffers are split. *)
Lemma tdm_slave_run_roles (app : App) (n_out n_in n_chans n_bits : Z)
      (sched : list stimulus) :
  preconditions n_out n_in n_chans = true ->
  roles_split
    (snd (run tdm_cbg sched (tdm_slave tdm_cbg app n_out n_in n_chans n_bits))).
Proof.
  intros H.
  destruct (tdm_slave_started tdm_cbg app n_out n_in n_chans n_bits H)
    as (st0 & -> & Hinv & (R0 & _) & _).
  set (a := slave_args n_out n_in n_chans n_bits) in *.
  apply (run_roles a sched (preconditions_num_out _ _ _ H)).
  - apply outer_test_inv. exact Hinv.
  - apply (outer_test_roles a); [exact Hinv|].
    intros R. rewrite R0 in R. discriminate R.
Qed.

End DataPath.

Section Transport.

Context {App : Type}.

(** X4.  When there is an input line, the handler leaves in channels 0
    and 1 of line 0 of the working input buffer the two halves of the
    bit-reversed port word: the half received first in channel 0, the
    other in channel 1, each as a number between 0 and 65535.  The
    conversion to [int32_t] never makes them negative: the 16-bit
    samples arrive zero-extended, not sign-extended. *)
Theorem tdm_isr_stores_unsigned_halves (st : machine App) (din : Z -> Z) :
  pointers_ok st ->
  0 < num_in (args st) ->
  exists st',
    tdm_isr din st = Some (tt, st') /\
    working_in_buffer (tdm_interrupt_data st') =
      working_in_buffer (tdm_interrupt_data st) /\
    buffer_of st' (working_in_buffer (tdm_interrupt_data st')) 0 0 =
      bitrev (din 0) / 2 ^ 16 /\
    buffer_of st' (working_in_buffer (tdm_interrupt_data st')) 0 1 =
      bitrev (din 0) mod 2 ^ 16 /\
    0 <= buffer_of st' (working_in_buffer (tdm_interrupt_data st')) 0 0 < 2 ^ 16 /\
    0 <= buffer_of st' (working_in_buffer (tdm_interrupt_data st')) 0 1 < 2 ^ 16.
Proof.
  intros Hp Hn.
  destruct (tdm_isr_effect din st)
    as (st' & E & _ & _ & _ & D & _ & _ & _ & _ & _ & _ & _ & S);
    [apply Hp | apply Hp |].
  exists st'. split; [exact E|]. rewrite D. split; [reflexivity|].
  destruct Hp as (_ & _ & _ & _ & Bwi & _).
  unfold buffer_of. rewrite Bwi. cbn [double_buffer_of].
  rewrite !S. unfold isr_sample.
  rewrite (ltb_true 0) by exact Hn. rewrite !Z.eqb_refl.
  cbn [andb orb Z.eqb]. rewrite unpack16_halves. cbn [fst snd].
  pose proof (bitrev_high_half_range (din 0)) as H0.
  pose proof (low16_range (bitrev (din 0))) as H1.
  rewrite !to_int32_uint16 by assumption.
  auto.
Qed.

(** X14.  With no output line [preload_data] does nothing at all, and
    with no input line the handler reads no port and stores no sample,
    whatever the buffer pointers are; it still takes the trigger time,
    clears it and arms the trigger one frame later. *)
Theorem transport_without_lines (st : machine App) (din : Z -> Z) :
  (num_out (args st) <= 0 -> preload_data st = Some (tt, st)) /\
  (num_in (args st) <= 0 ->
   exists st',
     tdm_isr din st = Some (tt, st') /\
     in_s st' = in_s st /\ out_s st' = out_s st /\
     tdm_interrupt_data st' = tdm_interrupt_data st /\
     bclk_trigger_time st' = add32 (bclk_trigger_time st) (frame_len (args st)) /\
     trace st' =
       trace st ++
       [Ev_triggerable_disable_trigger p_bclk;
        Ev_port_get_trigger_time p_bclk (bclk_trigger_time st);
        Ev_port_clear_trigger_time p_bclk;
        Ev_port_set_trigger_time p_bclk
          (add32 (bclk_trigger_time st) (frame_len (args st)));
        Ev_triggerable_enable_trigger p_bclk]).
Proof.
  split.
  - intros H. unfold preload_data, bind, gets.
    replace (Z.to_nat (num_out (args st))) with O by lia.
    reflexivity.
  - intros H.
    unfold tdm_isr, port_get_trigger_time_bclk, port_set_trigger_time, log,
      bind, gets, modify, ret.
    cbn [tdm_interrupt_data set_trace args trace bclk_trigger_time].
    replace (Z.to_nat (num_in (args st))) with O by lia.
    cbn [for_loop]. unfold ret.
    eexists. split; [reflexivity|].
    cbn. rewrite <- !app_assoc. repeat split.
Qed.

(** X5.  [tdm_slave_init_ports] returns for any line counts and changes
    nothing but ports and clock: it makes the six calls that set up the
    clock block, the bit-clock port and the frame-sync port, then four
    calls for every output line in turn, the last of them the output of
    a zero word, then three calls for every input line in turn.  The
    only words output are the zero words, one per output line. *)
Theorem tdm_slave_init_ports_calls (n_out n_in : Z) (m : machine App) :
  tdm_slave_init_ports n_out n_in m =
    Some (tt, set_trace (trace m ++ init_ports_events n_out n_in) m) /\
  firstn 6 (init_ports_events n_out n_in) =
    [Ev_clock_enable; Ev_port_reset p_bclk; Ev_clock_set_source_port p_bclk;
     Ev_port_set_clock p_bclk; Ev_port_enable p_fsync; Ev_port_set_clock p_fsync] /\
  length (init_ports_events n_out n_in) =
    (6 + 4 * Z.to_nat n_out + 3 * Z.to_nat n_in)%nat /\
  filter is_port_out (init_ports_events n_out n_in) =
    map (fun l => Ev_port_out (p_dout l) 0) (zrange 0 (Z.to_nat n_out)).
Proof.
  split; [apply tdm_slave_init_ports_spec|].
  split; [reflexivity|].
  assert (Hlen : forall (g : Z -> list event) (k : nat) (n : nat) (i : Z),
    (forall l, length (g l) = k) ->
    length (flat_map g (zrange i n)) = (k * n)%nat).
  { intros g k n. induction n as [|n IH]; intros i Hg.
    - cbn. lia.
    - cbn [zrange flat_map]. rewrite length_app, Hg, IH by exact Hg. lia. }
  assert (Hout : forall (n : nat) (i : Z),
    filter is_port_out
      (flat_map (fun l => [Ev_port_start_buffered (p_dout l) 32;
                           Ev_port_set_clock (p_dout l);
                           Ev_port_clear_buffer (p_dout l);
                           Ev_port_out (p_dout l) 0]) (zrange i n)) =
    map (fun l => Ev_port_out (p_dout l) 0) (zrange i n)).
  { induction n as [|n IH]; intros i; [reflexivity|].
    cbn [zrange flat_map map]. rewrite filter_app, IH. reflexivity. }
  assert (Hin : forall (n : nat) (i : Z),
    filter is_port_out
      (flat_map (fun l => [Ev_port_start_buffered (p_din l) 32;
                           Ev_port_set_clock (p_din l);
                           Ev_port_clear_buffer (p_din l)]) (zrange i n)) = []).
  { induction n as [|n IH]; intros i; [reflexivity|].
    cbn [zrange flat_map]. rewrite filter_app, IH. reflexivity. }
  unfold init_ports_events. split.
  - rewrite !length_app.
    rewrite (Hlen _ 4%nat), (Hlen _ 3%nat) by reflexivity.
    cbn [length]. lia.
  - rewrite !filter_app, Hout, Hin, app_nil_r. reflexivity.
Qed.

End Transport.

Section DataFlow.

Context {App : Type}.
Variable tdm_cbg : tdm_callback_group_t App.

(** X6.  In every state of a run of [tdm_slave] under the asserted
    preconditions, from the first wait for frame sync on: the safe
    pointers, which the application is handed, address the buffers named
    by the selector, and the working pointers, which the handler and the
    preload use, address the other buffer of each pair.  The application
    and the transport never hold the same buffer. *)
Theorem working_and_safe_stay_apart (app : App) (n_out n_in n_chans n_bits : Z)
        (sched : list stimulus) :
  preconditions n_out n_in n_chans = true ->
  let st := snd (run tdm_cbg sched
                   (tdm_slave tdm_cbg app n_out n_in n_chans n_bits)) in
  selector_bit (current_buf_no st) /\
  working_in_buffer (tdm_interrupt_data st) =
    {| ptr_base := In_s; ptr_index := 1 - current_buf_no st |} /\
  working_out_buffer (tdm_interrupt_data st) =
    {| ptr_base := Out_s; ptr_index := 1 - current_buf_no st |} /\
  safe_in_buffer st = {| ptr_base := In_s; ptr_index := current_buf_no st |} /\
  safe_out_buffer st = {| ptr_base := Out_s; ptr_index := current_buf_no st |} /\
  working_in_buffer (tdm_interrupt_data st) <> safe_in_buffer st /\
  working_out_buffer (tdm_interrupt_data st) <> safe_out_buffer st.
Proof.
  intros H st.
  destruct (tdm_slave_run_inv tdm_cbg app n_out n_in n_chans n_bits sched H)
    as (_ & _ & Hs & _).
  destruct (tdm_slave_run_roles tdm_cbg app n_out n_in n_chans n_bits sched H)
    as (WI & WO & SI & SO).
  fold st in Hs, WI, WO, SI, SO.
  split; [exact Hs|]. rewrite WI, WO, SI, SO.
  repeat split; intros E; apply (f_equal ptr_index) in E;
    cbn [ptr_index] in E; lia.
Qed.

(** X7.  One round of the running loop, in a run of [tdm_slave]: at the
    frame-sync edge at port time [t] the engine calls [restart_check],
    then [process] with the sizes given to [tdm_slave] and the two safe
    buffers, commits, and preloads.  The buffers [process] was handed
    are the working buffers afterwards, and the words preloaded, one per
    output line, are packed from channels 0 and 1 of the samples
    [process] has just supplied, for the port time [t] plus the frame
    length plus the configured offset. *)
Theorem frame_sends_what_process_wrote (app : App) (n_out n_in n_chans n_bits : Z)
        (sched : list stimulus) (t : Z) :
  let c := run tdm_cbg sched (tdm_slave tdm_cbg app n_out n_in n_chans n_bits) in
  let st := snd c in
  let answer :=
    process tdm_cbg (fst (restart_check tdm_cbg (app_data st)))
      n_out n_in n_chans n_bits
      (buffer_of st (safe_in_buffer st)) (buffer_of st (safe_out_buffer st)) in
  let send := snd (snd answer) in
  fst c = WaitFrameSync ->
  exists st',
    frame tdm_cbg t st = Some (tt, st') /\
    app_data st' = fst answer /\
    working_in_buffer (tdm_interrupt_data st') = safe_in_buffer st /\
    working_out_buffer (tdm_interrupt_data st') = safe_out_buffer st /\
    buffer_of st' (working_in_buffer (tdm_interrupt_data st')) = fst (snd answer) /\
    buffer_of st' (working_out_buffer (tdm_interrupt_data st')) = send /\
    trace st' =
      trace st ++
      [Ev_port_in_when_pinseq p_fsync 1;
       Ev_port_get_trigger_time p_fsync t;
       Ev_restart_check (snd (restart_check tdm_cbg (app_data st)));
       Ev_process PerFrame (safe_in_buffer st) (safe_out_buffer st);
       Ev_commit_buffers] ++
      map (fun l =>
             Ev_port_out_at_time (p_dout l)
               (add32 (add32 t (mul32 n_chans n_bits)) (offset (tdm_config st)))
               (pack16 (send l 0) (send l 1)))
          (zrange 0 (Z.to_nat n_out)).
Proof.
  intros c st answer send Hc.
  destruct (waiting_inv tdm_cbg app n_out n_in n_chans n_bits sched (or_introl Hc))
    as [Hinv Ho].
  pose proof (waiting_offset tdm_cbg app n_out n_in n_chans n_bits sched
                (or_introl Hc)) as Hoff.
  assert (Hpre : preconditions n_out n_in n_chans = true).
  { destruct (preconditions n_out n_in n_chans) eqn:Hp; [reflexivity|].
    destruct (stopped_not_waiting tdm_cbg app n_out n_in n_chans n_bits sched Hp)
      as [E Ht].
    fold c in E. rewrite E, Ht in Hc. discriminate Hc. }
  pose proof (tdm_slave_run_roles tdm_cbg app n_out n_in n_chans n_bits sched Hpre)
    as (WI & WO & SI & SO).
  fold c in Hinv, Hoff, WI, WO, SI, SO. fold st in Hinv, Hoff, WI, WO, SI, SO.
  pose proof Hinv as ((A1 & A2 & A3 & A4 & A5) & Hs & Hp).
  cbn [slave_args num_out num_in num_chans num_data_bits frame_len] in A1, A2, A3, A4, A5.
  destruct (frame_effect tdm_cbg _ st t Hinv Ho)
    as (st' & E & (Ha' & _) & R & F & (O & C) & _ & T).
  destruct (frame_data tdm_cbg _ st st' t Hinv Ho E)
    as (_ & N' & WI' & WO' & P' & I' & O').
  unfold process_answer in P', I', O'. rewrite A1, A2, A3, A4 in P', I', O'.
  fold answer in P', I', O'.
  exists st'. split; [exact E|]. split; [exact P'|].
  rewrite WI', WO', SI, SO. split; [reflexivity|]. split; [reflexivity|].
  unfold buffer_of. cbn [ptr_base ptr_index double_buffer_of].
  rewrite I', O', SI, SO. cbn [ptr_index]. unfold update_double_buffer.
  rewrite Z.eqb_refl. split; [reflexivity|]. split; [reflexivity|].
  rewrite T. unfold frame_events. rewrite R, F.
  do 2 f_equal; [rewrite SI, SO; reflexivity|].
  unfold preload_events, preload_event, preload_time, buffer_of.
  destruct Ha' as (B1 & _ & _ & _ & B5).
  cbn [slave_args num_out frame_len] in B1, B5.
  rewrite B1, B5, F, O, Hoff, WO'.
  cbn [ptr_base ptr_index double_buffer_of]. rewrite O', SO.
  cbn [ptr_index]. unfold update_double_buffer.
  rewrite Z.eqb_refl. reflexivity.
Qed.

End DataFlow.

Section StartUp.

Context {App : Type}.
Variable tdm_cbg : tdm_callback_group_t App.


End StartUp.

Section Steady.

Context {App : Type}.
Variable tdm_cbg : tdm_callback_group_t App.

Lemma count_none (f : event -> bool) (d : list event) :
  forallb (fun e => negb (f e)) d = true -> count f d = O.
Proof.
  unfold count. induction d as [|e d IH]; [reflexivity|].
  cbn [forallb filter]. intros H. apply andb_prop in H as [He Hd].
  apply negb_true_iff in He. rewrite He. apply IH. exact Hd.
Qed.

Lemma preload_events_none (f : event -> bool) (st : machine App) :
  (forall p t w, f (Ev_port_out_at_time p t w) = false) ->
  count f (preload_events st) = O.
Proof.
  intros H. apply count_none. unfold preload_events. apply forallb_map.
  intros l. unfold preload_event. now rewrite H.
Qed.

(** What the test of the running loop does with the three values of
    [restart]. *)
Lemma inner_test_cases (a : tdm_slave_loop_args_t) (st : machine App) :
  engine_inv a st ->
  (restart st = TDM_NO_RESTART /\ inner_test tdm_cbg st = (WaitFrameSync, st)) \/
  (restart st = TDM_SHUTDOWN /\ inner_test tdm_cbg st = (Exited, st)) \/
  (restart st = TDM_RESTART /\
   exists st',
     init_until_frame_sync tdm_cbg st = Some (tt, st') /\
     inner_test tdm_cbg st = (WaitInitSync, st') /\
     engine_inv a st' /\
     restart st' = TDM_RESTART /\
     bclk_trigger_time st' = bclk_trigger_time st /\
     trace st' = trace st ++ init_events tdm_cbg st).
Proof.
  intros Hinv. unfold inner_test. destruct (restart st) eqn:R.
  - left. split; reflexivity.
  - right. right. split; [reflexivity|].
    destruct (outer_test_effect tdm_cbg a st Hinv)
      as [[R' _] | [_ (st' & E & O & H' & R' & B' & T')]].
    + rewrite R in R'. discriminate R'.
    + exists st'. rewrite R in R'. auto 10.
  - right. left. split; [reflexivity|]. unfold outer_test. rewrite R. reflexivity.
Qed.

Lemma inner_test_coherent (a : tdm_slave_loop_args_t) (st : machine App) :
  engine_inv a st -> coherent (inner_test tdm_cbg st).
Proof.
  intros Hinv.
  destruct (inner_test_cases a st Hinv)
    as [[R ->] | [[R ->] | [R (st' & _ & -> & _ & R' & _)]]];
    unfold coherent; cbn [fst snd]; try assumption.
  rewrite R'. discriminate.
Qed.

Lemma react_coherent (a : tdm_slave_loop_args_t) (s : stimulus) (c : config) :
  num_out a <= TDM_MAX_PORTS ->
  config_inv a c -> coherent c -> coherent (react tdm_cbg s c).
Proof.
  intros Hn [Hl Hinv] H. destruct c as [k st]. cbn [fst snd] in *.
  destruct s as [t | din]; destruct k; cbn [react]; try exact H.
  - destruct (init_from_frame_sync_effect a st t Hinv Hn) as (st' & -> & H' & _).
    cbn [resume]. apply (inner_test_coherent a). exact H'.
  - destruct (frame_effect tdm_cbg a st t Hinv Hn) as (st' & -> & H' & _).
    cbn [resume]. apply (inner_test_coherent a). exact H'.
  - destruct Hinv as (Ha & Hs & Hp).
    destruct (tdm_isr_effect din st) as (st' & -> & _ & _ & _ & _ & _ & _ & R & _);
      [apply Hp | apply Hp |].
    unfold coherent in *. cbn [fst snd] in *. rewrite R. exact H.
Qed.

Lemma add32_range (x y : Z) : 0 <= add32 x y < modulus.
Proof. unfold add32. apply Z.mod_pos_bound. unfold modulus. lia. Qed.

Lemma react_trigger_in_range (a : tdm_slave_loop_args_t) (s : stimulus)
      (c : config) :
  num_out a <= TDM_MAX_PORTS ->
  config_inv a c -> trigger_in_range c -> trigger_in_range (react tdm_cbg s c).
Proof.
  intros Hn [Hl Hinv] H. destruct c as [k st]. cbn [fst snd] in *.
  destruct s as [t | din]; destruct k; cbn [react]; try exact H.
  - destruct (init_from_frame_sync_effect a st t Hinv Hn)
      as (st' & -> & H' & _ & _ & _ & B & _).
    cbn [resume].
    destruct (inner_test_cases a st' H')
      as [[R ->] | [[R ->] | [R (st2 & _ & -> & _)]]];
      unfold trigger_in_range; cbn [fst snd]; try discriminate.
    intros _. rewrite B. apply add32_range.
  - destruct (frame_effect tdm_cbg a st t Hinv Hn)
      as (st' & -> & H' & _ & _ & _ & B & _).
    cbn [resume].
    destruct (inner_test_cases a st' H')
      as [[R ->] | [[R ->] | [R (st2 & _ & -> & _)]]];
      unfold trigger_in_range; cbn [fst snd]; try discriminate.
    intros _. rewrite B. apply H. reflexivity.
  - destruct Hinv as (Ha & Hs & Hp).
    destruct (tdm_isr_effect din st)
      as (st' & -> & _ & _ & _ & _ & _ & _ & _ & _ & _ & B & _);
      [apply Hp | apply Hp |].
    unfold trigger_in_range. cbn [fst snd]. intros _. rewrite B. apply add32_range.
Qed.

Lemma run_steady (a : tdm_slave_loop_args_t) (sched : list stimulus) :
  num_out a <= TDM_MAX_PORTS ->
  forall c : config,
    config_inv a c -> coherent c -> trigger_in_range c ->
    coherent (run tdm_cbg sched c) /\ trigger_in_range (run tdm_cbg sched c).
Proof.
  intros Hn. induction sched as [|s sched IH]; intros c Hc H1 H2; [split; assumption|].
  cbn [run fold_left]. apply IH.
  - apply react_inv; assumption.
  - apply (react_coherent a); assumption.
  - apply (react_trigger_in_range a); assumption.
Qed.

(** A run of [tdm_slave] that waits for frame sync started with the
    asserted preconditions. *)
Lemma waiting_preconditions (app : App) (n_out n_in n_chans n_bits : Z)
      (sched : list stimulus) :
  let c := run tdm_cbg sched (tdm_slave tdm_cbg app n_out n_in n_chans n_bits) in
  fst c = WaitFrameSync \/ fst c = WaitInitSync ->
  preconditions n_out n_in n_chans = true.
Proof.
  intros c Hc. destruct (preconditions n_out n_in n_chans) eqn:Hp; [reflexivity|].
  destruct (stopped_not_waiting tdm_cbg app n_out n_in n_chans n_bits sched Hp)
    as [E Ht].
  fold c in E. rewrite E, Ht in Hc. destruct Hc; discriminate.
Qed.

Lemma tdm_slave_run_steady (app : App) (n_out n_in n_chans n_bits : Z)
      (sched : list stimulus) :
  let c := run tdm_cbg sched (tdm_slave tdm_cbg app n_out n_in n_chans n_bits) in
  coherent c /\ trigger_in_range c.
Proof.
  intros c. subst c. destruct (preconditions n_out n_in n_chans) eqn:Hp.
  - destruct (tdm_slave_started tdm_cbg app n_out n_in n_chans n_bits Hp)
      as (st0 & -> & Hinv & (R0 & _) & _).
    set (a := slave_args n_out n_in n_chans n_bits) in *.
    apply (run_steady a sched (preconditions_num_out _ _ _ Hp)).
    + apply outer_test_inv. exact Hinv.
    + destruct (outer_test_effect tdm_cbg a st0 Hinv)
        as [[R _] | [_ (st' & _ & -> & _ & R' & _)]].
      * rewrite R0 in R. discriminate R.
      * unfold coherent. cbn [fst snd]. rewrite R', R0. discriminate.
    + destruct (outer_test_effect tdm_cbg a st0 Hinv)
        as [[R _] | [_ (st' & _ & -> & _)]].
      * rewrite R0 in R. discriminate R.
      * unfold trigger_in_range. cbn [fst]. discriminate.
  - destruct (stopped_not_waiting tdm_cbg app n_out n_in n_chans n_bits sched Hp)
      as [-> Ht].
    unfold coherent, trigger_in_range. rewrite Ht. split; [|discriminate].
    clear Ht. unfold preconditions in Hp. unfold tdm_slave, xassert.
    destruct (n_chans <=? TDM_MAX_CHANS); [|reflexivity].
    destruct (n_in <=? TDM_MAX_PORTS); [|reflexivity].
    destruct (n_out <=? TDM_MAX_PORTS); [discriminate Hp | reflexivity].
Qed.

End Steady.

Section Delivery.

Context {App : Type}.
Variable tdm_cbg : tdm_callback_group_t App.

(** X9.  The way of a received word to the application, in a run of
    [tdm_slave] with an input line.  The handler stores the two samples
    in the working input buffer.  The [process] call of the next round
    is handed the other buffer, the safe one, which the handler has not
    written.  The commit of that round makes the buffer the handler
    wrote the safe one: if the running loop goes on, the [process] call
    of the round after it is handed the two samples in channels 0 and 1
    of line 0, and everything else in that buffer as it was before the
    handler fired. *)
Theorem handler_samples_delivery (app : App) (n_out n_in n_chans n_bits : Z)
        (sched : list stimulus) (din : Z -> Z) (t : Z) :
  let c := run tdm_cbg sched (tdm_slave tdm_cbg app n_out n_in n_chans n_bits) in
  let c1 := react tdm_cbg (BclkTrigger din) c in
  let c2 := react tdm_cbg (FrameSync t) c1 in
  let filled := working_in_buffer (tdm_interrupt_data (snd c)) in
  fst c = WaitFrameSync ->
  0 < n_in ->
  fst c2 = WaitFrameSync ->
  (fst c1 = WaitFrameSync /\
   safe_in_buffer (snd c1) = safe_in_buffer (snd c) /\
   safe_in_buffer (snd c1) <> filled /\
   forall l ch,
     buffer_of (snd c1) (safe_in_buffer (snd c1)) l ch =
     buffer_of (snd c) (safe_in_buffer (snd c)) l ch) /\
  safe_in_buffer (snd c2) = filled /\
  buffer_of (snd c2) (safe_in_buffer (snd c2)) 0 0 = fst (unpack16 (din 0)) /\
  buffer_of (snd c2) (safe_in_buffer (snd c2)) 0 1 = snd (unpack16 (din 0)) /\
  (forall l ch,
     l <> 0 \/ (ch <> 0 /\ ch <> 1) ->
     buffer_of (snd c2) (safe_in_buffer (snd c2)) l ch =
     buffer_of (snd c) filled l ch).
Proof.
  intros c c1 c2 filled Hc Hin Hc2.
  destruct (waiting_inv tdm_cbg app n_out n_in n_chans n_bits sched (or_introl Hc))
    as [Hinv Ho].
  pose proof (waiting_preconditions tdm_cbg app n_out n_in n_chans n_bits sched
                (or_introl Hc)) as Hpre.
  pose proof (tdm_slave_run_roles tdm_cbg app n_out n_in n_chans n_bits sched Hpre)
    as (WI & WO & SI & SO).
  fold c in Hinv, WI, WO, SI, SO.
  subst filled c2 c1. destruct c as [k st]. cbn [fst snd] in *. subst k.
  pose proof Hinv as ((_ & A2 & _) & Hs & Hp).
  cbn [slave_args num_in] in A2.
  cbn [react] in *.
  destruct (tdm_isr_effect din st)
    as (st1 & E1 & A1 & C1 & O1 & D1 & SI1 & SO1 & R1 & N1 & P1 & B1 & T1 & S1);
    [apply Hp | apply Hp |].
  rewrite E1 in *. cbn [fst snd].
  assert (Hinv1 : engine_inv (slave_args n_out n_in n_chans n_bits) st1).
  { unfold engine_inv, args_fixed, pointers_ok. rewrite A1, D1, SI1, SO1, N1.
    exact Hinv. }
  cbn [react] in Hc2 |- *.
  destruct (frame_effect tdm_cbg _ st1 t Hinv1 Ho) as (st2 & E2 & Hinv2 & _).
  rewrite E2 in *. cbn [resume] in *.
  destruct (frame_data tdm_cbg _ st1 st2 t Hinv1 Ho E2)
    as ((_ & _ & SI2 & _) & N2 & _ & _ & _ & I2 & _).
  destruct (inner_test_cases tdm_cbg _ st2 Hinv2)
    as [[_ Hi] | [[_ Hi] | [_ (st3 & _ & Hi & _)]]];
    rewrite Hi in Hc2 |- *; cbn [fst snd] in *; try discriminate Hc2.
  assert (Hne : (1 - current_buf_no st =? current_buf_no st) = false)
    by (apply Z.eqb_neq; lia).
  assert (Hne' : (current_buf_no st =? 1 - current_buf_no st) = false)
    by (apply Z.eqb_neq; lia).
  split.
  { split; [reflexivity|]. split; [exact SI1|]. rewrite SI1, SI, WI. split.
    - intros E. apply (f_equal ptr_index) in E. cbn [ptr_index] in E. lia.
    - intros l ch. unfold buffer_of. cbn [ptr_base ptr_index double_buffer_of].
      rewrite S1. unfold isr_sample. rewrite WI. cbn [ptr_index].
      rewrite Hne', !andb_false_r. reflexivity. }
  rewrite SI2, N2, N1, WI.
  split; [reflexivity|].
  unfold buffer_of. cbn [ptr_base ptr_index double_buffer_of].
  rewrite I2, SI1, SI. cbn [ptr_index]. unfold update_double_buffer.
  rewrite Hne.
  pose proof (bitrev_high_half_range (din 0)) as H0.
  pose proof (low16_range (bitrev (din 0))) as H1.
  repeat split.
  - rewrite S1. unfold isr_sample. rewrite WI, A2. cbn [ptr_index].
    rewrite (ltb_true 0) by exact Hin. rewrite !Z.eqb_refl. cbn [andb orb].
    rewrite unpack16_halves. cbn [fst]. apply to_int32_uint16. exact H0.
  - rewrite S1. unfold isr_sample. rewrite WI, A2. cbn [ptr_index].
    rewrite (ltb_true 0) by exact Hin. rewrite !Z.eqb_refl.
    cbn [andb orb Z.eqb].
    rewrite unpack16_halves. cbn [snd]. apply to_int32_uint16. exact H1.
  - intros l ch H. rewrite S1. unfold isr_sample.
    destruct (0 <? num_in (args st)); [|reflexivity]. cbn [andb].
    destruct H as [H | [H0' H1']].
    + apply Z.eqb_neq in H. rewrite H, andb_false_r. reflexivity.
    + apply Z.eqb_neq in H0', H1'. rewrite H0', H1', andb_false_r. reflexivity.
Qed.


(** X15.  The buffers are recycled, never cleared or copied: after two
    rounds of the running loop with no handler firing in between, the
    two safe buffers are the ones [process] was handed in the first of
    the two rounds, and they hold exactly what [process] left in them
    then.  So [process] finds in the send buffer the samples it supplied
    two frames before. *)
Theorem process_buffers_come_back (app : App) (n_out n_in n_chans n_bits : Z)
        (sched : list stimulus) (t1 t2 : Z) :
  let c := run tdm_cbg sched (tdm_slave tdm_cbg app n_out n_in n_chans n_bits) in
  let c1 := react tdm_cbg (FrameSync t1) c in
  let c2 := react tdm_cbg (FrameSync t2) c1 in
  let answer :=
    process tdm_cbg (fst (restart_check tdm_cbg (app_data (snd c))))
      n_out n_in n_chans n_bits
      (buffer_of (snd c) (safe_in_buffer (snd c)))
      (buffer_of (snd c) (safe_out_buffer (snd c))) in
  fst c = WaitFrameSync ->
  fst c1 = WaitFrameSync ->
  fst c2 = WaitFrameSync ->
  safe_in_buffer (snd c1) <> safe_in_buffer (snd c) /\
  safe_out_buffer (snd c1) <> safe_out_buffer (snd c) /\
  safe_in_buffer (snd c2) = safe_in_buffer (snd c) /\
  safe_out_buffer (snd c2) = safe_out_buffer (snd c) /\
  buffer_of (snd c2) (safe_in_buffer (snd c2)) = fst (snd answer) /\
  buffer_of (snd c2) (safe_out_buffer (snd c2)) = snd (snd answer).
Proof.
  intros c c1 c2 answer Hc Hc1 Hc2.
  destruct (waiting_inv tdm_cbg app n_out n_in n_chans n_bits sched (or_introl Hc))
    as [Hinv Ho].
  pose proof (waiting_preconditions tdm_cbg app n_out n_in n_chans n_bits sched
                (or_introl Hc)) as Hpre.
  pose proof (tdm_slave_run_roles tdm_cbg app n_out n_in n_chans n_bits sched Hpre)
    as (WI & WO & SI & SO).
  fold c in Hinv, WI, WO, SI, SO.
  subst answer c2 c1. destruct c as [k st]. cbn [fst snd] in *. subst k.
  pose proof Hinv as ((A1 & A2 & A3 & A4 & _) & Hs & Hp).
  cbn [slave_args num_out num_in num_chans num_data_bits] in A1, A2, A3, A4.
  cbn [react] in *.
  destruct (frame_effect tdm_cbg _ st t1 Hinv Ho) as (st1 & E1 & Hinv1 & _).
  rewrite E1 in *. cbn [resume] in *.
  destruct (frame_data tdm_cbg _ st st1 t1 Hinv Ho E1)
    as ((_ & _ & SI1 & SO1) & N1 & _ & _ & _ & I1 & O1).
  unfold process_answer in I1, O1. rewrite A1, A2, A3, A4 in I1, O1.
  destruct (inner_test_cases tdm_cbg _ st1 Hinv1)
    as [[_ Hi] | [[_ Hi] | [_ (st3 & _ & Hi & _)]]];
    rewrite Hi in Hc1, Hc2 |- *; cbn [fst snd] in *; try discriminate Hc1.
  cbn [react] in *.
  destruct (frame_effect tdm_cbg _ st1 t2 Hinv1 Ho) as (st2 & E2 & Hinv2 & _).
  rewrite E2 in *. cbn [resume] in *.
  destruct (frame_data tdm_cbg _ st1 st2 t2 Hinv1 Ho E2)
    as ((_ & _ & SI2 & SO2) & N2 & _ & _ & _ & I2 & O2).
  destruct (inner_test_cases tdm_cbg _ st2 Hinv2)
    as [[_ Hi2] | [[_ Hi2] | [_ (st3 & _ & Hi2 & _)]]];
    rewrite Hi2 in Hc2 |- *; cbn [fst snd] in *; try discriminate Hc2.
  assert (Hback : current_buf_no st2 = current_buf_no st) by lia.
  assert (Hne : (current_buf_no st =? current_buf_no st1) = false)
    by (apply Z.eqb_neq; lia).
  rewrite SI2, SO2, Hback, SI1, SO1, SI, SO.
  split; [intros E; apply (f_equal ptr_index) in E; cbn [ptr_index] in E; lia|].
  split; [intros E; apply (f_equal ptr_index) in E; cbn [ptr_index] in E; lia|].
  split; [reflexivity|]. split; [reflexivity|].
  unfold buffer_of. cbn [ptr_base ptr_index double_buffer_of].
  rewrite I2, O2, SI1, SO1. cbn [ptr_index]. unfold update_double_buffer.
  rewrite Hne, I1, O1, SI, SO. cbn [ptr_index]. unfold update_double_buffer.
  rewrite Z.eqb_refl. split; reflexivity.
Qed.

End Delivery.

Section Segments.

Context {App : Type}.
Variable tdm_cbg : tdm_callback_group_t App.

Lemma count_all (f : event -> bool) (d : list event) :
  forallb f d = true -> count f d = length d.
Proof.
  unfold count. induction d as [|e d IH]; [reflexivity|].
  cbn [forallb filter]. intros H. apply andb_prop in H as [He Hd].
  rewrite He. cbn [length]. now rewrite IH.
Qed.

Lemma preload_events_length (st : machine App) :
  length (preload_events st) = Z.to_nat (num_out (args st)).
Proof. unfold preload_events. rewrite length_map. apply zrange_length. Qed.

(** The trace of a run is made of the stretches left by the four
    reactions of the engine; a property of stretches that holds of
    each of them and of concatenations holds of the whole. *)
Lemma run_segments (a : tdm_slave_loop_args_t) (P : list event -> Prop) :
  P [] ->
  (forall d1 d2, P d1 -> P d2 -> P (d1 ++ d2)) ->
  (forall st : machine App, engine_inv a st -> P (init_events tdm_cbg st)) ->
  (forall st : machine App, engine_inv a st -> P (arm_events st)) ->
  (forall st st' : machine App,
      engine_inv a st -> engine_inv a st' -> P (frame_events st st')) ->
  (forall din (st : machine App), engine_inv a st -> P (isr_events din st)) ->
  num_out a <= TDM_MAX_PORTS ->
  forall (sched : list stimulus) (c : config),
    config_inv a c ->
    exists d, trace (snd (run tdm_cbg sched c)) = trace (snd c) ++ d /\ P d.
Proof.
  intros Pnil Papp Pinit Parm Pframe Pisr Hn.
  assert (Hinner : forall st, engine_inv a st ->
    exists d, trace (snd (inner_test tdm_cbg st)) = trace st ++ d /\ P d).
  { intros st Hinv.
    destruct (inner_test_cases tdm_cbg a st Hinv)
      as [[_ ->] | [[_ ->] | [_ (st' & _ & -> & _ & _ & _ & T)]]]; cbn [snd].
    - exists []. split; [now rewrite app_nil_r | exact Pnil].
    - exists []. split; [now rewrite app_nil_r | exact Pnil].
    - exists (init_events tdm_cbg st). split; [exact T | apply Pinit; exact Hinv]. }
  assert (Hreact : forall s c, config_inv a c ->
    exists d, trace (snd (react tdm_cbg s c)) = trace (snd c) ++ d /\ P d).
  { intros s c [Hl Hinv]. destruct c as [k st]. cbn [fst snd] in *.
    assert (Hsame : exists d, trace st = trace st ++ d /\ P d)
      by (exists []; split; [now rewrite app_nil_r | exact Pnil]).
    destruct s as [t | din]; destruct k; cbn [react snd]; try exact Hsame.
    - destruct (init_from_frame_sync_effect a st t Hinv Hn)
        as (st' & -> & H & _ & _ & _ & _ & T).
      cbn [resume]. destruct (Hinner st' H) as (d & -> & Hd).
      exists (arm_events st' ++ d). rewrite T, <- app_assoc.
      split; [reflexivity | apply Papp; [apply Parm; exact H | exact Hd]].
    - destruct (frame_effect tdm_cbg a st t Hinv Hn)
        as (st' & -> & H & _ & _ & _ & _ & T).
      cbn [resume]. destruct (Hinner st' H) as (d & -> & Hd).
      exists (frame_events st st' ++ d). rewrite T, <- app_assoc.
      split; [reflexivity | apply Papp; [apply Pframe; assumption | exact Hd]].
    - pose proof Hinv as (Ha & Hs & Hp).
      destruct (tdm_isr_effect din st)
        as (st' & -> & _ & _ & _ & _ & _ & _ & _ & _ & _ & _ & T & _);
        [apply Hp | apply Hp |].
      cbn [snd]. exists (isr_events din st).
      split; [exact T | apply Pisr; exact Hinv]. }
  induction sched as [|s sched IH]; intros c Hc.
  - exists []. split; [cbn; now rewrite app_nil_r | exact Pnil].
  - cbn [run fold_left].
    destruct (Hreact s c Hc) as (d1 & T1 & P1).
    destruct (IH (react tdm_cbg s c) (react_inv tdm_cbg a s c Hn Hc))
      as (d2 & T2 & P2).
    exists (d1 ++ d2). unfold run in T2. rewrite T2, T1, <- app_assoc.
    split; [reflexivity | apply Papp; assumption].
Qed.

(** The same for a whole run of [tdm_slave], whose trace starts with
    the assertions and the calls of [tdm_slave_init_ports]. *)
Lemma tdm_slave_segments (P : list event -> Prop)
      (app : App) (n_out n_in n_chans n_bits : Z) (sched : list stimulus) :
  let a := slave_args n_out n_in n_chans n_bits in
  P [] ->
  (forall d1 d2, P d1 -> P d2 -> P (d1 ++ d2)) ->
  (forall e d, is_xassert e = true -> P d -> P (e :: d)) ->
  P (init_ports_events n_out n_in) ->
  (forall st : machine App, engine_inv a st -> P (init_events tdm_cbg st)) ->
  (forall st : machine App, engine_inv a st -> P (arm_events st)) ->
  (forall st st' : machine App,
      engine_inv a st -> engine_inv a st' -> P (frame_events st st')) ->
  (forall din (st : machine App), engine_inv a st -> P (isr_events din st)) ->
  P (trace (snd (run tdm_cbg sched
                   (tdm_slave tdm_cbg app n_out n_in n_chans n_bits)))).
Proof.
  intros a Pnil Papp Px Pports Pinit Parm Pframe Pisr.
  destruct (preconditions n_out n_in n_chans) eqn:Hp.
  - destruct (tdm_slave_started tdm_cbg app n_out n_in n_chans n_bits Hp)
      as (st0 & -> & Hinv & (R0 & _) & T0).
    fold a in Hinv.
    pose proof (preconditions_num_out _ _ _ Hp) as Ho.
    destruct (run_segments a P Pnil Papp Pinit Parm Pframe Pisr Ho sched
                (outer_test tdm_cbg st0) (outer_test_inv tdm_cbg a st0 Hinv))
      as (d & -> & Hd).
    destruct (outer_test_effect tdm_cbg a st0 Hinv)
      as [[R _] | [_ (st' & _ & -> & _ & _ & _ & T')]].
    + rewrite R0 in R. discriminate R.
    + cbn [snd]. rewrite T', T0. cbn [List.app].
      do 3 (apply Px; [reflexivity|]).
      apply Papp; [apply Papp; [exact Pports | apply Pinit; exact Hinv] | exact Hd].
  - destruct (stopped_not_waiting tdm_cbg app n_out n_in n_chans n_bits sched Hp)
      as [-> _].
    destruct (tdm_slave_trapped tdm_cbg app n_out n_in n_chans n_bits Hp)
      as (_ & Hx & _).
    induction (trace (snd (tdm_slave tdm_cbg app n_out n_in n_chans n_bits)))
      as [|e tr IH]; [exact Pnil|].
    cbn [forallb] in Hx. apply andb_prop in Hx as [He Ht].
    apply Px; [exact He | apply IH; exact Ht].
Qed.

End Segments.

Section Pace.

Context {App : Type}.
Variable tdm_cbg : tdm_callback_group_t App.

Lemma paced_nil (n_out : Z) : paced n_out [].
Proof. unfold paced, count. cbn. lia. Qed.

Lemma paced_app (n_out : Z) (d1 d2 : list event) :
  paced n_out d1 -> paced n_out d2 -> paced n_out (d1 ++ d2).
Proof.
  intros (A1 & B1 & C1) (A2 & B2 & C2). unfold paced.
  rewrite !count_app, A1, A2, B1, B2, C1, C2, Nat.mul_add_distr_l.
  repeat split; lia.
Qed.

Lemma paced_xassert (n_out : Z) (e : event) (d : list event) :
  is_xassert e = true -> paced n_out d -> paced n_out (e :: d).
Proof.
  intros He H. destruct e; try discriminate He. exact H.
Qed.

Lemma paced_none (n_out : Z) (d : list event) :
  forallb (fun e => negb (is_per_frame e || is_restart_check e || is_commit e ||
                          is_init e || is_port_out_at_time e ||
                          is_frame_sync_wait e)) d = true ->
  paced n_out d.
Proof.
  induction d as [|e d IH]; [intros _; apply paced_nil|].
  cbn [forallb]. intros H. apply andb_prop in H as [He Hd].
  specialize (IH Hd). apply negb_true_iff in He.
  repeat (apply orb_false_elim in He as [He ?]).
  destruct IH as (A & B & C). unfold paced, count in *. cbn [filter].
  rewrite He, H, H0, H1, H2, H3. auto.
Qed.

Lemma init_ports_events_paced (n_out n_in : Z) (k : Z) :
  paced k (init_ports_events n_out n_in).
Proof.
  apply paced_none. unfold init_ports_events. rewrite !forallb_app.
  rewrite !forallb_flat_map by reflexivity. reflexivity.
Qed.

Lemma init_events_paced (k : Z) (st : machine App) :
  paced k (init_events tdm_cbg st).
Proof.
  unfold init_events, paced, count.
  destruct (slave_bclk_polarity _); destruct (0 <? num_out (args st));
    cbn; repeat split; lia.
Qed.

Lemma isr_events_paced (k : Z) (din : Z -> Z) (st : machine App) :
  paced k (isr_events din st).
Proof.
  apply paced_none. unfold isr_events. now destruct (0 <? num_in (args st)).
Qed.

Lemma preload_events_paced_count (st : machine App) :
  count is_per_frame (preload_events st) = O /\
  count is_restart_check (preload_events st) = O /\
  count is_commit (preload_events st) = O /\
  count is_init (preload_events st) = O /\
  count is_frame_sync_wait (preload_events st) = O /\
  count is_port_out_at_time (preload_events st) = Z.to_nat (num_out (args st)).
Proof.
  repeat split; try (apply preload_events_none; reflexivity).
  rewrite count_all; [apply preload_events_length|].
  unfold preload_events. apply forallb_map. reflexivity.
Qed.

Lemma count_flat_map_none {A : Type} (f : event -> bool) (g : A -> list event)
      (l : list A) :
  (forall x, forallb (fun e => negb (f e)) (g x) = true) ->
  count f (flat_map g l) = O.
Proof. intros H. apply count_none. apply forallb_flat_map. exact H. Qed.

Lemma arm_events_paced (st : machine App) :
  paced (num_out (args st)) (arm_events st).
Proof.
  destruct (preload_events_paced_count st) as (A & B & C & D & E & F).
  unfold arm_events, paced.
  rewrite !count_app, A, B, C, D, E, F.
  rewrite !count_flat_map_none by reflexivity.
  unfold count. cbn [filter length is_per_frame is_restart_check is_commit is_init
                     is_port_out_at_time is_frame_sync_wait].
  repeat split; lia.
Qed.

Lemma frame_events_paced (st st' : machine App) :
  paced (num_out (args st')) (frame_events st st').
Proof.
  destruct (preload_events_paced_count st') as (A & B & C & D & E & F).
  unfold frame_events, paced.
  rewrite !count_app, A, B, C, D, E, F.
  unfold count. cbn [filter length is_per_frame is_restart_check is_commit is_init
                     is_port_out_at_time is_frame_sync_wait].
  repeat split; lia.
Qed.

End Pace.

Section PaceOfRuns.

Context {App : Type}.
Variable tdm_cbg : tdm_callback_group_t App.

(** X13.  In every run of [tdm_slave]: [process] is called from the
    running loop exactly as often as [restart_check], once per frame and
    also in the frame in which [restart_check] asks for a restart or a
    shutdown; the buffers are committed once for every [init] call and
    once for every [restart_check] call; and every wait for frame sync
    the engine has come out of has been followed by one preloaded word
    per output line. *)
Theorem calls_per_frame (app : App) (n_out n_in n_chans n_bits : Z)
        (sched : list stimulus) :
  let tr := trace (snd (run tdm_cbg sched
                          (tdm_slave tdm_cbg app n_out n_in n_chans n_bits))) in
  count is_per_frame tr = count is_restart_check tr /\
  count is_commit tr = (count is_init tr + count is_restart_check tr)%nat /\
  count is_port_out_at_time tr =
    (Z.to_nat n_out * count is_frame_sync_wait tr)%nat.
Proof.
  intros tr. subst tr.
  apply (tdm_slave_segments tdm_cbg (paced n_out)).
  - apply paced_nil.
  - apply paced_app.
  - apply paced_xassert.
  - apply init_ports_events_paced.
  - intros st _. apply init_events_paced.
  - intros st ((H & _) & _). cbn [slave_args num_out] in H. rewrite <- H.
    apply arm_events_paced.
  - intros st st' _ ((H & _) & _). cbn [slave_args num_out] in H. rewrite <- H.
    apply frame_events_paced.
  - intros din st _. apply isr_events_paced.
Qed.

End PaceOfRuns.

Section Restart.

Context {App : Type}.
Variable tdm_cbg : tdm_callback_group_t App.

Lemma arm_events_counts (st : machine App) :
  count is_restart_check (arm_events st) = O /\
  count is_per_frame (arm_events st) = O /\
  count is_init (arm_events st) = O.
Proof.
  destruct (preload_events_paced_count st) as (A & B & _ & D & _).
  unfold arm_events. rewrite !count_app, A, B, D.
  rewrite !count_flat_map_none by reflexivity.
  repeat split.
Qed.

Lemma init_events_counts (st : machine App) :
  count is_restart_check (init_events tdm_cbg st) = O /\
  count is_per_frame (init_events tdm_cbg st) = O /\
  count is_init (init_events tdm_cbg st) = 1%nat.
Proof.
  unfold init_events, count.
  destruct (slave_bclk_polarity _); destruct (0 <? num_out (args st));
    repeat split.
Qed.

Lemma restarting_step (a : tdm_slave_loop_args_t) (s : stimulus) (c : config) :
  num_out a <= TDM_MAX_PORTS ->
  config_inv a c ->
  fst c = WaitInitSync ->
  restart (snd c) = TDM_RESTART ->
  fst (react tdm_cbg s c) = WaitInitSync /\
  restart (snd (react tdm_cbg s c)) = TDM_RESTART /\
  count is_restart_check (trace (snd (react tdm_cbg s c))) =
    count is_restart_check (trace (snd c)) /\
  count is_per_frame (trace (snd (react tdm_cbg s c))) =
    count is_per_frame (trace (snd c)) /\
  count is_init (trace (snd (react tdm_cbg s c))) =
    (count is_init (trace (snd c)) + if is_frame_sync s then 1 else 0)%nat.
Proof.
  intros Hn [_ Hinv] Hk Hr. destruct c as [k st]. cbn [fst snd] in Hinv, Hk, Hr.
  subst k. cbn [snd]. destruct s as [t | din]; cbn [react is_frame_sync].
  - destruct (init_from_frame_sync_effect a st t Hinv Hn)
      as (st1 & -> & Hinv1 & R1 & _ & _ & _ & T1).
    cbn [resume].
    destruct (inner_test_cases tdm_cbg a st1 Hinv1)
      as [[R _] | [[R _] | [_ (st2 & _ & -> & _ & R2 & _ & T2)]]];
      try (rewrite R1, Hr in R; discriminate R).
    cbn [fst snd]. rewrite T2, T1, !count_app.
    destruct (arm_events_counts st1) as (-> & -> & ->).
    destruct (init_events_counts st1) as (-> & -> & ->).
    repeat split; try assumption; lia.
  - cbn [fst snd]. repeat split; try assumption; lia.
Qed.

(** Once [restart] holds [TDM_RESTART] the engine stays in the body of
    the outer loop. *)
Lemma restarting_stays (a : tdm_slave_loop_args_t) (later : list stimulus) :
  num_out a <= TDM_MAX_PORTS ->
  forall c : config,
    config_inv a c ->
    fst c = WaitInitSync ->
    restart (snd c) = TDM_RESTART ->
    fst (run tdm_cbg later c) = WaitInitSync /\
    restart (snd (run tdm_cbg later c)) = TDM_RESTART /\
    count is_restart_check (trace (snd (run tdm_cbg later c))) =
      count is_restart_check (trace (snd c)) /\
    count is_per_frame (trace (snd (run tdm_cbg later c))) =
      count is_per_frame (trace (snd c)) /\
    count is_init (trace (snd (run tdm_cbg later c))) =
      (count is_init (trace (snd c)) + length (filter is_frame_sync later))%nat.
Proof.
  intros Hn. induction later as [|s later IH]; intros c Hc Hk Hr.
  - cbn [run fold_left filter length]. rewrite Nat.add_0_r. auto.
  - destruct (restarting_step a s c Hn Hc Hk Hr) as (K1 & R1 & X1 & Y1 & Z1).
    destruct (IH (react tdm_cbg s c) (react_inv tdm_cbg a s c Hn Hc) K1 R1)
      as (K & R & X & Y & Z).
    change (run tdm_cbg (s :: later) c) with (run tdm_cbg later (react tdm_cbg s c)).
    split; [exact K|]. split; [exact R|].
    rewrite X, Y, Z, X1, Y1, Z1. split; [reflexivity|]. split; [reflexivity|].
    cbn [filter]. destruct (is_frame_sync s); cbn [length]; lia.
Qed.

(** A run of [tdm_slave] is never lost to an out-of-bounds access. *)
Lemma run_never_faulted (app : App) (n_out n_in n_chans n_bits : Z)
      (sched : list stimulus) :
  fst (run tdm_cbg sched (tdm_slave tdm_cbg app n_out n_in n_chans n_bits)) <>
  Faulted.
Proof.
  destruct (preconditions n_out n_in n_chans) eqn:Hp.
  - destruct (tdm_slave_run_inv tdm_cbg app n_out n_in n_chans n_bits sched Hp)
      as [[H | [H | H]] _]; rewrite H; discriminate.
  - destruct (stopped_not_waiting tdm_cbg app n_out n_in n_chans n_bits sched Hp)
      as [-> ->].
    discriminate.
Qed.

(** X10.  When [restart_check] asks for a restart at a frame of a run
    of [tdm_slave], the round of that frame is completed first, with its
    [process] call, its commit and its preload; then the body of the
    outer loop runs again at once: interrupts are masked, [init] is
    called, and it is handed the configuration the previous [init] call
    left, not a zeroed one; the polarity and the offset are taken from
    its answer; [process] is called for priming when there is an output
    line; the buffers are committed a second time, so the selector is
    back at its value; and the engine waits for a frame-sync edge with
    [restart] still [TDM_RESTART]. *)
Theorem restart_runs_init_again (app : App) (n_out n_in n_chans n_bits : Z)
        (sched : list stimulus) (t : Z) :
  let c := run tdm_cbg sched (tdm_slave tdm_cbg app n_out n_in n_chans n_bits) in
  let st := snd c in
  fst c = WaitFrameSync ->
  snd (restart_check tdm_cbg (app_data st)) = TDM_RESTART ->
  exists st1 st2,
    frame tdm_cbg t st = Some (tt, st1) /\
    init_until_frame_sync tdm_cbg st1 = Some (tt, st2) /\
    react tdm_cbg (FrameSync t) c = (WaitInitSync, st2) /\
    restart st2 = TDM_RESTART /\
    tdm_config st2 = snd (init tdm_cbg (app_data st1) (tdm_config st)) /\
    num_bclk_cycles_offset (args st2) = offset (tdm_config st2) /\
    current_buf_no st2 = current_buf_no st /\
    bclk_trigger_time st2 = bclk_trigger_time st /\
    trace st2 =
      trace st ++
      [Ev_port_in_when_pinseq p_fsync 1;
       Ev_port_get_trigger_time p_fsync t;
       Ev_restart_check TDM_RESTART;
       Ev_process PerFrame (safe_in_buffer st) (safe_out_buffer st);
       Ev_commit_buffers] ++
      preload_events st1 ++
      [Ev_interrupt_mask_all; Ev_init;
       match slave_bclk_polarity (tdm_config st2) with
       | TDM_SLAVE_SAMPLE_ON_BCLK_FALLING => Ev_port_set_invert p_bclk
       | TDM_SLAVE_SAMPLE_ON_BCLK_RISING => Ev_port_set_no_invert p_bclk
       end] ++
      (if 0 <? n_out
       then [Ev_process Priming (safe_in_buffer st1) (safe_out_buffer st1)]
       else []) ++
      [Ev_commit_buffers; Ev_port_clear_buffer p_fsync; Ev_clock_start].
Proof.
  intros c st Hc Hr.
  destruct (waiting_inv tdm_cbg app n_out n_in n_chans n_bits sched (or_introl Hc))
    as [Hinv Ho].
  fold c in Hinv. fold st in Hinv.
  destruct (frame_effect tdm_cbg _ st t Hinv Ho)
    as (st1 & E1 & Hinv1 & R1 & F1 & (O1 & C1) & B1 & T1).
  destruct (frame_data tdm_cbg _ st st1 t Hinv Ho E1) as (_ & N1 & _).
  rewrite Hr in R1.
  destruct (init_until_frame_sync_effect tdm_cbg _ st1 Hinv1)
    as (st2 & E2 & Hinv2 & R2 & B2 & (O2 & C2) & T2).
  destruct (init_until_frame_sync_data tdm_cbg _ st1 st2 Hinv1 E2)
    as (_ & N2 & _).
  exists st1, st2. split; [exact E1|]. split; [exact E2|].
  split.
  { replace c with (WaitFrameSync, st)
      by (subst st; rewrite <- Hc; symmetry; apply surjective_pairing).
    cbn [react]. rewrite E1. cbn [resume]. unfold inner_test, outer_test.
    rewrite R1, E2. reflexivity. }
  split; [rewrite R2; exact R1|].
  split; [rewrite C2, C1; reflexivity|].
  split; [rewrite O2, C2; reflexivity|].
  split; [rewrite N2, N1; lia|].
  split; [rewrite B2; exact B1|].
  rewrite T2, T1. unfold frame_events, init_events. rewrite R1, F1, C2, C1.
  destruct Hinv1 as ((A1 & _) & _). cbn [slave_args num_out] in A1. rewrite A1.
  rewrite <- !app_assoc. reflexivity.
Qed.

(** X11.  A restart request is never taken back: [restart] is written
    nowhere but in the running loop, so once it holds [TDM_RESTART] in a
    run of [tdm_slave] the test of the running loop fails for good.
    Whatever the environment does afterwards, the engine is in the body
    of the outer loop waiting for a frame-sync edge, [restart_check] and
    the per-frame [process] call are never made again, so the
    application cannot ask for a shutdown any more, and every further
    frame-sync edge ends in one more [init] call. *)
Theorem restart_is_never_left (app : App) (n_out n_in n_chans n_bits : Z)
        (sched later : list stimulus) :
  let c := run tdm_cbg sched (tdm_slave tdm_cbg app n_out n_in n_chans n_bits) in
  let c' := run tdm_cbg later c in
  restart (snd c) = TDM_RESTART ->
  fst c = WaitInitSync /\
  fst c' = WaitInitSync /\
  restart (snd c') = TDM_RESTART /\
  count is_restart_check (trace (snd c')) = count is_restart_check (trace (snd c)) /\
  count is_per_frame (trace (snd c')) = count is_per_frame (trace (snd c)) /\
  count is_init (trace (snd c')) =
    (count is_init (trace (snd c)) + length (filter is_frame_sync later))%nat.
Proof.
  intros c c' Hr.
  destruct (tdm_slave_run_steady tdm_cbg app n_out n_in n_chans n_bits sched)
    as [Hco _].
  fold c in Hco.
  assert (Hk : fst c = WaitInitSync).
  { pose proof (run_never_faulted app n_out n_in n_chans n_bits sched) as Hf.
    fold c in Hf. unfold coherent in Hco.
    destruct (fst c); try reflexivity;
      try (rewrite Hr in Hco; discriminate Hco).
    exfalso. apply Hf. reflexivity. }
  split; [exact Hk|].
  pose proof (waiting_preconditions tdm_cbg app n_out n_in n_chans n_bits sched
                (or_intror Hk)) as Hp.
  apply (restarting_stays (slave_args n_out n_in n_chans n_bits) later
           (preconditions_num_out _ _ _ Hp) c).
  - apply (tdm_slave_run_inv tdm_cbg app n_out n_in n_chans n_bits sched Hp).
  - exact Hk.
  - exact Hr.
Qed.

End Restart.

Section Schedule.

Context {App : Type}.
Variable tdm_cbg : tdm_callback_group_t App.

Lemma add32_step (x len k : Z) :
  (add32 x len + k * len) mod modulus = (x + (k + 1) * len) mod modulus.
Proof.
  unfold add32. rewrite Zplus_mod_idemp_l. f_equal. lia.
Qed.

(** While the engine stays in the running loop, the trigger time held
    by the bit-clock port moves by one frame length for every firing of
    the handler and by nothing else. *)
Lemma run_in_running_loop (a : tdm_slave_loop_args_t) (more : list stimulus) :
  num_out a <= TDM_MAX_PORTS ->
  forall c : config,
    config_inv a c ->
    fst c = WaitFrameSync ->
    fst (run tdm_cbg more c) = WaitFrameSync ->
    0 <= bclk_trigger_time (snd c) < modulus ->
    bclk_trigger_time (snd (run tdm_cbg more c)) =
    (bclk_trigger_time (snd c) +
     Z.of_nat (length (filter is_bclk_trigger more)) * frame_len a) mod modulus.
Proof.
  intros Hn. induction more as [|s more IH]; intros c Hc Hk Hk' Hb.
  - cbn. rewrite Z.add_0_r. symmetry. apply Z.mod_small. exact Hb.
  - cbn [run fold_left] in *.
    pose proof (react_inv tdm_cbg a s c Hn Hc) as Hc1.
    destruct c as [k st]. cbn [fst snd] in *. subst k.
    destruct Hc as [_ Hinv]. cbn [snd] in Hinv.
    destruct s as [t | din].
    + cbn [react filter is_bclk_trigger] in *.
      destruct (frame_effect tdm_cbg a st t Hinv Hn)
        as (st1 & E1 & Hinv1 & _ & _ & _ & B1 & _).
      rewrite E1 in *. cbn [resume] in *.
      destruct (inner_test_cases tdm_cbg a st1 Hinv1)
        as [[_ Hi] | [[_ Hi] | [_ (st2 & _ & Hi & _ & R2 & _)]]];
        rewrite Hi in *.
      * fold (run tdm_cbg more (WaitFrameSync, st1)) in Hk' |- *.
        rewrite (IH (WaitFrameSync, st1) Hc1 eq_refl Hk');
          cbn [snd]; rewrite B1; [reflexivity | exact Hb].
      * exfalso.
        fold (run tdm_cbg more (Exited, st1)) in Hk'.
        rewrite (run_stopped tdm_cbg more (Exited, st1)) in Hk'
          by (right; left; reflexivity).
        discriminate Hk'.
      * exfalso.
        destruct (restarting_stays tdm_cbg a more Hn (WaitInitSync, st2) Hc1
                    eq_refl R2) as (K & _).
        unfold run in K. rewrite K in Hk'. discriminate Hk'.
    + cbn [react filter is_bclk_trigger length] in *.
      pose proof Hinv as ((_ & _ & _ & _ & A5) & Hs & Hp).
      destruct (tdm_isr_effect din st)
        as (st1 & E1 & _ & _ & _ & _ & _ & _ & _ & _ & _ & B1 & _);
        [apply Hp | apply Hp |].
      rewrite E1 in *.
      fold (run tdm_cbg more (WaitFrameSync, st1)) in Hk' |- *.
      rewrite (IH (WaitFrameSync, st1) Hc1 eq_refl Hk');
        cbn [snd]; rewrite B1; [|apply add32_range].
      rewrite A5, add32_step. f_equal. lia.
Qed.

(** X12.  In a run of [tdm_slave], between two moments at which the
    engine waits in the running loop, the trigger time of the handler
    has moved by one frame length, [num_chans * num_data_bits], for
    every firing of the handler in between, on the 32-bit port clock,
    whatever the number and the times of the frame-sync edges in
    between: once armed, the handler reschedules itself from its own
    trigger time and is never set again from a frame-sync time. *)
Theorem handler_schedule_free_running (app : App) (n_out n_in n_chans n_bits : Z)
        (sched more : list stimulus) :
  let c := run tdm_cbg sched (tdm_slave tdm_cbg app n_out n_in n_chans n_bits) in
  let c' := run tdm_cbg more c in
  fst c = WaitFrameSync ->
  fst c' = WaitFrameSync ->
  0 <= bclk_trigger_time (snd c) < modulus /\
  bclk_trigger_time (snd c') =
    (bclk_trigger_time (snd c) +
     Z.of_nat (length (filter is_bclk_trigger more)) * (n_chans * n_bits))
    mod modulus.
Proof.
  intros c c' Hc Hc'.
  destruct (tdm_slave_run_steady tdm_cbg app n_out n_in n_chans n_bits sched)
    as [_ Hb].
  fold c in Hb. specialize (Hb Hc).
  pose proof (waiting_preconditions tdm_cbg app n_out n_in n_chans n_bits sched
                (or_introl Hc)) as Hp.
  split; [exact Hb|]. subst c'.
  rewrite (run_in_running_loop (slave_args n_out n_in n_chans n_bits) more
             (preconditions_num_out _ _ _ Hp) c
             (tdm_slave_run_inv tdm_cbg app n_out n_in n_chans n_bits sched Hp)
             Hc Hc' Hb).
  cbn [slave_args frame_len]. unfold mul32.
  rewrite <- Zplus_mod_idemp_r, Zmult_mod_idemp_r, Zplus_mod_idemp_r.
  reflexivity.
Qed.

End Schedule.

Section TestAppFacts.

Import TestApp.

Ltac zbool :=
  repeat match goal with
         | |- context [?a <=? ?b] =>
             let E := fresh "E" in
             destruct (a <=? b) eqn:E;
             [apply Z.leb_le in E | apply Z.leb_gt in E]; cbn [andb]
         | |- context [?a <? ?b] =>
             let E := fresh "E" in
             destruct (a <? b) eqn:E;
             [apply Z.ltb_lt in E | apply Z.ltb_ge in E]; cbn [andb]
         | |- context [?a =? ?b] =>
             let E := fresh "E" in
             destruct (a =? b) eqn:E;
             [apply Z.eqb_eq in E | apply Z.eqb_neq in E]; cbn [andb]
         end;
  try reflexivity; try (exfalso; lia).

Lemma copy_words_spec (n : nat) :
  forall (k : Z) (src dst : Z -> Z) (j : Z),
    copy_words n k src dst j =
    if (k <=? j) && (j <? k + Z.of_nat n) then src j else dst j.
Proof.
  induction n as [|n IH]; intros k src dst j.
  - cbn [copy_words]. zbool.
  - cbn [copy_words]. rewrite IH. zbool. subst j. reflexivity.
Qed.

Lemma pattern_sample (j : Z) :
  to_int32 (if j mod 2 =? 0 then 0x12345678 else 0x89ABCDEF) = pattern j.
Proof. unfold pattern. destruct (j mod 2 =? 0); reflexivity. Qed.

Lemma fill_channels_spec (n : nat) :
  forall (j : Z) (row : Z -> Z) (k : Z),
    fill_channels n j row k =
    if (j <=? k) && (k <? j + Z.of_nat n) then pattern k else row k.
Proof.
  induction n as [|n IH]; intros j row k.
  - cbn [fill_channels]. zbool.
  - cbn [fill_channels]. rewrite IH, pattern_sample. zbool. subst k. reflexivity.
Qed.

Lemma fill_frames_spec (n : nat) :
  forall (i : Z) (d : Z -> Z -> Z) (r k : Z),
    fill_frames n i d r k =
    if (i - 1 <=? r) && (r <? i - 1 + Z.of_nat n) && (0 <=? k) && (k <? TEST_NUM_CH)
    then pattern k else d r k.
Proof.
  induction n as [|n IH]; intros i d r k.
  - cbn [fill_frames]. zbool.
  - cbn [fill_frames]. rewrite IH. cbv beta.
    destruct (r =? i - 1) eqn:Er;
      [apply Z.eqb_eq in Er; rewrite fill_channels_spec;
       change (0 + Z.of_nat (Z.to_nat TEST_NUM_CH)) with TEST_NUM_CH
      |apply Z.eqb_neq in Er];
      zbool.
Qed.

End TestAppFacts.

Section TestAppProperties.

Import TestApp.

(** X16.  [tdm_init] of the test.  Called when [cnt] is above zero it
    prints and leaves the program with status 1, before it touches the
    test data.  Otherwise it returns with the offset [TX_OFFSET] and the
    rising-edge polarity in the configuration, the clock ratio as it
    found it, every channel of every frame of [test_data] set to
    0x12345678 (even channels) or 0x89ABCDEF as an [int32_t] (odd
    channels), [cnt] and [rx_data] as they were, and the offset sent to
    the tester on the setup ports. *)
Theorem tdm_init_fills_test_data (TX_OFFSET : Z) (g : globals) (cfg : tdm_config_t) :
  if 0 <? cnt g
  then
    tdm_init TX_OFFSET g cfg =
    Exits 1 (io_call (Io_printf_restart (cnt g)) (io_call Io_printf_tdm_init g))
  else
    exists g',
      tdm_init TX_OFFSET g cfg =
      Returns {| mclk_bclk_ratio := mclk_bclk_ratio cfg;
                 slave_bclk_polarity := TDM_SLAVE_SAMPLE_ON_BCLK_RISING;
                 offset := to_uint32 TX_OFFSET |} g' /\
      cnt g' = cnt g /\
      rx_data g' = rx_data g /\
      (forall i j,
          test_data g' i j =
          if frame_ok i && (0 <=? j) && (j <? TEST_NUM_CH)
          then pattern j else test_data g i j) /\
      io_log g' =
        io_log g ++
        [Io_printf_tdm_init;
         Io_port_out setup_strobe_port 0;
         Io_port_out setup_data_port (to_uint32 TX_OFFSET);
         Io_syncr setup_data_port;
         Io_port_out setup_strobe_port 1;
         Io_port_out setup_strobe_port 0;
         Io_syncr setup_data_port].
Proof.
  unfold tdm_init. cbn [cnt io_call].
  destruct (0 <? cnt g); [reflexivity|].
  eexists. split; [reflexivity|].
  cbn [cnt rx_data test_data io_log broadcast_settings send_data_to_tester
       io_call set_test_data].
  split; [reflexivity|]. split; [reflexivity|]. split.
  - intros i j. rewrite fill_frames_spec. unfold frame_ok.
    change (1 - 1 + Z.of_nat (Z.to_nat TEST_FRAME_COUNT)) with TEST_FRAME_COUNT.
    change (1 - 1) with 0. reflexivity.
  - rewrite <- !app_assoc. reflexivity.
Qed.

(** X17.  [tdm_process] of the test, called while [cnt] names a frame
    of the test data and with at most 16 channels: it returns; the first
    [num_chans] channels of line 0 of the send buffer are those of frame
    [cnt] of [test_data] and the rest of the send buffer is as it was;
    the first [num_chans] channels of frame [cnt] of [rx_data] are those
    of line 0 of the receive buffer; the receive buffer, [cnt] and
    [test_data] are unchanged.  With [cnt] outside the frames of the
    arrays the call indexes them out of bounds. *)
Theorem tdm_process_copies_frame (g : globals)
        (num_out num_in num_chans num_data_bits : Z)
        (receive_samples send_samples : tdm_sample_buffer_t) :
  0 <= num_chans <= TDM_MAX_CHANS ->
  (0 <= cnt g < TEST_FRAME_COUNT ->
   exists send' g',
     tdm_process g num_out num_in num_chans num_data_bits
       receive_samples send_samples = Returns (receive_samples, send') g' /\
     (forall l c,
         send' l c =
         if (l =? 0) && (0 <=? c) && (c <? num_chans)
         then test_data g (cnt g) c else send_samples l c) /\
     (forall i j,
         rx_data g' i j =
         if (i =? cnt g) && (0 <=? j) && (j <? num_chans)
         then receive_samples 0 j else rx_data g i j) /\
     cnt g' = cnt g /\ test_data g' = test_data g /\ io_log g' = io_log g) /\
  (cnt g < 0 \/ TEST_FRAME_COUNT <= cnt g ->
   tdm_process g num_out num_in num_chans num_data_bits
     receive_samples send_samples = Undefined).
Proof.
  intros Hn.
  assert (Hw : mul32 num_chans 4 / 4 = num_chans).
  { unfold mul32, modulus, TDM_MAX_CHANS in *.
    rewrite Z.mod_small by lia. apply Z.div_mul. lia. }
  unfold tdm_process. rewrite Hw. split.
  - intros Hc.
    replace (frame_ok (cnt g)) with true
      by (symmetry; unfold frame_ok; apply andb_true_intro;
          split; [apply Z.leb_le | apply Z.ltb_lt]; lia).
    replace (num_chans <=? TEST_NUM_CH) with true
      by (symmetry; apply Z.leb_le; exact (proj2 Hn)).
    replace (num_chans <=? TDM_MAX_CHANS) with true
      by (symmetry; apply Z.leb_le; exact (proj2 Hn)).
    cbn [andb].
    eexists. eexists. split; [reflexivity|].
    cbn [cnt rx_data test_data io_log set_rx_data].
    split; [|split; [|repeat split]].
    + intros l c. destruct (l =? 0) eqn:El.
      * apply Z.eqb_eq in El. subst l. rewrite copy_words_spec.
        rewrite Z2Nat.id by lia. cbn [andb]. reflexivity.
      * reflexivity.
    + intros i j. destruct (i =? cnt g) eqn:Ei.
      * apply Z.eqb_eq in Ei. subst i. rewrite copy_words_spec.
        rewrite Z2Nat.id by lia. cbn [andb]. reflexivity.
      * reflexivity.
  - intros Hc.
    replace (frame_ok (cnt g)) with false; [reflexivity|].
    symmetry. unfold frame_ok, TEST_FRAME_COUNT in *.
    destruct Hc as [Hc | Hc].
    + replace (0 <=? cnt g) with false by (symmetry; apply Z.leb_gt; lia).
      reflexivity.
    + replace (cnt g <? 5) with false by (symmetry; apply Z.ltb_ge; lia).
      apply andb_false_r.
Qed.

End TestAppProperties.

Section TestProgram.

Import TestApp.

Variable TX_OFFSET : Z.

Lemma init_in_bounds (cfg : tdm_config_t) :
  in_bounds (fst (init (i_tdm TX_OFFSET) (Running initial_globals) cfg)).
Proof.
  cbn [init i_tdm]. unfold tdm_init. cbn [cnt io_call initial_globals].
  change (0 <? 0) with false. cbv iota.
  cbn [fst in_bounds cnt test_data broadcast_settings send_data_to_tester io_call
       set_test_data].
  change (cnt initial_globals) with 0.
  split; [unfold TEST_FRAME_COUNT; lia|].
  intros i j Hi Hj. rewrite fill_frames_spec.
  unfold TEST_FRAME_COUNT, TEST_NUM_CH in *.
  change (Z.of_nat (Z.to_nat 5)) with 5.
  rewrite !ltb_true by lia.
  replace (1 - 1 <=? i) with true by (symmetry; apply Z.leb_le; lia).
  replace (0 <=? j) with true by (symmetry; apply Z.leb_le; lia).
  reflexivity.
Qed.

Lemma restart_check_in_bounds (p : program) :
  in_bounds p ->
  in_bounds (fst (restart_check (i_tdm TX_OFFSET) p)) /\
  snd (restart_check (i_tdm TX_OFFSET) p) = TDM_NO_RESTART.
Proof.
  destruct p as [g | s g |]; cbn [in_bounds restart_check i_tdm];
    [|intros H; split; [exact H | reflexivity] | intros []].
  intros [Hc Hd]. unfold tdm_restart_check.
  unfold TEST_FRAME_COUNT in *.
  replace (cnt g =? 2 ^ 31 - 1) with false by (symmetry; apply Z.eqb_neq; lia).
  cbn [cnt set_cnt].
  destruct (cnt g + 1 =? 5) eqn:E; cbn [fst snd in_bounds cnt io_call set_cnt].
  - apply Z.eqb_eq in E. auto.
  - apply Z.eqb_neq in E. split; [|reflexivity].
    split; [unfold TEST_FRAME_COUNT; lia | exact Hd].
Qed.

Lemma process_in_bounds (p : program) (n_out n_in n_bits : Z)
      (rx tx : tdm_sample_buffer_t) :
  in_bounds p ->
  in_bounds (fst (process (i_tdm TX_OFFSET) p n_out n_in 16 n_bits rx tx)).
Proof.
  destruct p as [g | s g |]; cbn [in_bounds process i_tdm];
    [|intros H; exact H | intros []].
  intros [Hc Hd]. unfold tdm_process.
  replace (frame_ok (cnt g)) with true
    by (symmetry; unfold frame_ok; apply andb_true_intro;
        split; [apply Z.leb_le | apply Z.ltb_lt]; lia).
  cbn [andb fst in_bounds cnt test_data set_rx_data].
  change (mul32 16 4 / 4 <=? TEST_NUM_CH) with true.
  change (mul32 16 4 / 4 <=? TDM_MAX_CHANS) with true.
  cbn [andb fst in_bounds cnt test_data set_rx_data].
  split; assumption.
Qed.

Lemma quiet_no_init (d : list event) :
  forallb is_quiet d = true -> count is_init d = O.
Proof. intros H. apply (quiet_count d H). Qed.

Lemma react_test_inv (s : stimulus) (c : control * machine program) :
  test_inv c -> test_inv (react (i_tdm TX_OFFSET) s c).
Proof.
  intros (Hc & Hr & Hk & Hb & Hi).
  assert (Hn : num_out (slave_args 1 1 16 16) <= TDM_MAX_PORTS)
    by (cbn; unfold TDM_MAX_PORTS; lia).
  pose proof (react_inv (i_tdm TX_OFFSET) _ s c Hn Hc) as Hc1.
  destruct c as [k st]. cbn [fst snd] in Hr, Hk, Hb, Hi.
  destruct Hc as [_ Hinv]. cbn [snd] in Hinv.
  unfold test_inv. split; [exact Hc1|]. clear Hc1.
  destruct s as [t | din]; destruct Hk as [-> | ->]; cbn [react].
  - destruct (init_from_frame_sync_effect _ st t Hinv Hn)
      as (st1 & E1 & Hinv1 & R1 & _ & _ & _ & T1).
    destruct (init_from_frame_sync_data st st1 t E1)
      as (_ & _ & _ & _ & _ & P1 & _).
    rewrite E1. cbn [resume]. unfold inner_test. rewrite R1, Hr. cbn [fst snd].
    rewrite R1, P1, T1, count_app, Hi.
    rewrite (quiet_no_init _ (arm_events_quiet st1)). auto.
  - destruct (frame_effect (i_tdm TX_OFFSET) _ st t Hinv Hn)
      as (st1 & E1 & Hinv1 & R1 & _ & _ & _ & T1).
    destruct (frame_data (i_tdm TX_OFFSET) _ st st1 t Hinv Hn E1)
      as (_ & _ & _ & _ & P1 & _).
    destruct (restart_check_in_bounds (app_data st) Hb) as [Hb1 Hr1].
    rewrite Hr1 in R1.
    rewrite E1. cbn [resume]. unfold inner_test. rewrite R1. cbn [fst snd].
    split; [exact R1|]. split; [right; reflexivity|].
    split.
    + rewrite P1. unfold process_answer.
      destruct Hinv as ((_ & _ & -> & _) & _). cbn [slave_args num_chans].
      apply process_in_bounds. exact Hb1.
    + rewrite T1, count_app, Hi.
      rewrite (quiet_no_init _ (frame_events_quiet st st1)). reflexivity.
  - cbn [fst snd]. auto.
  - pose proof Hinv as (_ & _ & Hp).
    destruct (tdm_isr_effect din st)
      as (st1 & -> & _ & _ & _ & _ & _ & _ & R1 & _ & P1 & _ & T1 & _);
      [apply Hp | apply Hp |].
    cbn [fst snd]. rewrite R1, P1, T1, count_app, Hi.
    rewrite (quiet_no_init _ (isr_events_quiet din st)). auto.
Qed.

Lemma run_test_inv (sched : list stimulus) :
  forall c, test_inv c -> test_inv (run (i_tdm TX_OFFSET) sched c).
Proof.
  induction sched as [|s sched IH]; intros c Hc; [exact Hc|].
  cbn [run fold_left]. apply IH. apply react_test_inv. exact Hc.
Qed.

Lemma main_test_inv : test_inv (main_tdm_slave TX_OFFSET).
Proof.
  unfold main_tdm_slave, tdm_slave, xassert.
  change (16 <=? TDM_MAX_CHANS) with true.
  change (1 <=? TDM_MAX_PORTS) with true. cbv iota.
  rewrite tdm_slave_init_ports_spec. unfold tdm_main_loop.
  match goal with
  | |- context [outer_test _ ?m] => set (st0 := m)
  end.
  set (a := slave_args 1 1 16 16).
  assert (Hinv0 : engine_inv a st0).
  { split; [repeat split|]. split; [left; reflexivity|]. repeat split. }
  destruct (init_until_frame_sync_effect (i_tdm TX_OFFSET) a st0 Hinv0)
    as (st1 & E1 & Hinv1 & R1 & _ & _ & T1).
  destruct (init_until_frame_sync_data (i_tdm TX_OFFSET) a st0 st1 Hinv0 E1)
    as (_ & _ & _ & _ & _ & D1).
  change (0 <? num_out (args st0)) with true in D1. cbv iota in D1.
  destruct D1 as (P1 & _).
  assert (Houter : outer_test (i_tdm TX_OFFSET) st0 = (WaitInitSync, st1)).
  { unfold outer_test. rewrite E1. reflexivity. }
  rewrite Houter. unfold test_inv. cbn [fst snd].
  split; [split; [left; reflexivity | exact Hinv1]|].
  split; [rewrite R1; reflexivity|]. split; [left; reflexivity|].
  split.
  - rewrite P1. unfold process_answer.
    change (num_chans (args st0)) with 16.
    apply process_in_bounds. apply init_in_bounds.
  - rewrite T1.
    change (trace st0) with
      ([Ev_xassert true; Ev_xassert true; Ev_xassert true] ++
       init_ports_events 1 1).
    rewrite !count_app.
    rewrite (quiet_no_init _ (init_ports_events_quiet 1 1)).
    destruct (init_events_counts (i_tdm TX_OFFSET) st0) as (_ & _ & ->).
    reflexivity.
Qed.

End TestProgram.

Section TestProgramRuns.

Import TestApp.

(** X18.  The test program as [main] starts it: [tdm_slave] with the
    three callbacks of the test, one output line, one input line, 16
    channels of 16 bits, whatever [TX_OFFSET] is and whatever the bus
    does.  The callbacks never index [test_data] or [rx_data] out of
    bounds.  While the program runs, [cnt] names a frame of the arrays,
    [test_data] holds the pattern written by [tdm_init], [tdm_init] has
    been called once, and the engine waits for a frame-sync edge with no
    restart or shutdown asked for.  The program ends only with status 1
    and [cnt] equal to [TEST_FRAME_COUNT], which is the [_Exit] of
    [tdm_restart_check]; the [_Exit] of [tdm_init] is never taken. *)
Theorem test_program_stays_in_bounds (TX_OFFSET : Z) (sched : list stimulus) :
  let c := run (i_tdm TX_OFFSET) sched (main_tdm_slave TX_OFFSET) in
  match app_data (snd c) with
  | Running g =>
      (fst c = WaitInitSync \/ fst c = WaitFrameSync) /\
      restart (snd c) = TDM_NO_RESTART /\
      count is_init (trace (snd c)) = 1%nat /\
      0 <= cnt g < TEST_FRAME_COUNT /\
      forall i j,
        0 <= i < TEST_FRAME_COUNT -> 0 <= j < TEST_NUM_CH ->
        test_data g i j = pattern j
  | Gone status g => status = 1 /\ cnt g = TEST_FRAME_COUNT
  | Lost => False
  end.
Proof.
  intros c.
  destruct (run_test_inv TX_OFFSET sched _ (main_test_inv TX_OFFSET))
    as (_ & Hr & Hk & Hb & Hi).
  fold c in Hr, Hk, Hb, Hi.
  destruct (app_data (snd c)) as [g | s g |]; cbn [in_bounds] in Hb.
  - destruct Hb as [Hc Hd]. auto.
  - exact Hb.
  - exact Hb.
Qed.

End TestProgramRuns.

Section TestPattern.

Import TestApp.

Variable TX_OFFSET : Z.

Lemma sends_pattern_app (d1 d2 : list event) :
  sends_pattern d1 -> sends_pattern d2 -> sends_pattern (d1 ++ d2).
Proof.
  intros H1 H2 p t w H.
  apply in_app_or in H as [H | H]; [exact (H1 _ _ _ H) | exact (H2 _ _ _ H)].
Qed.

Lemma sends_pattern_none (d : list event) :
  forallb (fun e => negb (is_port_out_at_time e)) d = true -> sends_pattern d.
Proof.
  intros H p t w Hin. rewrite forallb_forall in H. specialize (H _ Hin).
  discriminate H.
Qed.

Lemma preload_events_pattern (st : machine program) :
  num_out (args st) = 1 ->
  buffer_of st (working_out_buffer (tdm_interrupt_data st)) 0 0 = pattern 0 ->
  buffer_of st (working_out_buffer (tdm_interrupt_data st)) 0 1 = pattern 1 ->
  sends_pattern (preload_events st).
Proof.
  intros Hn H0 H1 p t w Hin. unfold preload_events in Hin. rewrite Hn in Hin.
  cbn [Z.to_nat Pos.to_nat Pos.iter_op Nat.add zrange map In] in Hin.
  destruct Hin as [Hin | []]. unfold preload_event in Hin.
  injection Hin as <- _ <-. rewrite H0, H1. split; reflexivity.
Qed.

Lemma arm_events_pattern (st : machine program) :
  num_out (args st) = 1 ->
  buffer_of st (working_out_buffer (tdm_interrupt_data st)) 0 0 = pattern 0 ->
  buffer_of st (working_out_buffer (tdm_interrupt_data st)) 0 1 = pattern 1 ->
  sends_pattern (arm_events st).
Proof.
  intros Hn H0 H1. unfold arm_events.
  apply sends_pattern_app; [apply sends_pattern_none; reflexivity|].
  apply sends_pattern_app;
    [apply sends_pattern_none; apply forallb_flat_map; reflexivity|].
  apply sends_pattern_app;
    [apply sends_pattern_none; apply forallb_flat_map; reflexivity|].
  apply preload_events_pattern; assumption.
Qed.

Lemma frame_events_pattern (st st' : machine program) :
  num_out (args st') = 1 ->
  buffer_of st' (working_out_buffer (tdm_interrupt_data st')) 0 0 = pattern 0 ->
  buffer_of st' (working_out_buffer (tdm_interrupt_data st')) 0 1 = pattern 1 ->
  sends_pattern (frame_events st st').
Proof.
  intros Hn H0 H1. unfold frame_events.
  apply sends_pattern_app; [apply sends_pattern_none; reflexivity|].
  apply preload_events_pattern; assumption.
Qed.

(** What [process] of the test leaves in the send buffer when the
    program goes on running. *)
Lemma process_supplies_pattern (p : program) (n_out n_in n_bits : Z)
      (rx tx : tdm_sample_buffer_t) (g : globals) :
  in_bounds p ->
  fst (process (i_tdm TX_OFFSET) p n_out n_in 16 n_bits rx tx) = Running g ->
  forall c, 0 <= c < 16 ->
    snd (snd (process (i_tdm TX_OFFSET) p n_out n_in 16 n_bits rx tx)) 0 c =
    pattern c.
Proof.
  destruct p as [g0 | s g0 |]; cbn [in_bounds process i_tdm];
    [|intros _ H; discriminate H | intros []].
  intros [Hc Hd]. unfold tdm_process.
  replace (frame_ok (cnt g0)) with true
    by (symmetry; unfold frame_ok; apply andb_true_intro;
        split; [apply Z.leb_le | apply Z.ltb_lt]; lia).
  change (mul32 16 4 / 4 <=? TEST_NUM_CH) with true.
  change (mul32 16 4 / 4 <=? TDM_MAX_CHANS) with true.
  cbn [andb fst snd]. intros _ c Hcr.
  change (0 =? 0) with true. cbv iota.
  rewrite copy_words_spec.
  change (0 + Z.of_nat (Z.to_nat (mul32 16 4 / 4))) with 16.
  replace (0 <=? c) with true by (symmetry; apply Z.leb_le; lia).
  rewrite ltb_true by lia. cbn [andb].
  apply Hd; unfold TEST_NUM_CH; lia.
Qed.

Lemma buffer_of_working_out (st : machine program) :
  pointers_ok st ->
  buffer_of st (working_out_buffer (tdm_interrupt_data st)) =
  out_s st (ptr_index (working_out_buffer (tdm_interrupt_data st))).
Proof.
  intros (_ & _ & _ & _ & _ & Bwo & _). unfold buffer_of. rewrite Bwo. reflexivity.
Qed.

Lemma react_pattern_inv (s : stimulus) (c : control * machine program) :
  test_inv c -> pattern_inv c -> pattern_inv (react (i_tdm TX_OFFSET) s c).
Proof.
  intros (Hc & Hr & Hk & Hb & _) (Hroles & Hpat).
  assert (Hn : num_out (slave_args 1 1 16 16) <= TDM_MAX_PORTS)
    by (cbn; unfold TDM_MAX_PORTS; lia).
  split; [apply (react_roles (i_tdm TX_OFFSET) _ s c Hn Hc Hroles)|].
  destruct c as [k st]. cbn [fst snd] in Hr, Hk, Hb, Hroles, Hpat.
  destruct Hc as [_ Hinv]. cbn [snd] in Hinv.
  pose proof Hinv as (_ & _ & Hp).
  rewrite (buffer_of_working_out st Hp) in Hpat.
  destruct s as [t | din]; destruct Hk as [-> | ->]; cbn [react].
  - destruct (init_from_frame_sync_effect _ st t Hinv Hn)
      as (st1 & E1 & Hinv1 & R1 & _ & _ & _ & T1).
    destruct (init_from_frame_sync_data st st1 t E1)
      as (_ & WO1 & _ & _ & _ & P1 & _ & O1 & _).
    rewrite E1. cbn [resume]. unfold inner_test. rewrite R1, Hr. cbn [snd].
    intros g Hg. rewrite P1 in Hg. destruct (Hpat g Hg) as (S0 & B0 & B1).
    assert (B0' : buffer_of st1 (working_out_buffer (tdm_interrupt_data st1)) 0 0
                  = pattern 0)
      by (rewrite (buffer_of_working_out st1 (proj2 (proj2 Hinv1))), WO1, O1;
          exact B0).
    assert (B1' : buffer_of st1 (working_out_buffer (tdm_interrupt_data st1)) 0 1
                  = pattern 1)
      by (rewrite (buffer_of_working_out st1 (proj2 (proj2 Hinv1))), WO1, O1;
          exact B1).
    split; [|split; assumption].
    rewrite T1. apply sends_pattern_app; [exact S0|].
    apply arm_events_pattern; [apply Hinv1 | exact B0' | exact B1'].
  - destruct (frame_effect (i_tdm TX_OFFSET) _ st t Hinv Hn)
      as (st1 & E1 & Hinv1 & R1 & _ & _ & _ & T1).
    destruct (frame_data (i_tdm TX_OFFSET) _ st st1 t Hinv Hn E1)
      as (_ & _ & _ & WO1 & P1 & _ & O1).
    destruct (restart_check_in_bounds TX_OFFSET (app_data st) Hb) as [Hb1 Hr1].
    rewrite Hr1 in R1.
    rewrite E1. cbn [resume]. unfold inner_test. rewrite R1. cbn [snd].
    intros g Hg. rewrite P1 in Hg.
    destruct Hroles as (_ & _ & _ & SO).
    unfold process_answer in Hg, O1.
    destruct Hinv as ((_ & _ & A3 & _) & _).
    cbn [slave_args num_chans] in A3. rewrite A3 in Hg, O1.
    pose proof (process_supplies_pattern _ _ _ _ _ _ g Hb1 Hg) as Hsend.
    assert (Hbuf : forall ch, 0 <= ch < 16 ->
              buffer_of st1 (working_out_buffer (tdm_interrupt_data st1)) 0 ch =
              pattern ch).
    { intros ch Hch.
      rewrite (buffer_of_working_out st1 (proj2 (proj2 Hinv1))), WO1, O1.
      replace (ptr_index (safe_out_buffer st)) with (current_buf_no st)
        by (rewrite SO; reflexivity).
      cbn [ptr_index]. unfold update_double_buffer. rewrite Z.eqb_refl.
      apply Hsend. exact Hch. }
    assert (B0 : buffer_of st1 (working_out_buffer (tdm_interrupt_data st1)) 0 0
                 = pattern 0) by (apply Hbuf; lia).
    assert (B1 : buffer_of st1 (working_out_buffer (tdm_interrupt_data st1)) 0 1
                 = pattern 1) by (apply Hbuf; lia).
    split; [|split; assumption].
    rewrite T1. apply sends_pattern_app.
    + destruct (app_data st) as [g0 | s0 g0 |] eqn:Ea.
      * apply (Hpat g0 eq_refl).
      * discriminate Hg.
      * destruct Hb.
    + apply frame_events_pattern; [apply Hinv1 | exact B0 | exact B1].
  - cbn [snd]. rewrite (buffer_of_working_out st Hp). exact Hpat.
  - destruct (tdm_isr_effect din st)
      as (st1 & E1 & A1 & _ & O1 & D1 & SI1 & SO1 & _ & N1 & P1 & _ & T1 & _);
      [apply Hp | apply Hp |].
    rewrite E1. cbn [snd]. intros g Hg. rewrite P1 in Hg.
    destruct (Hpat g Hg) as (S0 & B0 & B1).
    assert (Hp1 : pointers_ok st1)
      by (unfold pointers_ok; rewrite D1, SI1, SO1; exact Hp).
    rewrite (buffer_of_working_out st1 Hp1), D1, O1.
    split; [|split; assumption].
    rewrite T1. apply sends_pattern_app; [exact S0|].
    apply sends_pattern_none. unfold isr_events.
    now destruct (0 <? num_in (args st)).
Qed.

Lemma run_pattern_inv (sched : list stimulus) :
  forall c, test_inv c -> pattern_inv c ->
            pattern_inv (run (i_tdm TX_OFFSET) sched c).
Proof.
  induction sched as [|s sched IH]; intros c Hc Hp; [exact Hp|].
  cbn [run fold_left]. apply IH.
  - apply react_test_inv. exact Hc.
  - apply react_pattern_inv; assumption.
Qed.

Lemma main_pattern_inv : pattern_inv (main_tdm_slave TX_OFFSET).
Proof.
  unfold main_tdm_slave, tdm_slave, xassert.
  change (16 <=? TDM_MAX_CHANS) with true.
  change (1 <=? TDM_MAX_PORTS) with true. cbv iota.
  rewrite tdm_slave_init_ports_spec. unfold tdm_main_loop.
  match goal with
  | |- context [outer_test _ ?m] => set (st0 := m)
  end.
  set (a := slave_args 1 1 16 16).
  assert (Hinv0 : engine_inv a st0).
  { split; [repeat split|]. split; [left; reflexivity|]. repeat split. }
  destruct (init_until_frame_sync_effect (i_tdm TX_OFFSET) a st0 Hinv0)
    as (st1 & E1 & Hinv1 & R1 & _ & _ & T1).
  destruct (init_until_frame_sync_data (i_tdm TX_OFFSET) a st0 st1 Hinv0 E1)
    as (Hroles & _ & _ & WO1 & _ & D1).
  change (0 <? num_out (args st0)) with true in D1. cbv iota in D1.
  destruct D1 as (P1 & _ & O1).
  assert (Houter : outer_test (i_tdm TX_OFFSET) st0 = (WaitInitSync, st1)).
  { unfold outer_test. rewrite E1. reflexivity. }
  rewrite Houter. unfold pattern_inv. cbn [fst snd].
  split; [exact Hroles|].
  intros g Hg. rewrite P1 in Hg. unfold process_answer in Hg, O1.
  change (num_chans (args st0)) with 16 in Hg, O1.
  pose proof (process_supplies_pattern _ _ _ _ _ _ g
                (init_in_bounds TX_OFFSET (tdm_config st0)) Hg) as Hsend.
  rewrite (buffer_of_working_out st1 (proj2 (proj2 Hinv1))), WO1, O1.
  change (ptr_index (safe_out_buffer st0)) with 0.
  change (current_buf_no st0) with 0.
  cbn [ptr_index]. unfold update_double_buffer. change (0 =? 0) with true.
  cbv iota.
  split; [|split; apply Hsend; lia].
  rewrite T1.
  change (trace st0) with
    ([Ev_xassert true; Ev_xassert true; Ev_xassert true] ++
     init_ports_events 1 1).
  apply sends_pattern_none. reflexivity.
Qed.

End TestPattern.

Section TestPatternRuns.

Import TestApp.

(** X19.  What the test program puts on the wire.  In every run of
    the test as [main] starts it, whatever [TX_OFFSET] is and whatever
    the bus does, as long as the program has not left through [_Exit]:
    every word preloaded so far went to output line 0 and is the packed
    pair of the first two channels of the test pattern, that is the bit
    reversal of 0x5678CDEF, the low halves of 0x12345678 and 0x89ABCDEF;
    and the working output buffer holds the pattern in channels 0 and 1
    of line 0. *)
Theorem test_program_sends_pattern (TX_OFFSET : Z) (sched : list stimulus) :
  let c := run (i_tdm TX_OFFSET) sched (main_tdm_slave TX_OFFSET) in
  forall g,
    app_data (snd c) = Running g ->
    (forall p t w,
        In (Ev_port_out_at_time p t w) (trace (snd c)) ->
        p = p_dout 0 /\ w = bitrev 0x5678CDEF) /\
    buffer_of (snd c) (working_out_buffer (tdm_interrupt_data (snd c))) 0 0 =
      0x12345678 /\
    buffer_of (snd c) (working_out_buffer (tdm_interrupt_data (snd c))) 0 1 =
      to_int32 0x89ABCDEF.
Proof.
  intros c g Hg.
  destruct (run_pattern_inv TX_OFFSET sched _ (main_test_inv TX_OFFSET)
              (main_pattern_inv TX_OFFSET)) as (_ & H).
  destruct (H g Hg) as (S0 & B0 & B1).
  split; [|split; assumption].
  intros p t w Hin. destruct (S0 p t w Hin) as (-> & ->).
  split; [reflexivity|]. vm_compute. reflexivity.
Qed.

End TestPatternRuns.

(** ** Concrete runs *)

Module Runs.

Import Scenario.

(** The runs below use the test configuration: one output line, one
    input line, 16 channels of 16 bits, the first frame-sync edge at
    port time 1000. *)

Lemma commit_buffers_rotates_witness :
  selector_bit (current_buf_no (boot 0)) /\
  exists st1,
    commit_buffers In_s Out_s (boot 0) = Some (tt, st1) /\
    working_in_buffer (tdm_interrupt_data st1) <> safe_in_buffer st1 /\
    current_buf_no st1 = Z.lxor (current_buf_no (boot 0)) 1.
Proof.
  split; [left; reflexivity|].
  eexists. split; [reflexivity|].
  pose proof (commit_buffers_rotates (boot 0) _ (or_introl eq_refl) eq_refl) as H.
  cbv zeta in H. destruct H as (_ & _ & (H & _) & _ & (R & _) & _).
  split; [exact H | exact R].
Defined.

Lemma isr_next_trigger_time_witness :
  fst (run (test_cbg 0) [FrameSync 1000] (tdm_slave (test_cbg 0) 0 1 1 16 16)) = WaitFrameSync /\
  bclk_trigger_time (snd (react (test_cbg 0) (BclkTrigger loopback) (run (test_cbg 0) [FrameSync 1000] (tdm_slave (test_cbg 0) 0 1 1 16 16)))) =
  add32 (bclk_trigger_time (snd (run (test_cbg 0) [FrameSync 1000] (tdm_slave (test_cbg 0) 0 1 1 16 16)))) (mul32 16 16).
Proof.
  assert (Hc : fst (run (test_cbg 0) [FrameSync 1000] (tdm_slave (test_cbg 0) 0 1 1 16 16)) = WaitFrameSync) by (vm_compute; reflexivity).
  split; [exact Hc|].
  pose proof (isr_next_trigger_time (test_cbg 0) 0 1 1 16 16 [FrameSync 1000]
                loopback Hc) as H.
  cbv zeta in H. destruct H as (_ & _ & H & _). exact H.
Defined.

Lemma shutdown_stops_engine_witness :
  fst (run (test_cbg 0) [FrameSync 1000] (tdm_slave (test_cbg 0) 4 1 1 16 16)) = WaitFrameSync /\
  snd (restart_check (test_cbg 0) (app_data (snd (run (test_cbg 0) [FrameSync 1000] (tdm_slave (test_cbg 0) 4 1 1 16 16))))) = TDM_SHUTDOWN /\
  exists st',
    run (test_cbg 0) [FrameSync 1256; FrameSync 1512; BclkTrigger loopback]
        (run (test_cbg 0) [FrameSync 1000] (tdm_slave (test_cbg 0) 4 1 1 16 16)) = (Exited, st').
Proof.
  assert (Hc : fst (run (test_cbg 0) [FrameSync 1000] (tdm_slave (test_cbg 0) 4 1 1 16 16)) = WaitFrameSync) by (vm_compute; reflexivity).
  assert (Hr : snd (restart_check (test_cbg 0) (app_data (snd (run (test_cbg 0) [FrameSync 1000] (tdm_slave (test_cbg 0) 4 1 1 16 16)))))
               = TDM_SHUTDOWN)
    by (vm_compute; reflexivity).
  split; [exact Hc|]. split; [exact Hr|].
  pose proof (shutdown_stops_engine (test_cbg 0) 4 1 1 16 16 [FrameSync 1000]
                [FrameSync 1512; BclkTrigger loopback] 1256 Hc Hr) as H.
  cbv zeta in H. destruct H as (st' & _ & _ & _ & _ & _ & E).
  exists st'. exact E.
Defined.

Lemma first_trigger_time_armed_witness :
  fst (run (test_cbg 0) [] (tdm_slave (test_cbg 0) 0 1 1 16 16)) = WaitInitSync /\
  exists st',
    init_from_frame_sync 1000 (snd (run (test_cbg 0) [] (tdm_slave (test_cbg 0) 0 1 1 16 16)))
      = Some (tt, st') /\
    frame_len (args (snd (run (test_cbg 0) [] (tdm_slave (test_cbg 0) 0 1 1 16 16)))) = mul32 16 16.
Proof.
  assert (Hc : fst (run (test_cbg 0) [] (tdm_slave (test_cbg 0) 0 1 1 16 16)) = WaitInitSync)
    by (vm_compute; reflexivity).
  split; [exact Hc|].
  pose proof (first_trigger_time_armed (test_cbg 0) 0 1 1 16 16 [] 1000 Hc) as H.
  cbv zeta in H. destruct H as (st' & E & L & _).
  exists st'. split; [exact E | exact L].
Defined.

Lemma offset_shifts_schedule_witness :
  restart_check (test_cbg 7) = restart_check (test_cbg 0) /\
  process (test_cbg 7) = process (test_cbg 0) /\
  (forall app cfg, offset (snd (init (test_cbg 0) app cfg)) = 0) /\
  (forall app cfg m,
      init (test_cbg 7) app (set_offset m cfg) =
      (fst (init (test_cbg 0) app cfg), set_offset 7 (snd (init (test_cbg 0) app cfg)))) /\
  trace (snd (run (test_cbg 7) [FrameSync 1000; BclkTrigger loopback; FrameSync 1256]
                  (tdm_slave (test_cbg 7) 0 1 1 16 16))) =
  map (shift_time 7)
      (trace (snd (run (test_cbg 0) [FrameSync 1000; BclkTrigger loopback; FrameSync 1256]
                       (tdm_slave (test_cbg 0) 0 1 1 16 16)))).
Proof.
  assert (H1 : restart_check (test_cbg 7) = restart_check (test_cbg 0))
    by reflexivity.
  assert (H2 : process (test_cbg 7) = process (test_cbg 0)) by reflexivity.
  assert (H3 : forall app cfg, offset (snd (init (test_cbg 0) app cfg)) = 0)
    by reflexivity.
  assert (H4 : forall app cfg m,
             init (test_cbg 7) app (set_offset m cfg) =
             (fst (init (test_cbg 0) app cfg),
              set_offset 7 (snd (init (test_cbg 0) app cfg))))
    by reflexivity.
  split; [exact H1|]. split; [exact H2|]. split; [exact H3|]. split; [exact H4|].
  pose proof (offset_shifts_schedule (test_cbg 0) (test_cbg 7) 7 H1 H2 H3 H4
                0 1 1 16 16 [FrameSync 1000; BclkTrigger loopback; FrameSync 1256])
    as H.
  cbv zeta in H. destruct H as (_ & H & _). exact H.
Defined.

Lemma transport_moves_two_channels_witness :
  pointers_ok (snd (tdm_slave (test_cbg 0) 0 1 1 16 16)) /\
  num_out (args (snd (tdm_slave (test_cbg 0) 0 1 1 16 16))) <= TDM_MAX_PORTS /\
  exists st',
    tdm_isr loopback (snd (tdm_slave (test_cbg 0) 0 1 1 16 16)) = Some (tt, st') /\
    out_s st' = out_s (snd (tdm_slave (test_cbg 0) 0 1 1 16 16)).
Proof.
  assert (Hp : pointers_ok (snd (tdm_slave (test_cbg 0) 0 1 1 16 16))) by (vm_compute; repeat split).
  assert (Hn : num_out (args (snd (tdm_slave (test_cbg 0) 0 1 1 16 16))) <= TDM_MAX_PORTS)
    by (vm_compute; discriminate).
  split; [exact Hp|]. split; [exact Hn|].
  pose proof (transport_moves_two_channels (snd (tdm_slave (test_cbg 0) 0 1 1 16 16)) loopback Hp Hn) as H.
  cbv zeta in H. destruct H as (_ & (st' & E & O & _) & _).
  exists st'. split; [exact E | exact O].
Defined.

(** With two input lines configured and a word waiting on each, the
    handler reads the port of line 0 only: line 1 of the working input
    buffer keeps its zeros although its port holds the same word as
    line 0. *)
Lemma isr_reads_first_input_line_only :
  let c := run (test_cbg 0) [FrameSync 1000; BclkTrigger loopback]
               (tdm_slave (test_cbg 0) 0 1 2 16 16) in
  let w := ptr_index (working_in_buffer (tdm_interrupt_data (snd c))) in
  fst c = WaitFrameSync /\
  num_in (args (snd c)) = 2 /\
  filter is_port_in (trace (snd c)) = [Ev_port_in (p_din 0) (loopback 0)] /\
  (in_s (snd c) w 0 0, in_s (snd c) w 0 1) = (0x5678, 0xCDEF) /\
  (in_s (snd c) w 1 0, in_s (snd c) w 1 1) = (0, 0) /\
  unpack16 (loopback 1) = (0x5678, 0xCDEF).
Proof. vm_compute. repeat split. Qed.

(** C4 as stated fails: the frame-sync edge comes at port time
    4294966496, the handler is armed for 4294967040, and with a frame
    of 16 x 32 = 512 bits the handler reschedules itself for 256, which
    is neither the previous trigger time plus 512 nor above it. *)
Lemma trigger_time_wraps :
  let c := run (test_cbg 0) [FrameSync 4294966496]
               (tdm_slave (test_cbg 0) 0 1 1 16 32) in
  let c' := react (test_cbg 0) (BclkTrigger loopback) c in
  fst c = WaitFrameSync /\
  frame_len (args (snd c)) = 16 * 32 /\
  bclk_trigger_time (snd c) = 4294967040 /\
  bclk_trigger_time (snd c') = 256 /\
  bclk_trigger_time (snd c') <> bclk_trigger_time (snd c) + frame_len (args (snd c)) /\
  bclk_trigger_time (snd c') < bclk_trigger_time (snd c).
Proof. vm_compute. repeat split. discriminate. Qed.

(** C6 as stated fails: with one output line and an application that
    asks for a restart, the outer-loop body is entered a second time and
    makes a second priming call. *)
Lemma priming_repeats_after_restart :
  let c := run restarting_cbg [FrameSync 1000; FrameSync 1256]
               (tdm_slave restarting_cbg 0 1 1 16 16) in
  fst c = WaitInitSync /\
  count is_init (trace (snd c)) = 2%nat /\
  count is_priming (trace (snd c)) = 2%nat /\
  filter is_priming (trace (snd c)) =
    [Ev_process Priming {| ptr_base := In_s; ptr_index := 0 |}
                        {| ptr_base := Out_s; ptr_index := 0 |};
     Ev_process Priming {| ptr_base := In_s; ptr_index := 0 |}
                        {| ptr_base := Out_s; ptr_index := 0 |}].
Proof. vm_compute. repeat split. Qed.

(** C7 as stated fails: with the frame-sync edge at port time 1000, a
    frame of 256 bits and offset 0, the handler is armed for 1288, not
    for 1000 + 256 + 0. *)
Lemma first_trigger_includes_port_buffer_bits :
  let c := tdm_slave (test_cbg 0) 0 1 1 16 16 in
  let c' := react (test_cbg 0) (FrameSync 1000) c in
  fst c = WaitInitSync /\
  frame_len (args (snd c)) = 256 /\
  num_bclk_cycles_offset (args (snd c)) = 0 /\
  bclk_trigger_time (snd c') = 1288 /\
  filter is_set_trigger_time (trace (snd c')) =
    [Ev_port_set_trigger_time p_bclk 1288; Ev_port_set_trigger_time (p_din 0) 1288] /\
  bclk_trigger_time (snd c') <>
    1000 + frame_len (args (snd c)) + num_bclk_cycles_offset (args (snd c)).
Proof. vm_compute. repeat split. discriminate. Qed.

(** C8 as stated fails: of two runs that differ only in the configured
    offset, 7 against 0, the second preloads its output for port time 1256
    and the first for 1263, 7 cycles later; but the handler is armed for
    1288 in the second and for 1295 in the first, and so are the input
    ports: the preload time is not the only time that moves. *)
Lemma offset_moves_trigger_times :
  let c0 := run (test_cbg 0) [FrameSync 1000] (tdm_slave (test_cbg 0) 0 1 1 16 16) in
  let c7 := run (test_cbg 7) [FrameSync 1000] (tdm_slave (test_cbg 7) 0 1 1 16 16) in
  filter is_port_out_at_time (trace (snd c0)) =
    [Ev_port_out_at_time (p_dout 0) 1256 (loopback 0)] /\
  filter is_port_out_at_time (trace (snd c7)) =
    [Ev_port_out_at_time (p_dout 0) 1263 (loopback 0)] /\
  filter is_set_trigger_time (trace (snd c0)) =
    [Ev_port_set_trigger_time p_bclk 1288; Ev_port_set_trigger_time (p_din 0) 1288] /\
  filter is_set_trigger_time (trace (snd c7)) =
    [Ev_port_set_trigger_time p_bclk 1295; Ev_port_set_trigger_time (p_din 0) 1295] /\
  bclk_trigger_time (snd c0) <> bclk_trigger_time (snd c7).
Proof. vm_compute. repeat split. discriminate. Qed.

End Runs.

(** ** Concrete runs for the further properties *)

Module FurtherRuns.

Import Scenario.

Lemma tdm_isr_stores_unsigned_halves_witness :
  pointers_ok (snd (tdm_slave (test_cbg 0) 0 1 1 16 16)) /\
  0 < num_in (args (snd (tdm_slave (test_cbg 0) 0 1 1 16 16))) /\
  exists st',
    tdm_isr loopback (snd (tdm_slave (test_cbg 0) 0 1 1 16 16)) = Some (tt, st') /\
    0 <= buffer_of st' (working_in_buffer (tdm_interrupt_data st')) 0 0 < 2 ^ 16 /\
    0 <= buffer_of st' (working_in_buffer (tdm_interrupt_data st')) 0 1 < 2 ^ 16.
Proof.
  assert (Hp : pointers_ok (snd (tdm_slave (test_cbg 0) 0 1 1 16 16)))
    by (vm_compute; repeat split).
  assert (Hn : 0 < num_in (args (snd (tdm_slave (test_cbg 0) 0 1 1 16 16))))
    by (vm_compute; reflexivity).
  split; [exact Hp|]. split; [exact Hn|].
  pose proof (tdm_isr_stores_unsigned_halves
                (snd (tdm_slave (test_cbg 0) 0 1 1 16 16)) loopback Hp Hn) as H.
  destruct H as (st' & E & _ & _ & _ & R0 & R1).
  exists st'. split; [exact E|]. split; [exact R0 | exact R1].
Defined.

Lemma transport_without_lines_witness :
  num_out (args (boot 0)) <= 0 /\
  preload_data (boot 0) = Some (tt, boot 0) /\
  num_in (args (boot 0)) <= 0 /\
  exists st',
    tdm_isr loopback (boot 0) = Some (tt, st') /\
    in_s st' = in_s (boot 0).
Proof.
  assert (Ho : num_out (args (boot 0)) <= 0) by (vm_compute; discriminate).
  assert (Hi : num_in (args (boot 0)) <= 0) by (vm_compute; discriminate).
  pose proof (transport_without_lines (boot 0) loopback) as [H1 H2].
  split; [exact Ho|]. split; [exact (H1 Ho)|]. split; [exact Hi|].
  destruct (H2 Hi) as (st' & E & I & _).
  exists st'. split; [exact E | exact I].
Defined.

Lemma working_and_safe_stay_apart_witness :
  preconditions 1 1 16 = true /\
  working_in_buffer (tdm_interrupt_data (snd (run (test_cbg 0) [FrameSync 1000; FrameSync 1256] (tdm_slave (test_cbg 0) 0 1 1 16 16)))) <>
  safe_in_buffer (snd (run (test_cbg 0) [FrameSync 1000; FrameSync 1256] (tdm_slave (test_cbg 0) 0 1 1 16 16))).
Proof.
  assert (Hp : preconditions 1 1 16 = true) by reflexivity.
  split; [exact Hp|].
  pose proof (working_and_safe_stay_apart (test_cbg 0) 0 1 1 16 16
                [FrameSync 1000; FrameSync 1256] Hp) as H.
  cbv zeta in H. destruct H as (_ & _ & _ & _ & _ & H & _). exact H.
Defined.

Lemma frame_sends_what_process_wrote_witness :
  fst (run (test_cbg 0) [FrameSync 1000] (tdm_slave (test_cbg 0) 0 1 1 16 16)) = WaitFrameSync /\
  exists st',
    frame (test_cbg 0) 1256 (snd (run (test_cbg 0) [FrameSync 1000] (tdm_slave (test_cbg 0) 0 1 1 16 16))) = Some (tt, st') /\
    working_out_buffer (tdm_interrupt_data st') =
    safe_out_buffer (snd (run (test_cbg 0) [FrameSync 1000] (tdm_slave (test_cbg 0) 0 1 1 16 16))).
Proof.
  assert (Hc : fst (run (test_cbg 0) [FrameSync 1000] (tdm_slave (test_cbg 0) 0 1 1 16 16)) = WaitFrameSync)
    by (vm_compute; reflexivity).
  split; [exact Hc|].
  pose proof (frame_sends_what_process_wrote (test_cbg 0) 0 1 1 16 16
                [FrameSync 1000] 1256 Hc) as H.
  cbv zeta in H. destruct H as (st' & E & _ & _ & W & _).
  exists st'. split; [exact E | exact W].
Defined.


Lemma handler_samples_delivery_witness :
  fst (run (test_cbg 0) [FrameSync 1000] (tdm_slave (test_cbg 0) 0 1 1 16 16)) = WaitFrameSync /\
  0 < 1 /\
  fst (react (test_cbg 0) (FrameSync 1256) (react (test_cbg 0) (BclkTrigger loopback) (run (test_cbg 0) [FrameSync 1000] (tdm_slave (test_cbg 0) 0 1 1 16 16)))) = WaitFrameSync /\
  safe_in_buffer (snd (react (test_cbg 0) (FrameSync 1256) (react (test_cbg 0) (BclkTrigger loopback) (run (test_cbg 0) [FrameSync 1000] (tdm_slave (test_cbg 0) 0 1 1 16 16))))) =
  working_in_buffer (tdm_interrupt_data (snd (run (test_cbg 0) [FrameSync 1000] (tdm_slave (test_cbg 0) 0 1 1 16 16)))).
Proof.
  assert (Hc : fst (run (test_cbg 0) [FrameSync 1000] (tdm_slave (test_cbg 0) 0 1 1 16 16)) = WaitFrameSync)
    by (vm_compute; reflexivity).
  assert (Hn : 0 < 1) by reflexivity.
  assert (Hc2 : fst (react (test_cbg 0) (FrameSync 1256) (react (test_cbg 0) (BclkTrigger loopback) (run (test_cbg 0) [FrameSync 1000] (tdm_slave (test_cbg 0) 0 1 1 16 16)))) = WaitFrameSync)
    by (vm_compute; reflexivity).
  split; [exact Hc|]. split; [exact Hn|]. split; [exact Hc2|].
  pose proof (handler_samples_delivery (test_cbg 0) 0 1 1 16 16 [FrameSync 1000]
                loopback 1256 Hc Hn Hc2) as H.
  cbv zeta in H. destruct H as (_ & H & _). exact H.
Defined.

Lemma process_buffers_come_back_witness :
  fst (run (test_cbg 0) [FrameSync 1000] (tdm_slave (test_cbg 0) 0 1 1 16 16)) = WaitFrameSync /\
  fst (react (test_cbg 0) (FrameSync 1256) (run (test_cbg 0) [FrameSync 1000] (tdm_slave (test_cbg 0) 0 1 1 16 16))) = WaitFrameSync /\
  fst (react (test_cbg 0) (FrameSync 1512) (react (test_cbg 0) (FrameSync 1256) (run (test_cbg 0) [FrameSync 1000] (tdm_slave (test_cbg 0) 0 1 1 16 16)))) = WaitFrameSync /\
  safe_out_buffer (snd (react (test_cbg 0) (FrameSync 1512) (react (test_cbg 0) (FrameSync 1256) (run (test_cbg 0) [FrameSync 1000] (tdm_slave (test_cbg 0) 0 1 1 16 16))))) =
  safe_out_buffer (snd (run (test_cbg 0) [FrameSync 1000] (tdm_slave (test_cbg 0) 0 1 1 16 16))).
Proof.
  assert (Hc : fst (run (test_cbg 0) [FrameSync 1000] (tdm_slave (test_cbg 0) 0 1 1 16 16)) = WaitFrameSync)
    by (vm_compute; reflexivity).
  assert (Hc1 : fst (react (test_cbg 0) (FrameSync 1256) (run (test_cbg 0) [FrameSync 1000] (tdm_slave (test_cbg 0) 0 1 1 16 16))) = WaitFrameSync)
    by (vm_compute; reflexivity).
  assert (Hc2 : fst (react (test_cbg 0) (FrameSync 1512) (react (test_cbg 0) (FrameSync 1256) (run (test_cbg 0) [FrameSync 1000] (tdm_slave (test_cbg 0) 0 1 1 16 16)))) = WaitFrameSync)
    by (vm_compute; reflexivity).
  split; [exact Hc|]. split; [exact Hc1|]. split; [exact Hc2|].
  pose proof (process_buffers_come_back (test_cbg 0) 0 1 1 16 16 [FrameSync 1000]
                1256 1512 Hc Hc1 Hc2) as H.
  cbv zeta in H. destruct H as (_ & _ & _ & H & _). exact H.
Defined.

Lemma restart_runs_init_again_witness :
  fst (run restarting_cbg [FrameSync 1000] (tdm_slave restarting_cbg 0 1 1 16 16)) = WaitFrameSync /\
  snd (restart_check restarting_cbg (app_data (snd (run restarting_cbg [FrameSync 1000] (tdm_slave restarting_cbg 0 1 1 16 16))))) = TDM_RESTART /\
  exists st2,
    react restarting_cbg (FrameSync 1256) (run restarting_cbg [FrameSync 1000] (tdm_slave restarting_cbg 0 1 1 16 16)) = (WaitInitSync, st2) /\
    restart st2 = TDM_RESTART.
Proof.
  assert (Hc : fst (run restarting_cbg [FrameSync 1000] (tdm_slave restarting_cbg 0 1 1 16 16)) = WaitFrameSync)
    by (vm_compute; reflexivity).
  assert (Hr : snd (restart_check restarting_cbg (app_data (snd (run restarting_cbg [FrameSync 1000] (tdm_slave restarting_cbg 0 1 1 16 16))))) = TDM_RESTART)
    by reflexivity.
  split; [exact Hc|]. split; [exact Hr|].
  pose proof (restart_runs_init_again restarting_cbg 0 1 1 16 16 [FrameSync 1000]
                1256 Hc Hr) as H.
  cbv zeta in H. destruct H as (st1 & st2 & _ & _ & E & R & _).
  exists st2. split; [exact E | exact R].
Defined.

Lemma restart_is_never_left_witness :
  restart (snd (run restarting_cbg [FrameSync 1000; FrameSync 1256] (tdm_slave restarting_cbg 0 1 1 16 16))) = TDM_RESTART /\
  fst (run restarting_cbg [FrameSync 1512; BclkTrigger loopback; FrameSync 1768]
         (run restarting_cbg [FrameSync 1000; FrameSync 1256] (tdm_slave restarting_cbg 0 1 1 16 16))) = WaitInitSync.
Proof.
  assert (Hr : restart (snd (run restarting_cbg [FrameSync 1000; FrameSync 1256] (tdm_slave restarting_cbg 0 1 1 16 16))) = TDM_RESTART)
    by (vm_compute; reflexivity).
  split; [exact Hr|].
  pose proof (restart_is_never_left restarting_cbg 0 1 1 16 16
                [FrameSync 1000; FrameSync 1256]
                [FrameSync 1512; BclkTrigger loopback; FrameSync 1768] Hr) as H.
  cbv zeta in H. destruct H as (_ & H & _). exact H.
Defined.

Lemma handler_schedule_free_running_witness :
  fst (run (test_cbg 0) [FrameSync 1000] (tdm_slave (test_cbg 0) 0 1 1 16 16)) = WaitFrameSync /\
  fst (run (test_cbg 0) [BclkTrigger loopback; FrameSync 1300; BclkTrigger loopback]
         (run (test_cbg 0) [FrameSync 1000] (tdm_slave (test_cbg 0) 0 1 1 16 16))) = WaitFrameSync /\
  bclk_trigger_time (snd (run (test_cbg 0) [BclkTrigger loopback; FrameSync 1300; BclkTrigger loopback]
         (run (test_cbg 0) [FrameSync 1000] (tdm_slave (test_cbg 0) 0 1 1 16 16)))) =
  (bclk_trigger_time (snd (run (test_cbg 0) [FrameSync 1000] (tdm_slave (test_cbg 0) 0 1 1 16 16))) +
   Z.of_nat (length (filter is_bclk_trigger [BclkTrigger loopback; FrameSync 1300; BclkTrigger loopback])) * (16 * 16))
  mod modulus.
Proof.
  assert (Hc : fst (run (test_cbg 0) [FrameSync 1000] (tdm_slave (test_cbg 0) 0 1 1 16 16)) = WaitFrameSync)
    by (vm_compute; reflexivity).
  assert (Hc' : fst (run (test_cbg 0) [BclkTrigger loopback; FrameSync 1300; BclkTrigger loopback]
         (run (test_cbg 0) [FrameSync 1000] (tdm_slave (test_cbg 0) 0 1 1 16 16))) = WaitFrameSync)
    by (vm_compute; reflexivity).
  split; [exact Hc|]. split; [exact Hc'|].
  pose proof (handler_schedule_free_running (test_cbg 0) 0 1 1 16 16 [FrameSync 1000]
                [BclkTrigger loopback; FrameSync 1300; BclkTrigger loopback] Hc Hc') as H.
  cbv zeta in H. destruct H as (_ & H). exact H.
Defined.

Lemma tdm_process_copies_frame_witness :
  0 <= 16 <= TDM_MAX_CHANS /\
  0 <= TestApp.cnt TestApp.initial_globals < TestApp.TEST_FRAME_COUNT /\
  exists send' g',
    TestApp.tdm_process TestApp.initial_globals 1 1 16 16 zero_buffer zero_buffer =
    TestApp.Returns (zero_buffer, send') g'.
Proof.
  assert (Hn : 0 <= 16 <= TDM_MAX_CHANS) by (unfold TDM_MAX_CHANS; lia).
  assert (Hc : 0 <= TestApp.cnt TestApp.initial_globals < TestApp.TEST_FRAME_COUNT)
    by (cbn; unfold TestApp.TEST_FRAME_COUNT; lia).
  split; [exact Hn|]. split; [exact Hc|].
  pose proof (tdm_process_copies_frame TestApp.initial_globals 1 1 16 16
                zero_buffer zero_buffer Hn) as [H _].
  destruct (H Hc) as (send' & g' & E & _).
  exists send', g'. exact E.
Defined.

Lemma test_program_sends_pattern_witness :
  exists g,
    app_data (snd (run (TestApp.i_tdm 0) [FrameSync 1000] (TestApp.main_tdm_slave 0))) =
    TestApp.Running g /\
    buffer_of (snd (run (TestApp.i_tdm 0) [FrameSync 1000] (TestApp.main_tdm_slave 0)))
      (working_out_buffer (tdm_interrupt_data (snd (run (TestApp.i_tdm 0) [FrameSync 1000] (TestApp.main_tdm_slave 0))))) 0 0 =
    0x12345678.
Proof.
  destruct (app_data (snd (run (TestApp.i_tdm 0) [FrameSync 1000] (TestApp.main_tdm_slave 0))))
    as [g | s g |] eqn:E.
  - exists g. split; [reflexivity|].
    pose proof (test_program_sends_pattern 0 [FrameSync 1000] g E) as H.
    destruct H as (_ & H & _). exact H.
  - exfalso. vm_compute in E. discriminate E.
  - exfalso. vm_compute in E. discriminate E.
Defined.

End FurtherRuns.
